(** * ml-orchestrator: the flow execution core, embedded and verified

    The development follows the layout of the Python sources:

    - [Py]            the fragment of Python values and string operations
                      the core relies on (truthiness, [str()], [in]);
    - [Settings]      [config/settings.py]: [StepStatus], [FlowStep];
    - [Models]        [core/models.py]: [StepResult], [ExecutionContext];
    - [Runtime]       the store the program runs on, the exception-and-state
                      monad in which effectful code is written, and the
                      interface to the outside (environment, network,
                      thread scheduling);
    - [FlowRouter]    [core/flow_router.py]: [should_skip_step];
    - [HttpClient]    [utils/http_client.py]: [HttpResponse], the request
                      loop;
    - [StepExecutor]  [core/step_executor.py];
    - [FlowExecutor]  [core/flow_executor.py];
    - [Orchestrator]  the engine with the step runner plugged in, as
                      [OrchestratorHandler] builds it;
    - [FlowConfig]    the step catalogue of [config/settings.py].

    The modules [PlanSpec], [StepSpec], [RunnerSpec] and [EngineSpec]
    hold the vocabulary in which the properties are stated, [Examples]
    the concrete inputs they are run on.  The properties follow.

    Logging is not modelled (the structured logger only serialises its
    arguments), with one exception: the payload size that
    [HttpClient._execute_request] computes for its first log call, since
    [json.dumps] can raise there on a request that passed validation.
    Wall-clock readings are not modelled either: [StepResult] is kept
    without its [duration], [started_at] and [completed_at] fields. *)

From Stdlib Require Import ZArith String Ascii List Lia DecimalString.
From stdpp Require Import base option list gmap strings.

Local Open Scope Z_scope.
Local Open Scope string_scope.

(* ===================================================================== *)
(** * Python values *)
(* ===================================================================== *)

Module Py.

(** A value of type [Any] as the core observes it.  Request parameters
    are JSON scalars; every other object is represented by the only two
    things the code ever asks of it: its [str()] and its truth value. *)
Inductive pyval : Type :=
| VNone
| VBool (b : bool)
| VInt (z : Z)
| VStr (s : string)
| VObj (repr : string) (truth : bool).

(** [bool(v)] *)
Definition truthy (v : pyval) : bool :=
  match v with
  | VNone => false
  | VBool b => b
  | VInt z => negb (Z.eqb z 0)
  | VStr s => negb (String.eqb s "")
  | VObj _ t => t
  end.

(** [str(z)] for an integer. *)
Definition str_of_int (z : Z) : string :=
  NilZero.string_of_int (Z.to_int z).

(** [str(v)], which is also what an f-string substitutes. *)
Definition str (v : pyval) : string :=
  match v with
  | VNone => "None"
  | VBool true => "True"
  | VBool false => "False"
  | VInt z => str_of_int z
  | VStr s => s
  | VObj r _ => r
  end.

(** [d.get(k)]: a missing key reads as [None]. *)
Definition get (d : gmap string pyval) (k : string) : pyval :=
  match d !! k with
  | Some v => v
  | None => VNone
  end.

(** [k in d] *)
Definition has_key (d : gmap string pyval) (k : string) : bool :=
  bool_decide (is_Some (d !! k)).

(** [sub in s] on strings. *)
Fixpoint str_in (sub s : string) : bool :=
  String.prefix sub s
  || match s with
     | EmptyString => false
     | String _ s' => str_in sub s'
     end.

(** Truth value of an [Optional[str]]. *)
Definition truthy_opt (o : option string) : bool :=
  match o with
  | Some s => negb (String.eqb s "")
  | None => false
  end.

(** [a or b] where [a] is an [Optional[str]] and [b] a string. *)
Definition or_else (a : option string) (b : string) : string :=
  match a with
  | Some s => if String.eqb s "" then b else s
  | None => b
  end.

(** A JSON scalar: [None], a [bool], an [int] or a [str].  [json.dumps]
    serialises every one of them. *)
Definition json_scalar (v : pyval) : bool :=
  match v with
  | VObj _ _ => false
  | _ => true
  end.

(** A raised exception: [str(e)] and the text of
    [traceback.format_exc()] are what handlers read. *)
Record exn : Type := Exn {
  exn_type : string;
  exn_str : string;
  exn_traceback : string
}.

End Py.

(* ===================================================================== *)
(** * config/settings.py *)
(* ===================================================================== *)

Module Settings.

Inductive StepStatus : Type :=
| SUCCESS
| FAILED
| SKIPPED
| CRITICAL_ERROR.

#[global] Instance StepStatus_eq_dec : EqDecision StepStatus.
Proof. solve_decision. Defined.

Record FlowStep : Type := mkFlowStep {
  name : string;
  function_name : string;
  url_env_var : string;
  timeout : Z;
  required_params : list string;
  parallel_group : option string
}.

#[global] Instance FlowStep_eq_dec : EqDecision FlowStep.
Proof. solve_decision. Defined.

End Settings.

(* ===================================================================== *)
(** * core/models.py *)
(* ===================================================================== *)

Module Models.
Import Settings.

Record StepResult : Type := mkStepResult {
  step_name : string;
  status : StepStatus;
  response : Py.pyval;
  error : option string;
  error_details : option string;
  url : option string;
  status_code : option Z
}.

Record ExecutionContext : Type := mkExecutionContext {
  execution_id : string;
  user_id : string;
  session_id : string;
  flow_name : string;
  request_data : gmap string Py.pyval;
  results : list StepResult
}.

(** [ExecutionContext.add_result]: [self.results.append(result)]. *)
Definition add_result (self : ExecutionContext) (result : StepResult)
  : ExecutionContext :=
  {| execution_id := execution_id self;
     user_id := user_id self;
     session_id := session_id self;
     flow_name := flow_name self;
     request_data := request_data self;
     results := results self ++ [result] |}.

(** [ExecutionContext.has_critical_errors] *)
Definition is_critical (r : StepResult) : bool :=
  bool_decide (status r = CRITICAL_ERROR).

Definition has_critical_errors (self : ExecutionContext) : bool :=
  existsb is_critical (results self).

End Models.

(* ===================================================================== *)
(** * The store, the outside world and the monad of effectful code *)
(* ===================================================================== *)

Module Runtime.
Import Settings Models.

(** One call of [requests.Session.request] as [HttpClient] issues it. *)
Record Request : Type := mkRequest {
  req_method : string;
  req_url : string;
  req_headers : gmap string string;
  req_json : gmap string Py.pyval;
  req_timeout : Z
}.

(** The [except] clause of [HttpClient._execute_request] that an
    exception raised by the [requests] library falls into. *)
Inductive Fault : Type :=
| Timeout
| ConnectionError
| RequestException (response_status : option Z)
| Unexpected.

(** What [session.request] does: it returns a response (status code,
    [response.ok], parsed body, headers) or raises. *)
Inductive Reply : Type :=
| Responded (code : Z) (ok : bool) (body : Py.pyval)
            (headers : gmap string string)
| Raises (kind : Fault) (e : Py.exn).

(** Everything the program does not control: the process environment
    read by [os.getenv], the network behind [requests], the order in
    which the futures of a thread pool complete, and the verdict of the
    JSON encoder.  A pool completes every future it was given exactly
    once, hence the permutation.

    [json_dumps_raises payload] is the exception [json.dumps(payload)]
    raises, if it raises: a [TypeError] for an object it cannot
    serialise.  Whether it can is not visible on an opaque object, and
    which of several offending values it reports depends on the insertion
    order of the dictionary, which a map does not keep; so the encoder is
    a function of the host that serialises every payload of scalars. *)
Class Host : Type := {
  net : Type;
  getenv : net -> string -> option string;
  session_request : Request -> net -> Reply * net;
  completion_order : net -> list FlowStep -> list FlowStep;
  completion_order_perm :
    forall (w : net) (l : list FlowStep), completion_order w l ≡ₚ l;
  json_dumps_raises : gmap string Py.pyval -> option Py.exn;
  json_dumps_scalars :
    forall payload : gmap string Py.pyval,
      map_Forall (fun _ v => Py.json_scalar v = true) payload ->
      json_dumps_raises payload = None
}.

(** Ghost history of the two actions the specification talks about:
    handing a step to the Step Runner, and invoking the transport. *)
Inductive Event : Type :=
| Dispatched (step : FlowStep)
| Invoked (request : Request).

(** The store: the [ExecutionContext] object of the run (passed by
    reference in the source), the outside world, the history. *)
Record Store `{Host} : Type := mkStore {
  context : ExecutionContext;
  outside : net;
  history : list Event
}.

Inductive Outcome (A : Type) : Type :=
| Return (a : A)
| Raised (e : Py.exn).
Arguments Return {A} a.
Arguments Raised {A} e.

Section Monad.
Context `{Host}.

(** A computation runs on the store and returns or raises; either
    way the store it leaves behind is kept. *)
Definition M (A : Type) : Type := Store -> Outcome A * Store.

Definition ret {A} (a : A) : M A := fun st => (Return a, st).

Definition bind {A B} (m : M A) (k : A -> M B) : M B :=
  fun st =>
    match m st with
    | (Return a, st') => k a st'
    | (Raised e, st') => (Raised e, st')
    end.

(** [raise e] *)
Definition raise {A} (e : Py.exn) : M A := fun st => (Raised e, st).

(** [try: body  except Exception as e: handler(e)] *)
Definition try_except {A} (body : M A) (handler : Py.exn -> M A) : M A :=
  fun st =>
    match body st with
    | (Return a, st') => (Return a, st')
    | (Raised e, st') => handler e st'
    end.

(** Dereference the context object. *)
Definition read_context : M ExecutionContext :=
  fun st => (Return (context st), st).

(** [context.add_result(result)] on the object in the store. *)
Definition context_add_result (result : StepResult) : M unit :=
  fun st =>
    (Return tt,
     {| context := add_result (context st) result;
        outside := outside st;
        history := history st |}).

(** Append one event to the ghost history. *)
Definition record (ev : Event) : M unit :=
  fun st =>
    (Return tt,
     {| context := context st;
        outside := outside st;
        history := history st ++ [ev] |}).

(** Read from the outside world. *)
Definition observe {A} (f : net -> A) : M A :=
  fun st => (Return (f (outside st)), st).

(** Act on the outside world. *)
Definition interact {A} (f : net -> A * net) : M A :=
  fun st =>
    let (a, w) := f (outside st) in
    (Return a,
     {| context := context st; outside := w; history := history st |}).

(** [for x in xs: body(x)] *)
Fixpoint for_each {A} (body : A -> M unit) (xs : list A) : M unit :=
  match xs with
  | [] => ret tt
  | x :: xs' => bind (body x) (fun _ => for_each body xs')
  end.

End Monad.

(** Steps handed to the Step Runner, in dispatch order. *)
Definition dispatched (h : list Event) : list FlowStep :=
  omap (fun ev => match ev with Dispatched s => Some s | _ => None end) h.

(** Transport invocations, in call order. *)
Definition invoked (h : list Event) : list Request :=
  omap (fun ev => match ev with Invoked r => Some r | _ => None end) h.

End Runtime.

Declare Scope py_scope.
Delimit Scope py_scope with py.
Notation "'let*' x ':=' c 'in' k" :=
  (Runtime.bind c (fun x => k))
  (at level 10, x pattern, c at level 100, k at level 200) : py_scope.
Notation "c ';;' k" :=
  (Runtime.bind c (fun _ => k))
  (at level 100, k at level 200, right associativity) : py_scope.
Local Open Scope py_scope.

(* ===================================================================== *)
(** * core/flow_router.py *)
(* ===================================================================== *)

Module FlowRouter.
Import Settings.

(** [FlowRouter.should_skip_step] *)
Definition should_skip_step (step : FlowStep)
    (request_data : gmap string Py.pyval) : bool * option string :=
  if String.eqb (name step) "match_usuario_profissao"
     && Py.truthy (Py.get request_data "position_id")
  then (true, Some "position_id provided")
  else if String.eqb (name step) "match_candidato"
          && Py.truthy (Py.get request_data "vacancy_id")
  then (true, Some "vacancy_id provided")
  else if String.eqb (name step) "match_usuario_carreira"
  then
    if Py.truthy (Py.get request_data "position_id")
       && Py.truthy (Py.get request_data "career_name")
    then (true, Some "both position_id and career_name provided")
    else (false, None)
  else (false, None).

End FlowRouter.

(* ===================================================================== *)
(** * utils/http_client.py *)
(* ===================================================================== *)

Module HttpClient.
Import Runtime.

Record HttpResponse : Type := mkHttpResponse {
  status_code : Z;
  body : Py.pyval;
  status : string;
  url : string;
  method : string;
  error : option string;
  headers : option (gmap string string)
}.

(** [HttpResponse.is_success]: [200 <= status_code < 300] *)
Definition is_success (r : HttpResponse) : bool :=
  (200 <=? status_code r)%Z && (status_code r <? 300)%Z.

(** [HttpResponse.is_client_error] *)
Definition is_client_error (r : HttpResponse) : bool :=
  (400 <=? status_code r)%Z && (status_code r <? 500)%Z.

(** [HttpResponse.is_server_error] *)
Definition is_server_error (r : HttpResponse) : bool :=
  (500 <=? status_code r)%Z && (status_code r <? 600)%Z.

(** The client object.  [session_headers] is [self.session.headers]
    after [__init__] has merged the default headers into it.
    [retry_count] is the number of extra attempts, a count: the clients
    the program builds have none (the default, 0). *)
Record HttpClient : Type := mkHttpClient {
  default_timeout : Z;
  session_headers : gmap string string;
  retry_count : nat
}.

Section WithHost.
Context `{Host}.

(** [len(json.dumps(json_payload)) if json_payload else 0], the payload
    size of the first log call: an empty payload is not serialised, any
    other is, and what [json.dumps] raises is raised here. *)
Definition payload_size (json_payload : gmap string Py.pyval) : M unit :=
  if bool_decide (json_payload = ∅) then ret tt
  else
    match json_dumps_raises json_payload with
    | Some e => raise e
    | None => ret tt
    end.

(** [HttpClient._execute_request].  A [timeout] of [None] or [0]
    falls back to the default; the headers of the call override the
    session's.  The payload size is computed inside the [try] block,
    before [session.request] is called.  Only the three [requests]
    exception classes are caught; anything else propagates. *)
Definition _execute_request (self : HttpClient) (method url : string)
    (headers : gmap string string) (json_payload : gmap string Py.pyval)
    (timeout : option Z) : M HttpResponse :=
  let timeout :=
    match timeout with
    | Some t => if (t =? 0)%Z then default_timeout self else t
    | None => default_timeout self
    end in
  let request_headers := headers ∪ session_headers self in
  let request :=
    mkRequest method url request_headers json_payload timeout in
  payload_size json_payload ;;
  record (Invoked request) ;;
  let* reply := interact (session_request request) in
  match reply with
  | Responded code ok body response_headers =>
      ret {| status_code := code;
             body := body;
             status := if ok then "success" else "failed";
             url := url;
             method := method;
             error := None;
             headers := Some response_headers |}
  | Raises Timeout _ =>
      ret {| status_code := 0;
             body := Py.VNone;
             status := "timeout";
             url := url;
             method := method;
             error := Some ("Request timeout after "
                            ++ Py.str_of_int timeout ++ "s");
             headers := None |}
  | Raises ConnectionError e =>
      ret {| status_code := 0;
             body := Py.VNone;
             status := "connection_error";
             url := url;
             method := method;
             error := Some ("Connection error: " ++ Py.exn_str e);
             headers := None |}
  | Raises (RequestException response_status) e =>
      ret {| status_code := default 0%Z response_status;
             body := Py.VNone;
             status := "error";
             url := url;
             method := method;
             error := Some ("Request failed: " ++ Py.exn_str e);
             headers := None |}
  | Raises Unexpected e => raise e
  end.

(** The loop of [HttpClient.request]: [remaining] is
    [retry_count - attempt], so [attempt < retry_count] reads
    [remaining] is a successor. *)
Fixpoint request_attempts (self : HttpClient) (remaining : nat)
    (method url : string) (headers : gmap string string)
    (json_payload : gmap string Py.pyval) (timeout : option Z)
    : M HttpResponse :=
  let* response :=
    _execute_request self method url headers json_payload timeout in
  if is_success response || is_client_error response then ret response
  else
    match remaining with
    | S remaining' =>
        if is_server_error response || (status_code response =? 0)%Z
        then request_attempts self remaining' method url headers
                              json_payload timeout
        else ret response
    | O => ret response
    end.

(** [HttpClient.request] *)
Definition request (self : HttpClient) (method url : string)
    (headers : gmap string string) (json_payload : gmap string Py.pyval)
    (timeout : option Z) : M HttpResponse :=
  request_attempts self (retry_count self) method url headers
                   json_payload timeout.

(** [HttpClient.post] *)
Definition post (self : HttpClient) (url : string)
    (json_payload : gmap string Py.pyval)
    (headers : gmap string string) (timeout : option Z)
    : M HttpResponse :=
  request self "POST" url headers json_payload timeout.

End WithHost.

End HttpClient.

(* ===================================================================== *)
(** * core/step_executor.py *)
(* ===================================================================== *)

Module StepExecutor.
Import Settings Models Runtime.

(** [d.update(items)] *)
Definition update (d : gmap string Py.pyval)
    (items : list (string * Py.pyval)) : gmap string Py.pyval :=
  fold_left (fun m kv => <[kv.1 := kv.2]> m) items d.

(** [{k: v for k, v in params.items() if v is not None}] *)
Definition not_none (kv : string * Py.pyval) : bool :=
  match kv.2 with
  | Py.VNone => false
  | _ => true
  end.

Definition vacancy_params (request_data : gmap string Py.pyval)
  : list (string * Py.pyval) :=
  [ ("vacancy_id", Py.get request_data "vacancy_id");
    ("vacancy_name", Py.get request_data "vacancy_name");
    ("vacancy_description", Py.get request_data "vacancy_description") ].

Definition profession_params (request_data : gmap string Py.pyval)
  : list (string * Py.pyval) :=
  [ ("position_id", Py.get request_data "position_id");
    ("career_name", Py.get request_data "career_name");
    ("position_name", Py.get request_data "position_name") ].

(** [StepExecutor._prepare_payload] *)
Definition _prepare_payload (step : FlowStep) (context : ExecutionContext)
  : gmap string Py.pyval :=
  let request_data := request_data context in
  let payload : gmap string Py.pyval :=
    {[ "user_id" := Py.VStr (user_id context) ]} in
  if String.eqb (name step) "create_embeddings"
  then {[ "sessionId" := Py.VStr (session_id context) ]}
  else
    let payload :=
      if Py.str_in "vacancy" (name step)
      then update payload (filter not_none (vacancy_params request_data))
      else payload in
    let payload :=
      if Py.str_in "profession" (name step)
         || Py.str_in "carreira" (name step)
      then update payload (filter not_none (profession_params request_data))
      else payload in
    payload.

Definition vacancy_token_keys : list string :=
  [ "match_candidato_token"; "match_analysis_user_vacancy_token";
    "gap_analysis_user_vacancy_token"; "suggest_course_vacancy_token" ].

Definition profession_token_keys : list string :=
  [ "match_user_profession_token"; "match_user_career_token";
    "match_analysis_user_profession_token";
    "gap_analysis_user_profession_token";
    "suggest_course_profession_token" ].

(** [for key in keys: if key in request_data: token = request_data.get(key); break] *)
Fixpoint first_present (request_data : gmap string Py.pyval)
    (keys : list string) (token : Py.pyval) : Py.pyval :=
  match keys with
  | [] => token
  | key :: keys' =>
      if Py.has_key request_data key
      then Py.get request_data key
      else first_present request_data keys' token
  end.

(** The token [_prepare_headers] settles on before it tests it. *)
Definition select_token (step : FlowStep) (context : ExecutionContext)
  : Py.pyval :=
  let token_key := name step ++ "_token" in
  let token := Py.get (request_data context) token_key in
  if negb (Py.truthy token)
  then
    if Py.str_in "vacancy" (name step)
    then first_present (request_data context) vacancy_token_keys token
    else if Py.str_in "profession" (name step)
            || Py.str_in "carreira" (name step)
    then first_present (request_data context) profession_token_keys token
    else token
  else token.

(** [StepExecutor._prepare_headers] *)
Definition _prepare_headers (step : FlowStep) (context : ExecutionContext)
  : gmap string string :=
  let headers : gmap string string := ∅ in
  let token := select_token step context in
  if Py.truthy token
  then <["Authorization" := "Bearer " ++ Py.str token]> headers
  else headers.

(** The [HttpClient] built by [StepExecutor.__init__]: the session
    headers are the two the program sets.  Those a [requests.Session]
    carries from the start ([User-Agent], [Accept-Encoding], [Accept],
    [Connection]) depend on the library version and are left out. *)
Definition http_client : HttpClient.HttpClient :=
  {| HttpClient.default_timeout := 120;
     HttpClient.session_headers :=
       {[ "Content-Type" := "application/json";
          "X-Orchestrator" := "senai-ml-orchestrator" ]};
     HttpClient.retry_count := 0 |}.

Section WithHost.
Context `{Host}.

(** The five calls [execute_step] makes inside its [try] block.  In
    Python each of them is a method looked up at run time and each
    may raise. *)
Class Collaborators : Type := {
  call_should_skip_step :
    FlowStep -> gmap string Py.pyval -> M (bool * option string);
  call_get_url : FlowStep -> M (option string);
  call_prepare_payload :
    FlowStep -> ExecutionContext -> M (gmap string Py.pyval);
  call_prepare_headers :
    FlowStep -> ExecutionContext -> M (gmap string string);
  call_post :
    string -> gmap string Py.pyval -> gmap string string -> option Z ->
    M HttpClient.HttpResponse
}.

(** [FlowStep.get_url]: [os.getenv(self.url_env_var)] *)
Definition get_url (step : FlowStep) : M (option string) :=
  observe (fun w => getenv w (url_env_var step)).

(** The collaborators as the sources define them. *)
#[export] Instance wired : Collaborators := {
  call_should_skip_step step request_data :=
    ret (FlowRouter.should_skip_step step request_data);
  call_get_url := get_url;
  call_prepare_payload step context :=
    ret (_prepare_payload step context);
  call_prepare_headers step context :=
    ret (_prepare_headers step context);
  call_post := HttpClient.post http_client
}.

Definition skipped_result (step : FlowStep) (reason : string)
  : StepResult :=
  {| step_name := name step;
     status := SKIPPED;
     response := Py.VNone;
     error := Some reason;
     error_details := None;
     url := None;
     status_code := None |}.

Definition critical_result (step : FlowStep) (e : Py.exn)
  : StepResult :=
  {| step_name := name step;
     status := CRITICAL_ERROR;
     response := Py.VNone;
     error := Some (Py.exn_str e);
     error_details := Some (Py.exn_traceback e);
     url := None;
     status_code := None |}.

(** [StepExecutor.execute_step] *)
Definition execute_step {services : Collaborators} (step : FlowStep)
    (context : ExecutionContext) : M StepResult :=
  try_except
    (let* (should_skip, skip_reason) :=
       call_should_skip_step step (request_data context) in
     if should_skip : bool
     then
       ret (skipped_result step
              ("Skipped: " ++ default "None" skip_reason))
     else
       let* url := call_get_url step in
       if negb (Py.truthy_opt url)
       then
         ret (skipped_result step
                ("URL not configured: " ++ url_env_var step))
       else
         let url := default "" url in
         let* payload := call_prepare_payload step context in
         let* headers := call_prepare_headers step context in
         let* response :=
           call_post url payload headers (Some (timeout step)) in
         let '(status, error) :=
           if HttpClient.is_success response
           then (SUCCESS, None)
           else (FAILED,
                 Some (Py.or_else (HttpClient.error response)
                         ("HTTP " ++ Py.str_of_int
                            (HttpClient.status_code response)))) in
         ret {| step_name := name step;
                status := status;
                response := HttpClient.body response;
                error := error;
                error_details := None;
                url := Some url;
                status_code :=
                  Some (HttpClient.status_code response) |})
    (fun e => ret (critical_result step e)).

End WithHost.

End StepExecutor.

(* ===================================================================== *)
(** * core/flow_executor.py *)
(* ===================================================================== *)

Module FlowExecutor.
Import Settings Models Runtime.
Local Open Scope list_scope.

(** ** The group planner *)

(** The three local variables of [_group_steps_by_parallelism]. *)
Record PlannerState : Type := mkPlannerState {
  groups : list (list FlowStep);
  current_group : list FlowStep;
  current_parallel_group : option string
}.

(** [if current_group:] *)
Definition nonempty {A} (l : list A) : bool :=
  match l with
  | [] => false
  | _ :: _ => true
  end.

(** One iteration of the [for step in steps] loop. *)
Definition planner_step (st : PlannerState) (step : FlowStep)
  : PlannerState :=
  if Py.truthy_opt (parallel_group step)
  then
    if bool_decide (parallel_group step = current_parallel_group st)
    then
      {| groups := groups st;
         current_group := current_group st ++ [step];
         current_parallel_group := current_parallel_group st |}
    else
      {| groups :=
           if nonempty (current_group st)
           then groups st ++ [current_group st]
           else groups st;
         current_group := [step];
         current_parallel_group := parallel_group step |}
  else
    let st :=
      if nonempty (current_group st)
      then {| groups := groups st ++ [current_group st];
              current_group := [];
              current_parallel_group := None |}
      else st in
    {| groups := groups st ++ [[step]];
       current_group := current_group st;
       current_parallel_group := current_parallel_group st |}.

(** [FlowExecutor._group_steps_by_parallelism] *)
Definition _group_steps_by_parallelism (steps : list FlowStep)
  : list (list FlowStep) :=
  let st := fold_left planner_step steps (mkPlannerState [] [] None) in
  if nonempty (current_group st)
  then groups st ++ [current_group st]
  else groups st.

(** ** The engine *)

Section Engine.
Context `{Host}.

(** [self.max_workers] and [self.step_executor.execute_step]. *)
Variable max_workers : Z.
Variable step_executor : FlowStep -> ExecutionContext -> M StepResult.

(** [FlowExecutor._execute_single_step] *)
Definition _execute_single_step (step : FlowStep)
    (context : ExecutionContext) : M StepResult :=
  record (Dispatched step) ;;
  step_executor step context.

(** The result built in the [except] branch of the collection loop. *)
Definition unhandled_result (step : FlowStep) (e : Py.exn)
  : StepResult :=
  {| step_name := name step;
     status := CRITICAL_ERROR;
     response := Py.VNone;
     error := Some ("Unhandled exception: " ++ Py.exn_str e)%string;
     error_details := Some (Py.exn_traceback e);
     url := None;
     status_code := None |}.

(** [for future in as_completed(future_to_step)]: the futures are
    visited in completion order; [future.result()] returns what the
    worker returned or re-raises what it raised.  Each worker's call
    is taken to act on the store at the point its future completes. *)
Fixpoint collect (completed : list FlowStep) (context : ExecutionContext)
    (results : list StepResult) : M (list StepResult) :=
  match completed with
  | [] => ret results
  | step :: completed' =>
      let* result :=
        try_except (step_executor step context)
                   (fun e => ret (unhandled_result step e)) in
      collect completed' context (results ++ [result])
  end.

(** [FlowExecutor._execute_parallel_steps].  [ThreadPoolExecutor]
    raises [ValueError] when given no worker. *)
Definition _execute_parallel_steps (steps : list FlowStep)
    (context : ExecutionContext) : M (list StepResult) :=
  if (Z.min (Z.of_nat (length steps)) max_workers <=? 0)%Z
  then
    raise (Py.Exn "ValueError" "max_workers must be greater than 0" "")
  else
    for_each (fun step => record (Dispatched step)) steps ;;
    let* completed := observe (fun w => completion_order w steps) in
    collect completed context [].

(** The [for group_index, group in enumerate(step_groups)] loop of
    [execute_flow]; returning without the recursive call is [break]. *)
Fixpoint execute_groups (step_groups : list (list FlowStep))
    (results : list StepResult) : M (list StepResult) :=
  match step_groups with
  | [] => ret results
  | group :: step_groups' =>
      match group with
      | [step] =>
          let* context := read_context in
          let* result := _execute_single_step step context in
          let results := results ++ [result] in
          context_add_result result ;;
          if is_critical result
          then ret results
          else execute_groups step_groups' results
      | _ =>
          let* context := read_context in
          let* group_results := _execute_parallel_steps group context in
          let results := results ++ group_results in
          for_each context_add_result group_results ;;
          if existsb is_critical group_results
          then ret results
          else execute_groups step_groups' results
      end
  end.

(** [FlowExecutor.execute_flow] *)
Definition execute_flow (steps : list FlowStep)
  : M (list StepResult) :=
  let step_groups := _group_steps_by_parallelism steps in
  execute_groups step_groups [].

End Engine.

End FlowExecutor.

(* ===================================================================== *)
(** * The orchestrator as [OrchestratorHandler] assembles it *)
(* ===================================================================== *)

Module Orchestrator.
Import Settings Models Runtime.

Section WithHost.
Context `{Host}.

(** [FlowExecutor()]: four workers, a [StepExecutor()] inside. *)
Definition default_max_workers : Z := 4.

Definition execute_step (step : FlowStep) (context : ExecutionContext)
  : M StepResult :=
  StepExecutor.execute_step (services := StepExecutor.wired) step context.

Definition execute_groups (max_workers : Z)
    (step_groups : list (list FlowStep)) (results : list StepResult)
  : M (list StepResult) :=
  FlowExecutor.execute_groups max_workers execute_step
                              step_groups results.

Definition execute_flow (max_workers : Z) (steps : list FlowStep)
  : M (list StepResult) :=
  FlowExecutor.execute_flow max_workers execute_step steps.

End WithHost.

End Orchestrator.

(* ===================================================================== *)
(** * config/settings.py: the step and flow catalogue *)
(* ===================================================================== *)

Module FlowConfig.
Import Settings.

(** [FlowConfig.STEPS] *)
Definition create_embeddings : FlowStep :=
  mkFlowStep "create_embeddings" "_call_create_user_embeddings"
    "DEFAULT_CREATE_USER_EMBEDDINGS_URL" 300 ["session_id"] None.

Definition match_candidato : FlowStep :=
  mkFlowStep "match_candidato" "_call_match_candidato"
    "DEFAULT_MATCH_CANDIDATO_URL" 120 ["user_id"] None.

Definition match_analysis_user_vacancy : FlowStep :=
  mkFlowStep "match_analysis_user_vacancy"
    "_call_match_analysis_user_vacancy"
    "DEFAULT_MATCH_ANALYSIS_USER_VACANCY_URL" 120 ["user_id"]
    (Some "vacancy_parallel").

Definition gap_analysis_user_vacancy : FlowStep :=
  mkFlowStep "gap_analysis_user_vacancy" "_call_gap_analysis_user_vacancy"
    "DEFAULT_GAP_ANALYSIS_USER_VACANCY_URL" 120 ["user_id"] None.

Definition suggest_course_vacancy : FlowStep :=
  mkFlowStep "suggest_course_vacancy" "_call_suggest_course_vacancy"
    "DEFAULT_SUGGEST_COURSE_VACANCY_URL" 120 ["user_id"]
    (Some "vacancy_parallel").

Definition match_usuario_profissao : FlowStep :=
  mkFlowStep "match_usuario_profissao" "_call_match_usuario_profissao"
    "MATCH_USUARIO_PROFISSAO_URL" 120 ["user_id"] None.

Definition match_usuario_carreira : FlowStep :=
  mkFlowStep "match_usuario_carreira" "_call_match_usuario_carreira"
    "MATCH_USUARIO_CARREIRA_URL" 120 ["user_id"]
    (Some "profession_parallel").

Definition match_analysis_user_profession : FlowStep :=
  mkFlowStep "match_analysis_user_profession"
    "_call_match_analysis_user_profession"
    "MATCH_ANALYSIS_USER_PROFESSION_URL" 120 ["user_id"]
    (Some "profession_parallel").

Definition gap_analysis_user_profession : FlowStep :=
  mkFlowStep "gap_analysis_user_profession"
    "_call_gap_analysis_user_profession"
    "GAP_ANALYSIS_USER_PROFESSION_URL" 120 ["user_id"] None.

Definition suggest_course_profession : FlowStep :=
  mkFlowStep "suggest_course_profession" "_call_suggest_course_profession"
    "SUGGEST_COURSE_PROFESSION_URL" 120 ["user_id"] None.

(** The steps of [FLOWS[FlowName.UPDATE_PROFILE]]. *)
Definition update_profile_steps : list FlowStep :=
  [ create_embeddings;
    match_usuario_profissao;
    match_candidato;
    match_usuario_carreira;
    match_analysis_user_profession;
    gap_analysis_user_profession;
    suggest_course_profession;
    match_analysis_user_vacancy;
    gap_analysis_user_vacancy;
    suggest_course_vacancy ].

End FlowConfig.

(* ===================================================================== *)
(** * config/settings.py: flow names and flow definitions *)
(* ===================================================================== *)

Module FlowCatalogue.
Import Settings.

(** [class FlowName(str, Enum)] *)
Inductive FlowName : Type :=
| UPDATE_PROFILE
| FIRST_LOGIN
| COURSE_TO_PROFESSION
| ANALYSIS_TO_PROFESSION
| COURSE_TO_VACANCY
| ANALYSIS_TO_VACANCY.

#[global] Instance FlowName_eq_dec : EqDecision FlowName.
Proof. solve_decision. Defined.

(** The string a member stands for; a member hashes and compares as it. *)
Definition value (flow : FlowName) : string :=
  match flow with
  | UPDATE_PROFILE => "update_profile"
  | FIRST_LOGIN => "first_login"
  | COURSE_TO_PROFESSION => "course_to_profession"
  | ANALYSIS_TO_PROFESSION => "analysis_to_profession"
  | COURSE_TO_VACANCY => "course_to_vacancy"
  | ANALYSIS_TO_VACANCY => "analysis_to_vacancy"
  end.

(** [@dataclass FlowDefinition].  Its field [name] is [flow_name] here:
    [name] is the field of [FlowStep]. *)
Record FlowDefinition : Type := mkFlowDefinition {
  flow_name : string;
  steps : list FlowStep;
  requires_embeddings : bool;
  description : string
}.

(** [FlowConfig.FLOWS] *)
Definition first_login_steps : list FlowStep :=
  [ FlowConfig.match_usuario_profissao;
    FlowConfig.match_candidato;
    FlowConfig.match_usuario_carreira;
    FlowConfig.match_analysis_user_profession;
    FlowConfig.gap_analysis_user_profession;
    FlowConfig.suggest_course_profession;
    FlowConfig.match_analysis_user_vacancy;
    FlowConfig.gap_analysis_user_vacancy;
    FlowConfig.suggest_course_vacancy ].

Definition FLOWS : gmap string FlowDefinition :=
  list_to_map
    [ (value UPDATE_PROFILE,
       mkFlowDefinition (value UPDATE_PROFILE)
         FlowConfig.update_profile_steps true
         "Fluxo completo com criação de embeddings");
      (value FIRST_LOGIN,
       mkFlowDefinition (value FIRST_LOGIN)
         first_login_steps false
         "Fluxo inicial sem criação de embeddings");
      (value COURSE_TO_PROFESSION,
       mkFlowDefinition (value COURSE_TO_PROFESSION)
         [FlowConfig.suggest_course_profession] false
         "Apenas sugestão de cursos para profissão");
      (value ANALYSIS_TO_PROFESSION,
       mkFlowDefinition (value ANALYSIS_TO_PROFESSION)
         [FlowConfig.match_analysis_user_profession;
          FlowConfig.gap_analysis_user_profession] false
         "Análise de skills para profissão");
      (value COURSE_TO_VACANCY,
       mkFlowDefinition (value COURSE_TO_VACANCY)
         [FlowConfig.suggest_course_vacancy] false
         "Apenas sugestão de cursos para vaga");
      (value ANALYSIS_TO_VACANCY,
       mkFlowDefinition (value ANALYSIS_TO_VACANCY)
         [FlowConfig.match_analysis_user_vacancy;
          FlowConfig.gap_analysis_user_vacancy] false
         "Análise de skills para vaga") ].

(** [FlowConfig.get_flow] *)
Definition get_flow (flow_name : string) : option FlowDefinition :=
  FLOWS !! flow_name.

End FlowCatalogue.

(* ===================================================================== *)
(** * core/flow_router.py: flow selection, step filtering, validation *)
(* ===================================================================== *)

Module FlowRouting.
Import Settings Runtime FlowCatalogue.
Local Open Scope list_scope.

(** [d.get(k, default)] *)
Definition get_default (d : gmap string Py.pyval) (k : string)
    (dflt : Py.pyval) : Py.pyval :=
  match d !! k with
  | Some v => v
  | None => dflt
  end.

(** The router object: [self.flows]. *)
Record FlowRouter : Type := mkFlowRouter {
  flows : gmap string FlowDefinition
}.

(** [FlowRouter()] *)
Definition router : FlowRouter := mkFlowRouter FLOWS.

(** [FlowRouter.determine_flow] *)
Definition determine_flow (request_data : gmap string Py.pyval)
  : FlowName :=
  if Py.truthy (Py.get request_data "process_only_profession_course")
  then COURSE_TO_PROFESSION
  else if Py.truthy (Py.get request_data "process_only_profession_skills")
  then ANALYSIS_TO_PROFESSION
  else if Py.truthy (Py.get request_data "process_only_vacancy_course")
  then COURSE_TO_VACANCY
  else if Py.truthy (Py.get request_data "process_only_vacancy_skills")
  then ANALYSIS_TO_VACANCY
  else if Py.truthy
            (get_default request_data "create_user_embedding"
               (Py.VBool false))
  then UPDATE_PROFILE
  else FIRST_LOGIN.

(** [FlowRouter.get_flow_definition]: a dataclass instance is always
    truthy, so [if not flow_def] tests for [None]. *)
Definition get_flow_definition (self : FlowRouter) (flow_name : string)
  : Outcome FlowDefinition :=
  match flows self !! flow_name with
  | Some flow_def => Return flow_def
  | None =>
      Raised (Py.Exn "ValueError" ("Unknown flow: " ++ flow_name)%string "")
  end.

(** One iteration of the loop of [filter_steps_by_context]; keeping
    [filtered_steps] as it is stands for [continue]. *)
Definition filter_step (process_vacancy process_profession : Py.pyval)
    (filtered_steps : list FlowStep) (step : FlowStep) : list FlowStep :=
  if Py.str_in "vacancy" (name step) && negb (Py.truthy process_vacancy)
  then filtered_steps
  else if (Py.str_in "profession" (name step)
           || Py.str_in "carreira" (name step))
          && negb (Py.truthy process_profession)
  then filtered_steps
  else filtered_steps ++ [step].

(** [FlowRouter.filter_steps_by_context] *)
Definition filter_steps_by_context (flow_def : FlowDefinition)
    (request_data : gmap string Py.pyval) : list FlowStep :=
  let process_vacancy :=
    get_default request_data "process_vacancy_orchestrator"
      (Py.VBool true) in
  let process_profession :=
    get_default request_data "process_profession_orchestrator"
      (Py.VBool true) in
  if Py.truthy process_vacancy && Py.truthy process_profession
  then steps flow_def
  else fold_left (filter_step process_vacancy process_profession)
         (steps flow_def) [].

(** [FlowRouter.validate_flow_params] *)
Definition validate_flow_params (self : FlowRouter) (flow_name : string)
    (request_data : gmap string Py.pyval) : list string :=
  let errors : list string := [] in
  let errors :=
    if negb (Py.truthy (Py.get request_data "user_id"))
    then errors ++ ["Missing required parameter: user_id"%string]
    else errors in
  let errors :=
    if negb (Py.truthy (Py.get request_data "session_id"))
    then errors ++ ["Missing required parameter: session_id"%string]
    else errors in
  let errors :=
    match flows self !! flow_name with
    | Some flow_def =>
        if requires_embeddings flow_def
           && negb (Py.truthy (Py.get request_data "session_id"))
        then errors
             ++ ["Flow requires embeddings but session_id is missing"%string]
        else errors
    | None => errors
    end in
  errors.

End FlowRouting.

(* ===================================================================== *)
(** * core/models.py: queries on the context *)
(* ===================================================================== *)

Module ContextQueries.
Import Settings Models.

(** [ExecutionContext.get_successful_steps] *)
Definition get_successful_steps (self : ExecutionContext) : list string :=
  map step_name
    (filter (fun r => status r = SUCCESS) (results self)).

End ContextQueries.

(* ===================================================================== *)
(** * handlers/orchestrator_handler.py: validation and response *)
(* ===================================================================== *)

Module Handler.
Import Settings Models.
Local Open Scope list_scope.

(** [isinstance(v, str)] and [isinstance(v, bool)]: an object that is
    neither [None], a [bool], an [int] nor a [str] is a [VObj]. *)
Definition isinstance_str (v : Py.pyval) : bool :=
  match v with
  | Py.VStr _ => true
  | _ => false
  end.

Definition isinstance_bool (v : Py.pyval) : bool :=
  match v with
  | Py.VBool _ => true
  | _ => false
  end.

Definition is_none (v : Py.pyval) : bool :=
  match v with
  | Py.VNone => true
  | _ => false
  end.

Definition boolean_fields : list string :=
  [ "create_user_embedding";
    "process_profession_orchestrator";
    "process_vacancy_orchestrator";
    "process_only_profession_course";
    "process_only_profession_skills";
    "process_only_vacancy_course";
    "process_only_vacancy_skills" ]%string.

Definition token_fields : list string :=
  [ "create_user_embeddings_token";
    "match_candidato_token";
    "match_analysis_user_vacancy_token";
    "gap_analysis_user_vacancy_token";
    "suggest_course_vacancy_token";
    "match_user_profession_token";
    "match_user_career_token";
    "match_analysis_user_profession_token";
    "gap_analysis_user_profession_token";
    "suggest_course_profession_token" ]%string.

(** The [if]/[elif] on a required field. *)
Definition required_string (request_data : gmap string Py.pyval)
    (field : string) (errors : list string) : list string :=
  if negb (Py.truthy (Py.get request_data field))
  then errors ++ [("Missing required field: " ++ field)%string]
  else if negb (isinstance_str (Py.get request_data field))
  then errors ++ [("Field '" ++ field ++ "' must be a string")%string]
  else errors.

(** The body of [for field in boolean_fields]. *)
Definition check_boolean (request_data : gmap string Py.pyval)
    (errors : list string) (field : string) : list string :=
  if Py.has_key request_data field
     && negb (isinstance_bool (Py.get request_data field))
  then errors ++ [("Field '" ++ field ++ "' must be a boolean")%string]
  else errors.

(** The body of [for field in token_fields]. *)
Definition check_token (request_data : gmap string Py.pyval)
    (errors : list string) (field : string) : list string :=
  if Py.has_key request_data field
     && negb (is_none (Py.get request_data field))
  then
    if negb (isinstance_str (Py.get request_data field))
    then errors
         ++ [("Field '" ++ field ++ "' must be a string if provided")%string]
    else errors
  else errors.

(** [OrchestratorHandler._validate_request] *)
Definition _validate_request (request_data : gmap string Py.pyval)
  : list string :=
  let errors : list string := [] in
  let errors := required_string request_data "user_id" errors in
  let errors := required_string request_data "session_id" errors in
  let errors := fold_left (check_boolean request_data) boolean_fields errors in
  let errors := fold_left (check_token request_data) token_fields errors in
  errors.

(** [response["summary"]] *)
Record Summary : Type := mkSummary {
  total_steps : nat;
  successful : nat;
  failed : nat;
  skipped : nat;
  critical_errors : nat
}.

(** One entry of [response["steps"]], without its duration and its
    two timestamps. *)
Record StepEntry : Type := mkStepEntry {
  entry_step_name : string;
  entry_status : StepStatus;
  entry_error : option string;
  entry_status_code : option Z
}.

(** The dictionary [_build_response] returns, without [duration] and
    [timestamp]: its fixed keys as fields, the optional request fields
    it copies as a map, and [has_critical_errors] present or not. *)
Record Response : Type := mkResponse {
  response_execution_id : string;
  response_flow_name : string;
  response_user_id : string;
  response_session_id : string;
  optional : gmap string Py.pyval;
  summary : Summary;
  steps : list StepEntry;
  has_critical_errors : option bool
}.

Definition optional_fields : list string :=
  [ "identifier"; "vacancy_id"; "vacancy_name";
    "position_id"; "career_name" ]%string.

(** [len([r for r in results if r.status == s])] *)
Definition count_status (s : StepStatus) (results : list StepResult)
  : nat :=
  length (filter (fun r => status r = s) results).

(** The body of [for field in optional_fields]. *)
Definition copy_optional (request_data : gmap string Py.pyval)
    (response : gmap string Py.pyval) (field : string)
  : gmap string Py.pyval :=
  if Py.has_key request_data field
     && Py.truthy (Py.get request_data field)
  then <[field := Py.get request_data field]> response
  else response.

(** [OrchestratorHandler._build_response] *)
Definition _build_response (context : ExecutionContext)
    (results : list StepResult) : Response :=
  {| response_execution_id := execution_id context;
     response_flow_name := flow_name context;
     response_user_id := user_id context;
     response_session_id := session_id context;
     optional :=
       fold_left (copy_optional (request_data context)) optional_fields ∅;
     summary :=
       {| total_steps := length results;
          successful := count_status SUCCESS results;
          failed := count_status FAILED results;
          skipped := count_status SKIPPED results;
          critical_errors := count_status CRITICAL_ERROR results |};
     steps :=
       map (fun r =>
              {| entry_step_name := step_name r;
                 entry_status := status r;
                 entry_error := error r;
                 entry_status_code := status_code r |}) results;
     has_critical_errors :=
       if existsb is_critical results then Some true else None |}.

End Handler.

(* ===================================================================== *)
(** * Vocabulary of the specification *)
(* ===================================================================== *)

Module PlanSpec.
Import Settings.
Local Open Scope list_scope.

(** A step is tagged when its [parallel_group] is a non-empty string. *)
Definition tagged (s : FlowStep) : bool :=
  Py.truthy_opt (parallel_group s).

(** The tag a group runs under: that of its first step, if tagged. *)
Definition group_tag (g : list FlowStep) : option string :=
  match g with
  | s :: _ => if tagged s then parallel_group s else None
  | [] => None
  end.

(** A group is one untagged step, or a non-empty run of steps that all
    carry one and the same non-empty tag. *)
Definition is_group (g : list FlowStep) : Prop :=
  (exists s, g = [s] /\ tagged s = false)
  \/ (exists t, t <> ""%string /\ g <> []
                /\ Forall (fun s => parallel_group s = Some t) g).

(** Runs are maximal: a group running under a tag is never directly
    followed by a group running under the same tag. *)
Inductive maximal : list (list FlowStep) -> Prop :=
| maximal_nil : maximal []
| maximal_one g : maximal [g]
| maximal_cons g1 g2 gs :
    (is_Some (group_tag g1) -> group_tag g1 <> group_tag g2) ->
    maximal (g2 :: gs) ->
    maximal (g1 :: g2 :: gs).

(** [gs] cuts [steps] into its maximal same-tag runs and its untagged
    steps. *)
Definition run_partition (steps : list FlowStep)
    (gs : list (list FlowStep)) : Prop :=
  concat gs = steps /\ Forall is_group gs /\ maximal gs.

(** The planner's loop read from the front: the groups still to come
    once [current_group] and [current_parallel_group] are as given. *)
Definition close (current_group : list FlowStep)
  : list (list FlowStep) :=
  if FlowExecutor.nonempty current_group then [current_group] else [].

Fixpoint plan_from (current_group : list FlowStep)
    (current_parallel_group : option string) (steps : list FlowStep)
  : list (list FlowStep) :=
  match steps with
  | [] => close current_group
  | step :: steps' =>
      if tagged step
      then
        if bool_decide (parallel_group step = current_parallel_group)
        then plan_from (current_group ++ [step])
                       current_parallel_group steps'
        else close current_group
             ++ plan_from [step] (parallel_group step) steps'
      else close current_group
           ++ [step]
              :: plan_from []
                   (if FlowExecutor.nonempty current_group
                    then None else current_parallel_group)
                   steps'
  end.

(** What the planner's variables satisfy between iterations. *)
Definition open_run (current_group : list FlowStep)
    (current_parallel_group : option string) : Prop :=
  match current_parallel_group with
  | None => current_group = []
  | Some t =>
      t <> ""%string /\ current_group <> []
      /\ Forall (fun s => parallel_group s = Some t) current_group
  end.

End PlanSpec.

Module StepSpec.
Import Settings Models.

(** The value a request parameter contributes to a payload: present and
    not [None]. *)
Definition non_null (o : option Py.pyval) : option Py.pyval :=
  match o with
  | Some Py.VNone => None
  | _ => o
  end.

Definition vacancy_fields : list string :=
  [ "vacancy_id"; "vacancy_name"; "vacancy_description" ].

Definition profession_fields : list string :=
  [ "position_id"; "career_name"; "position_name" ].

Definition vacancy_class (step : FlowStep) : bool :=
  Py.str_in "vacancy" (name step).

Definition profession_class (step : FlowStep) : bool :=
  Py.str_in "profession" (name step) || Py.str_in "carreira" (name step).

(** The generic credential keys of a step's class, by priority. *)
Definition generic_token_keys (step : FlowStep) : list string :=
  if vacancy_class step then StepExecutor.vacancy_token_keys
  else if profession_class step then StepExecutor.profession_token_keys
  else [].

(** The headers that carry [token] as a bearer credential. *)
Definition bearer (token : Py.pyval) : gmap string string :=
  {[ "Authorization" := "Bearer " ++ Py.str token ]}.

(** Header construction as the specification words it: the step-specific
    key decides whenever it is present, and the generic keys are
    consulted only when it is absent; a token counts as found when it is
    a non-empty value. *)
Definition first_key_present (request_data : gmap string Py.pyval)
    (keys : list string) : option Py.pyval :=
  match filter (fun key => is_Some (request_data !! key)) keys with
  | key :: _ => request_data !! key
  | [] => None
  end.

Definition claimed_token (step : FlowStep)
    (request_data : gmap string Py.pyval) : option Py.pyval :=
  match request_data !! (name step ++ "_token") with
  | Some token => Some token
  | None => first_key_present request_data (generic_token_keys step)
  end.

Definition claimed_headers (step : FlowStep) (context : ExecutionContext)
  : gmap string string :=
  match claimed_token step (request_data context) with
  | Some token => if Py.truthy token then bearer token else ∅
  | None => ∅
  end.

End StepSpec.

Module RunnerSpec.
Import Settings Models.

(** The transport reports a 2xx status code. *)
Definition two_xx (code : Z) : Prop := (200 <= code < 300)%Z.

(** A [CriticalError] result carrying the message and the diagnostic
    detail of the fault [e]. *)
Definition critical_for (e : Py.exn) (result : StepResult) : Prop :=
  status result = CRITICAL_ERROR
  /\ error result = Some (Py.exn_str e)
  /\ error_details result = Some (Py.exn_traceback e).

(** A [Failed] result carrying the error text and status code of a
    transport response. *)
Definition failed_with (response : HttpClient.HttpResponse)
    (result : StepResult) : Prop :=
  status result = FAILED
  /\ error result
     = Some (Py.or_else (HttpClient.error response)
               ("HTTP " ++ Py.str_of_int (HttpClient.status_code response)))
  /\ status_code result = Some (HttpClient.status_code response).

End RunnerSpec.

Module EngineSpec.
Import Settings Models.
Local Open Scope list_scope.

(** [out] answers group [g]: one result per step of the group, under the
    step's name, in some order. *)
Definition answers (g : list FlowStep) (out : list StepResult) : Prop :=
  map step_name out ≡ₚ map name g.

(** A group's results call for an abort when one is a [CriticalError]. *)
Definition aborts (out : list StepResult) : bool :=
  existsb is_critical out.

(** The context after [produced] has been appended to its results. *)
Definition extend (context : ExecutionContext)
    (produced : list StepResult) : ExecutionContext :=
  {| execution_id := execution_id context;
     user_id := user_id context;
     session_id := session_id context;
     flow_name := flow_name context;
     request_data := request_data context;
     results := results context ++ produced |}.

(** How a run over [groups] can end, with the steps it dispatched and the
    results it produced: every group was run and none called for an
    abort, or the run stopped right after the first group that did. *)
Inductive run_shape (groups : list (list FlowStep))
  : list FlowStep -> list StepResult -> Prop :=
| run_completed outs :
    Forall2 answers groups outs ->
    Forall (fun out => aborts out = false) outs ->
    run_shape groups (concat groups) (concat outs)
| run_aborted before g after outs out :
    groups = before ++ g :: after ->
    Forall2 answers before outs ->
    Forall (fun out => aborts out = false) outs ->
    answers g out ->
    aborts out = true ->
    run_shape groups (concat before ++ g) (concat outs ++ out).

(** ** Which call produced which result *)

Section Trace.
Import Runtime.
Context `{Host}.

Variable runner : FlowStep -> ExecutionContext -> M StepResult.

(** The store once the steps of group [g] are recorded as dispatched. *)
Definition submitted (g : list FlowStep) (st : Store) : Store :=
  {| context := context st;
     outside := outside st;
     history := history st ++ map Dispatched g |}.

(** The store once [out] is appended to the results of the context. *)
Definition appended (out : list StepResult) (st : Store) : Store :=
  {| context := extend (context st) out;
     outside := outside st;
     history := history st |}.

(** The order in which the steps of a group are served: a singleton is
    its step, a parallel group is served as the pool completes it. *)
Definition service_order (w : net) (g : list FlowStep) : list FlowStep :=
  match g with
  | [step] => [step]
  | _ => completion_order w g
  end.

(** [called context0 steps st out st']: the runner was called on each of
    [steps] with the context [context0], one call after the other from
    the store [st]; every call returned, [out] holds what the calls
    returned, in call order, and [st'] is the store the last one left. *)
Inductive called (context0 : ExecutionContext)
  : list FlowStep -> Store -> list StepResult -> Store -> Prop :=
| called_none st : called context0 [] st [] st
| called_next step steps st result st1 out st' :
    runner step context0 st = (Return result, st1) ->
    called context0 steps st1 out st' ->
    called context0 (step :: steps) st (result :: out) st'.

(** The same for workers that may raise: a call that raised [e] is
    answered for by [unhandled_result step e], built from that very
    exception. *)
Inductive collected (context0 : ExecutionContext)
  : list FlowStep -> Store -> list StepResult -> Store -> Prop :=
| collected_none st : collected context0 [] st [] st
| collected_returned step steps st result st1 out st' :
    runner step context0 st = (Return result, st1) ->
    collected context0 steps st1 out st' ->
    collected context0 (step :: steps) st (result :: out) st'
| collected_raised step steps st e st1 out st' :
    runner step context0 st = (Raised e, st1) ->
    collected context0 steps st1 out st' ->
    collected context0 (step :: steps) st
      (FlowExecutor.unhandled_result step e :: out) st'.

(** Group [g] run from [st]: its steps are recorded as dispatched, the
    runner is called on each of them with the context as it stands, in
    service order, and what the calls returned is appended to the
    context, in that order. *)
Definition group_run (g : list FlowStep) (st : Store)
    (out : list StepResult) (st' : Store) : Prop :=
  exists st1,
    called (context st) (service_order (outside st) g) (submitted g st)
      out st1
    /\ st' = appended out st1.

(** A run over groups, from store to store: the groups are run one after
    the other; the run goes on after a group whose results call for no
    abort and ends with the first group whose results do. *)
Inductive ran
  : list (list FlowStep) -> Store -> list StepResult -> Store -> Prop :=
| ran_out st : ran [] st [] st
| ran_abort g rest st out st' :
    group_run g st out st' ->
    aborts out = true ->
    ran (g :: rest) st out st'
| ran_on g rest st out st1 produced st' :
    group_run g st out st1 ->
    aborts out = false ->
    ran rest st1 produced st' ->
    ran (g :: rest) st (out ++ produced) st'.

End Trace.

End EngineSpec.

Module ClientSpec.
Import Runtime.

(** The timeout a call ends up with: the caller's, unless it is missing
    or zero. *)
Definition effective_timeout (self : HttpClient.HttpClient)
    (timeout : option Z) : Z :=
  match timeout with
  | Some t => if (t =? 0)%Z then HttpClient.default_timeout self else t
  | None => HttpClient.default_timeout self
  end.

(** The call of [session.request] that one attempt makes. *)
Definition outgoing (self : HttpClient.HttpClient) (method url : string)
    (headers : gmap string string) (payload : gmap string Py.pyval)
    (timeout : option Z) : Request :=
  mkRequest method url (headers ∪ HttpClient.session_headers self)
    payload (effective_timeout self timeout).

(** What computing the payload size of an attempt raises, if anything:
    an empty payload is not serialised. *)
Definition dumps_fault `{Host} (payload : gmap string Py.pyval)
  : option Py.exn :=
  if bool_decide (payload = ∅) then None else json_dumps_raises payload.

(** A response after which [request] tries again, attempts permitting:
    a server error or the status code 0 of a transport error. *)
Definition retryable (response : HttpClient.HttpResponse) : bool :=
  negb (HttpClient.is_success response
        || HttpClient.is_client_error response)
  && (HttpClient.is_server_error response
      || (HttpClient.status_code response =? 0)%Z).

End ClientSpec.

Module RouterSpec.
Import Settings.

(** A step survives filtering unless its class is switched off. *)
Definition kept (process_vacancy process_profession : Py.pyval)
    (step : FlowStep) : bool :=
  negb (StepSpec.vacancy_class step && negb (Py.truthy process_vacancy))
  && negb (StepSpec.profession_class step
           && negb (Py.truthy process_profession)).

(** The value of a switch: on when the key is missing. *)
Definition switch (request_data : gmap string Py.pyval) (key : string)
  : Py.pyval :=
  FlowRouting.get_default request_data key (Py.VBool true).

(** The four flags that select a single-purpose flow. *)
Definition process_only_flags : list string :=
  [ "process_only_profession_course"; "process_only_profession_skills";
    "process_only_vacancy_course"; "process_only_vacancy_skills" ].

Definition flag (request_data : gmap string Py.pyval) (key : string)
  : bool :=
  Py.truthy (Py.get request_data key).

End RouterSpec.

Module HandlerSpec.

(** A request [_validate_request] has nothing to say about. *)
Definition non_empty_string (o : option Py.pyval) : Prop :=
  exists s, o = Some (Py.VStr s) /\ s <> "".

Definition absent_or_bool (o : option Py.pyval) : Prop :=
  o = None \/ exists b, o = Some (Py.VBool b).

Definition absent_none_or_string (o : option Py.pyval) : Prop :=
  o = None \/ o = Some Py.VNone \/ exists s, o = Some (Py.VStr s).

Definition well_formed (request_data : gmap string Py.pyval) : Prop :=
  non_empty_string (request_data !! "user_id")
  /\ non_empty_string (request_data !! "session_id")
  /\ Forall (fun field => absent_or_bool (request_data !! field))
       Handler.boolean_fields
  /\ Forall (fun field => absent_none_or_string (request_data !! field))
       Handler.token_fields.

End HandlerSpec.

Module EngineMore.
Import Settings.

(** A group of exactly one step. *)
Definition singleton_group (g : list FlowStep) : Prop :=
  exists s, g = [s].

End EngineMore.

(* ===================================================================== *)
(** * Concrete inputs *)
(* ===================================================================== *)

Module Examples.
Import Settings Models Runtime.

(** A request that sends an empty step-specific credential next to a
    generic one. *)
Definition empty_token_request : gmap string Py.pyval :=
  {[ "user_id" := Py.VStr "user123";
     "session_id" := Py.VStr "session456";
     "suggest_course_vacancy_token" := Py.VStr "";
     "match_candidato_token" := Py.VStr "T" ]}.

Definition empty_token_context : ExecutionContext :=
  mkExecutionContext "run-1" "user123" "session456" "first_login"
    empty_token_request [].

(** A host for running the orchestrator on concrete inputs: every URL
    variable is configured except one; the network answers by URL (an
    unexpected fault, a timeout, a 503, and 200 for the rest) and counts
    the calls it served; futures complete in reverse submission order;
    the JSON encoder refuses every object that is not a scalar, as it
    does a [set]. *)
Definition demo_getenv (served : nat) (var : string) : option string :=
  if String.eqb var "GAP_ANALYSIS_USER_PROFESSION_URL" then None
  else Some ("http://ml/" ++ var).

Definition demo_reply (request : Request) : Reply :=
  if String.eqb (req_url request) "http://ml/BOOM_URL"
  then Raises Unexpected
         (Py.Exn "RuntimeError" "boom"
            "Traceback (most recent call last): RuntimeError: boom")
  else if String.eqb (req_url request) "http://ml/SLOW_URL"
  then Raises Timeout (Py.Exn "ReadTimeout" "read timed out" "")
  else if String.eqb (req_url request) "http://ml/DOWN_URL"
  then Responded 503 false (Py.VStr "unavailable") ∅
  else Responded 200 true (Py.VStr "ok") ∅.

Definition demo_dumps (payload : gmap string Py.pyval) : option Py.exn :=
  if forallb (fun kv => Py.json_scalar kv.2) (map_to_list payload)
  then None
  else Some (Py.Exn "TypeError"
               "Object of type set is not JSON serializable"
               "Traceback (most recent call last): TypeError").

Definition demo_dumps_scalars (payload : gmap string Py.pyval) :
  map_Forall (fun _ v => Py.json_scalar v = true) payload ->
  demo_dumps payload = None.
Proof.
  intros Hall. unfold demo_dumps.
  replace (forallb _ _) with true; [reflexivity|].
  symmetry. apply forallb_forall. intros [k v] Hin.
  apply (Hall k v). apply elem_of_map_to_list, list_elem_of_In. exact Hin.
Qed.

Definition demo_host : Host :=
  {| net := nat;
     getenv := demo_getenv;
     session_request := fun request served => (demo_reply request, S served);
     completion_order := fun _ steps => rev steps;
     completion_order_perm :=
       fun _ steps => Permutation_sym (Permutation_rev steps);
     json_dumps_raises := demo_dumps;
     json_dumps_scalars := demo_dumps_scalars |}.

Definition demo_step (name url_env_var : string) (tag : option string)
  : FlowStep :=
  mkFlowStep name "_call" url_env_var 120 ["user_id"] tag.

Definition demo_context : ExecutionContext :=
  mkExecutionContext "run-1" "user123" "session456" "first_login"
    {[ "user_id" := Py.VStr "user123";
       "session_id" := Py.VStr "session456" ]} [].

Definition demo_store : @Store demo_host :=
  @mkStore demo_host demo_context 0%nat [].

(** G1 (no critical), G2 (one [CriticalError] among three parallel
    steps), G3. *)
Definition load : FlowStep := demo_step "load" "LOAD_URL" None.
Definition left_step : FlowStep := demo_step "left" "LEFT_URL" (Some "p").
Definition boom : FlowStep := demo_step "boom" "BOOM_URL" (Some "p").
Definition slow : FlowStep := demo_step "slow" "SLOW_URL" (Some "p").
Definition after : FlowStep := demo_step "after" "AFTER_URL" None.

Definition abort_flow : list FlowStep :=
  [ load; left_step; boom; slow; after ].

(** A flow with a parallel group and no fault worse than a timeout. *)
Definition parallel_flow : list FlowStep :=
  [ load; left_step; slow; after ].

(** A request whose vacancy is a [set], and a step that sends it. *)
Definition set_context : ExecutionContext :=
  mkExecutionContext "run-1" "user123" "session456" "first_login"
    {[ "user_id" := Py.VStr "user123";
       "session_id" := Py.VStr "session456";
       "vacancy_id" := Py.VObj "{1, 2}" true ]} [].

Definition send_vacancy : FlowStep :=
  demo_step "match_vacancy" "LOAD_URL" None.

(** A flow whose only trouble is an ordinary remote failure. *)
Definition down : FlowStep := demo_step "down" "DOWN_URL" None.

Definition failing_flow : list FlowStep := [ down; after ].

(** The planner examples of the specification. *)
Definition step_a : FlowStep := demo_step "A" "A_URL" (Some "x").
Definition step_b : FlowStep := demo_step "B" "B_URL" None.
Definition step_c : FlowStep := demo_step "C" "C_URL" (Some "x").
Definition step_b_tagged : FlowStep := demo_step "B" "B_URL" (Some "x").
Definition step_c_untagged : FlowStep := demo_step "C" "C_URL" None.

(** A client that allows two retries, and the calls it makes. *)
Definition retrying_client : HttpClient.HttpClient :=
  HttpClient.mkHttpClient 15 ∅ 2.

(** A step runner that breaks its contract: it raises on the step
    [boom] and otherwise does what the real one does. *)
Definition faulty_runner (step : FlowStep) (context0 : ExecutionContext)
  : @M demo_host StepResult :=
  if String.eqb (name step) "boom"
  then raise (Py.Exn "RuntimeError" "worker died" "Traceback: worker died")
  else @Orchestrator.execute_step demo_host step context0.

(** A request that switches vacancy processing off. *)
Definition no_vacancy_request : gmap string Py.pyval :=
  {[ "user_id" := Py.VStr "user123";
     "session_id" := Py.VStr "session456";
     "process_vacancy_orchestrator" := Py.VBool false ]}.

(** A request with a numeric user, a textual flag and a numeric token. *)
Definition malformed_request : gmap string Py.pyval :=
  {[ "user_id" := Py.VInt 7;
     "create_user_embedding" := Py.VStr "yes";
     "match_candidato_token" := Py.VInt 1 ]}.

(** The response of a failed attempt, for when there is none to show. *)
Definition no_response : HttpClient.HttpResponse :=
  HttpClient.mkHttpResponse 0 Py.VNone "" "" "" None None.

(** What a run returned, step by step: name, status, error, status code. *)
Definition summary (outcome : Outcome (list StepResult))
  : list (string * StepStatus * option string * option Z) :=
  match outcome with
  | Return produced =>
      map (fun r => (step_name r, status r, error r, status_code r)) produced
  | Raised _ => []
  end.

End Examples.

(* ===================================================================== *)
(** * The group planner *)
(* ===================================================================== *)

Section PlannerFacts.
Import Settings FlowExecutor PlanSpec.
Local Open Scope list_scope.

Lemma planner_fold (steps : list FlowStep) (st : PlannerState) :
  (let st' := fold_left planner_step steps st in
   if nonempty (current_group st')
   then groups st' ++ [current_group st']
   else groups st')
  = groups st
    ++ plan_from (current_group st) (current_parallel_group st) steps.
Proof.
  revert st. induction steps as [|step steps IH]; intros st; simpl.
  - unfold close. destruct (nonempty (current_group st)); simpl.
    + reflexivity.
    + now rewrite app_nil_r.
  - rewrite IH. destruct st as [gs cg cpg].
    unfold planner_step, tagged, close; simpl.
    destruct (Py.truthy_opt (parallel_group step)); simpl.
    + destruct (bool_decide _); simpl; [reflexivity|].
      destruct cg; simpl.
      * reflexivity.
      * rewrite <- app_assoc. reflexivity.
    + destruct cg; simpl.
      * rewrite <- app_assoc. reflexivity.
      * rewrite <- !app_assoc. reflexivity.
Qed.

Lemma plan_unfold (steps : list FlowStep) :
  _group_steps_by_parallelism steps = plan_from [] None steps.
Proof.
  unfold _group_steps_by_parallelism.
  exact (planner_fold steps (mkPlannerState [] [] None)).
Qed.

Lemma plan_from_concat (steps cg : list FlowStep) (cpg : option string) :
  concat (plan_from cg cpg steps) = cg ++ steps.
Proof.
  revert cg cpg. induction steps as [|step steps IH]; intros cg cpg; simpl.
  - unfold close. destruct cg; simpl; [reflexivity|].
    now rewrite !app_nil_r.
  - destruct (tagged step).
    + destruct (bool_decide _).
      * rewrite IH, <- app_assoc. reflexivity.
      * rewrite concat_app, IH. unfold close.
        destruct cg; simpl; [reflexivity|]. now rewrite app_nil_r.
    + rewrite concat_app. simpl. rewrite IH. unfold close.
      destruct cg; simpl; [reflexivity|]. now rewrite app_nil_r.
Qed.

Lemma close_nonempty (cg : list FlowStep) :
  Forall (fun g => g <> []) (close cg).
Proof.
  unfold close. destruct cg; simpl; constructor; [discriminate|constructor].
Qed.

Lemma plan_from_nonempty (steps cg : list FlowStep) (cpg : option string) :
  Forall (fun g => g <> []) (plan_from cg cpg steps).
Proof.
  revert cg cpg. induction steps as [|step steps IH]; intros cg cpg; simpl.
  - apply close_nonempty.
  - destruct (tagged step).
    + destruct (bool_decide _); [apply IH|].
      apply Forall_app. split; [apply close_nonempty|apply IH].
    + apply Forall_app. split; [apply close_nonempty|].
      constructor; [discriminate|apply IH].
Qed.

Lemma tagged_some (s : FlowStep) (t : string) :
  parallel_group s = Some t -> t <> ""%string -> tagged s = true.
Proof.
  intros E Ht. unfold tagged. rewrite E. simpl.
  destruct (String.eqb_spec t ""); [contradiction|reflexivity].
Qed.

Lemma tagged_inv (s : FlowStep) :
  tagged s = true ->
  exists t, parallel_group s = Some t /\ t <> ""%string.
Proof.
  unfold tagged. destruct (parallel_group s) as [t|]; simpl; [|discriminate].
  destruct (String.eqb_spec t ""); [discriminate|]. eauto.
Qed.

Lemma open_run_close (cg : list FlowStep) (cpg : option string) :
  open_run cg cpg -> Forall is_group (close cg).
Proof.
  unfold open_run, close. intros Hrun.
  destruct cg as [|s cg]; simpl; [constructor|].
  constructor; [|constructor].
  destruct cpg as [t|]; [|discriminate].
  right. exists t. tauto.
Qed.

Lemma open_run_snoc (cg : list FlowStep) (cpg : option string)
    (step : FlowStep) :
  open_run cg cpg -> tagged step = true ->
  parallel_group step = cpg ->
  open_run (cg ++ [step]) cpg.
Proof.
  unfold open_run. intros Hrun Ht E.
  destruct cpg as [t|].
  - destruct Hrun as (Hne & _ & Hall). split; [assumption|]. split.
    + destruct cg; discriminate.
    + apply Forall_app. split; [assumption|]. constructor; [assumption|constructor].
  - apply tagged_inv in Ht as (t & Et & _). congruence.
Qed.

Lemma open_run_start (step : FlowStep) :
  tagged step = true -> open_run [step] (parallel_group step).
Proof.
  intros Ht. destruct (tagged_inv _ Ht) as (t & E & Hne).
  unfold open_run. rewrite E. split; [assumption|]. split; [discriminate|].
  constructor; [assumption|constructor].
Qed.

Lemma plan_from_groups (steps cg : list FlowStep) (cpg : option string) :
  open_run cg cpg -> Forall is_group (plan_from cg cpg steps).
Proof.
  revert cg cpg. induction steps as [|step steps IH]; intros cg cpg Hrun; simpl.
  - eapply open_run_close; eassumption.
  - destruct (tagged step) eqn:Ht.
    + destruct (bool_decide_reflect (parallel_group step = cpg)) as [E|E].
      * apply IH. now apply open_run_snoc.
      * apply Forall_app. split; [eapply open_run_close; eassumption|].
        apply IH. now apply open_run_start.
    + apply Forall_app. split; [eapply open_run_close; eassumption|].
      constructor.
      * left. exists step. split; [reflexivity|assumption].
      * apply IH. unfold open_run in *.
        destruct cg; simpl; [|reflexivity].
        destruct cpg as [t|]; [|reflexivity]. now destruct Hrun as (_ & ? & _).
Qed.

Lemma group_tag_app (cg run : list FlowStep) :
  cg <> [] -> group_tag (cg ++ run) = group_tag cg.
Proof. destruct cg; [contradiction|reflexivity]. Qed.

Lemma group_tag_open_run (cg : list FlowStep) (cpg : option string) :
  open_run cg cpg -> cg <> [] -> group_tag cg = cpg.
Proof.
  unfold open_run. intros Hrun Hne.
  destruct cpg as [t|]; [|contradiction].
  destruct Hrun as (Ht & _ & Hall).
  destruct cg as [|s cg]; [contradiction|].
  inversion Hall as [|? ? Hs _]; subst. simpl.
  now rewrite (tagged_some _ _ Hs Ht).
Qed.

Lemma plan_from_head (steps cg : list FlowStep) (cpg : option string) :
  cg <> [] ->
  exists run rest, plan_from cg cpg steps = (cg ++ run) :: rest.
Proof.
  revert cg cpg. induction steps as [|step steps IH]; intros cg cpg Hne; simpl.
  - exists [], []. unfold close. destruct cg; [contradiction|].
    simpl. now rewrite app_nil_r.
  - assert (Hclose : close cg = [cg ++ []]).
    { unfold close. destruct cg; [contradiction|]. simpl. now rewrite app_nil_r. }
    destruct (tagged step).
    + destruct (bool_decide _).
      * destruct (IH (cg ++ [step]) cpg) as (run & rest & E).
        { destruct cg; discriminate. }
        exists (step :: run), rest. rewrite E, <- app_assoc. reflexivity.
      * rewrite Hclose. eexists _, _. reflexivity.
    + rewrite Hclose. eexists _, _. reflexivity.
Qed.

Lemma plan_from_first_tag (steps cg : list FlowStep) (cpg : option string)
    (g : list FlowStep) (rest : list (list FlowStep)) :
  plan_from cg cpg steps = g :: rest ->
  group_tag g = group_tag (cg ++ steps).
Proof.
  intros E. destruct cg as [|s cg].
  - destruct steps as [|step steps]; simpl in E; [discriminate|].
    simpl. destruct (tagged step) eqn:Ht.
    + assert (E' : plan_from [step] (if bool_decide (parallel_group step = cpg)
                                     then cpg else parallel_group step) steps
                   = g :: rest).
      { destruct (bool_decide _); exact E. }
      destruct (plan_from_head steps [step]
                  (if bool_decide (parallel_group step = cpg)
                   then cpg else parallel_group step)) as (run & r & E2);
        [discriminate|].
      rewrite E2 in E'. injection E' as <- _. simpl. now rewrite Ht.
    + injection E as <- _. simpl. now rewrite Ht.
  - destruct (plan_from_head steps (s :: cg) cpg) as (run & r & E2);
      [discriminate|].
    rewrite E2 in E. injection E as <- _. reflexivity.
Qed.

Lemma maximal_after_untagged (g : list FlowStep)
    (gs : list (list FlowStep)) :
  group_tag g = None -> maximal gs -> maximal (g :: gs).
Proof.
  intros Hg Hgs. destruct gs as [|g2 gs]; [constructor|].
  constructor; [|assumption].
  rewrite Hg. intros [? ?]. discriminate.
Qed.

Lemma plan_from_maximal (steps cg : list FlowStep) (cpg : option string) :
  open_run cg cpg -> maximal (plan_from cg cpg steps).
Proof.
  revert cg cpg. induction steps as [|step steps IH]; intros cg cpg Hrun; simpl.
  - unfold close. destruct cg; simpl; constructor.
  - destruct (tagged step) eqn:Ht.
    + destruct (bool_decide_reflect (parallel_group step = cpg)) as [E|E].
      * apply IH. now apply open_run_snoc.
      * pose proof (IH [step] (parallel_group step) (open_run_start _ Ht)) as Hmax.
        unfold close. destruct cg as [|s cg]; simpl; [exact Hmax|].
        destruct (plan_from [step] (parallel_group step) steps)
          as [|g2 gs] eqn:E2; [constructor|].
        constructor; [|exact Hmax].
        intros _.
        rewrite (group_tag_open_run _ _ Hrun) by discriminate.
        rewrite (plan_from_first_tag _ _ _ _ _ E2). simpl. rewrite Ht.
        congruence.
    + assert (Hrest : maximal
                ([step] :: plan_from []
                   (if nonempty cg then None else cpg) steps)).
      { apply maximal_after_untagged.
        - simpl. now rewrite Ht.
        - apply IH. unfold open_run in *.
          destruct cg; simpl; [|reflexivity].
          destruct cpg as [t|]; [|reflexivity].
          now destruct Hrun as (_ & ? & _). }
      unfold close. destruct cg as [|s cg]; simpl; [exact Hrest|].
      constructor; [|exact Hrest].
      intros [t Et]. rewrite Et. simpl. rewrite Ht. discriminate.
Qed.

Lemma plan_is_run_partition (steps : list FlowStep) :
  run_partition steps (_group_steps_by_parallelism steps).
Proof.
  rewrite plan_unfold. split; [|split].
  - apply plan_from_concat.
  - apply plan_from_groups. reflexivity.
  - apply plan_from_maximal. reflexivity.
Qed.

(** Two runs that satisfy [P] throughout and are each followed by a
    step that does not (or by nothing) coincide when they start at the
    same place. *)
Lemma longest_prefix_unique {A} (P : A -> Prop) (g1 g2 x y : list A) :
  g1 ++ x = g2 ++ y ->
  Forall P g1 -> Forall P g2 ->
  (forall a x', x = a :: x' -> ~ P a) ->
  (forall a y', y = a :: y' -> ~ P a) ->
  g1 = g2 /\ x = y.
Proof.
  revert g2. induction g1 as [|a g1 IH]; intros g2 E H1 H2 Hx Hy.
  - destruct g2 as [|b g2]; [split; [reflexivity|exact E]|].
    simpl in E. inversion H2 as [|? ? Hb _]; subst.
    exfalso. eapply Hx; [reflexivity|exact Hb].
  - destruct g2 as [|b g2].
    + simpl in E. inversion H1 as [|? ? Ha _]; subst.
      exfalso. eapply Hy; [reflexivity|exact Ha].
    + simpl in E. injection E as -> E.
      inversion H1; inversion H2; subst.
      destruct (IH g2 E) as [-> ->]; auto.
Qed.

Lemma is_group_nonempty (g : list FlowStep) : is_group g -> g <> [].
Proof.
  intros [(s & -> & _)|(t & _ & Hne & _)]; [discriminate|assumption].
Qed.

Lemma concat_groups_nil (gs : list (list FlowStep)) :
  Forall is_group gs -> concat gs = [] -> gs = [].
Proof.
  intros Hall E. destruct gs as [|g gs]; [reflexivity|].
  inversion Hall as [|? ? Hg _]; subst.
  apply is_group_nonempty in Hg. simpl in E.
  destruct g; [contradiction|discriminate].
Qed.

Lemma tagged_run_tag (g : list FlowStep) (t : string) :
  t <> ""%string -> g <> [] ->
  Forall (fun s => parallel_group s = Some t) g ->
  group_tag g = Some t.
Proof.
  intros Ht Hne Hall. destruct g as [|s g]; [contradiction|].
  inversion Hall as [|? ? Hs _]; subst. simpl.
  now rewrite (tagged_some _ _ Hs Ht).
Qed.

(** After a maximal run under [t], the next step (if any) does not
    carry [t]. *)
Lemma maximal_next (g : list FlowStep) (gs : list (list FlowStep))
    (t : string) :
  t <> ""%string -> group_tag g = Some t ->
  Forall is_group gs -> maximal (g :: gs) ->
  forall a x', concat gs = a :: x' -> parallel_group a <> Some t.
Proof.
  intros Ht Hg Hall Hmax a x' E Ea.
  destruct gs as [|g2 gs]; [discriminate|].
  inversion Hmax as [| |? ? ? Hne _]; subst.
  inversion Hall as [|? ? Hg2 _]; subst.
  apply is_group_nonempty in Hg2.
  destruct g2 as [|s g2]; [contradiction|].
  simpl in E. injection E as -> _.
  apply Hne; [rewrite Hg; eauto|].
  rewrite Hg. simpl. now rewrite (tagged_some _ _ Ea Ht).
Qed.

Lemma maximal_tail (g : list FlowStep) (gs : list (list FlowStep)) :
  maximal (g :: gs) -> maximal gs.
Proof. inversion 1; subst; [constructor|assumption]. Qed.

Lemma run_partition_unique (steps : list FlowStep)
    (gs1 gs2 : list (list FlowStep)) :
  run_partition steps gs1 -> run_partition steps gs2 -> gs1 = gs2.
Proof.
  revert steps gs2.
  induction gs1 as [|g1 r1 IH]; intros steps gs2 (E1 & A1 & M1) (E2 & A2 & M2).
  - simpl in E1. rewrite <- E1 in E2. symmetry. now apply concat_groups_nil.
  - destruct gs2 as [|g2 r2].
    + simpl in E2. rewrite <- E2 in E1.
      now apply concat_groups_nil in E1.
    + inversion A1 as [|? ? G1 A1']; inversion A2 as [|? ? G2 A2']; subst.
      simpl in E2.
      assert (Hhead : g1 = g2 /\ concat r1 = concat r2).
      { destruct G1 as [(s1 & -> & U1)|(t1 & T1 & N1 & F1)];
        destruct G2 as [(s2 & -> & U2)|(t2 & T2 & N2 & F2)].
        - simpl in E2. injection E2 as -> E2. auto.
        - destruct g2 as [|s2 g2]; [contradiction|].
          simpl in E2. injection E2 as -> _.
          inversion F2 as [|? ? Hs _]; subst.
          rewrite (tagged_some _ _ Hs T2) in U1. discriminate.
        - destruct g1 as [|s1 g1]; [contradiction|].
          simpl in E2. injection E2 as <- _.
          inversion F1 as [|? ? Hs _]; subst.
          rewrite (tagged_some _ _ Hs T1) in U2. discriminate.
        - assert (t1 = t2) as <-.
          { destruct g1 as [|a g1]; [contradiction|].
            destruct g2 as [|b g2]; [contradiction|].
            simpl in E2. injection E2 as <- _.
            inversion F1; inversion F2; subst. congruence. }
          apply (longest_prefix_unique
                   (fun s => parallel_group s = Some t1));
            [symmetry; exact E2|assumption|assumption| |].
          + eapply (maximal_next g1 r1 t1); eauto using tagged_run_tag.
          + eapply (maximal_next g2 r2 t1); eauto using tagged_run_tag. }
      destruct Hhead as [-> Etl]. f_equal.
      apply (IH (concat r1)).
      * split; [reflexivity|]. split; [assumption|].
        eapply maximal_tail; eassumption.
      * split; [now symmetry|]. split; [assumption|].
        eapply maximal_tail; eassumption.
Qed.

Lemma plan_lossless_groups (steps : list FlowStep) :
  Forall (fun g => g <> []) (_group_steps_by_parallelism steps).
Proof. rewrite plan_unfold. apply plan_from_nonempty. Qed.

Lemma plan_concat (steps : list FlowStep) :
  concat (_group_steps_by_parallelism steps) = steps.
Proof. rewrite plan_unfold. apply plan_from_concat. Qed.

(** C2.  The planner returns non-empty groups whose concatenation, in
    order, is the input list: no step is dropped, duplicated or moved
    across groups. *)
Theorem plan_lossless (steps : list FlowStep) :
  Forall (fun g => g <> []) (_group_steps_by_parallelism steps)
  /\ concat (_group_steps_by_parallelism steps) = steps.
Proof.
  split.
  - apply plan_lossless_groups.
  - apply plan_concat.
Qed.

(** C3.  The planner's output is exactly the cut of the input into one
    group per maximal contiguous run of steps sharing a non-empty tag
    and one singleton group per untagged step: it is such a cut, and
    every such cut is the planner's output.  Groups being contiguous
    and of one tag, runs of equal tag separated by another step stay
    apart. *)
Theorem plan_maximal_runs (steps : list FlowStep)
    (gs : list (list FlowStep)) :
  run_partition steps gs <-> gs = _group_steps_by_parallelism steps.
Proof.
  split.
  - intros Hgs. eapply run_partition_unique; [exact Hgs|].
    apply plan_is_run_partition.
  - intros ->. apply plan_is_run_partition.
Qed.

End PlannerFacts.

(* ===================================================================== *)
(** * Skip rules, payloads and headers *)
(* ===================================================================== *)

Section StepPreparation.
Import Settings Models StepSpec.

Lemma should_skip_step_by_name (step step' : FlowStep)
    (request_data : gmap string Py.pyval) :
  name step' = name step ->
  FlowRouter.should_skip_step step' request_data
  = FlowRouter.should_skip_step step request_data.
Proof. intros E. unfold FlowRouter.should_skip_step. now rewrite E. Qed.

(** C10.  [should_skip_step] is a function of the step name and the
    request parameters alone.  It answers [(True, reason)] in exactly
    three cases -- [match_usuario_profissao] with a truthy [position_id],
    [match_candidato] with a truthy [vacancy_id], [match_usuario_carreira]
    with a truthy [position_id] and a truthy [career_name] -- and
    [(False, None)] in every other. *)
Theorem should_skip_step_cases (step : FlowStep)
    (request_data : gmap string Py.pyval) :
  let position := Py.truthy (Py.get request_data "position_id") in
  let vacancy := Py.truthy (Py.get request_data "vacancy_id") in
  let career := Py.truthy (Py.get request_data "career_name") in
  let profissao := name step = "match_usuario_profissao" /\ position = true in
  let candidato := name step = "match_candidato" /\ vacancy = true in
  let carreira :=
    name step = "match_usuario_carreira"
    /\ position = true /\ career = true in
  (forall step', name step' = name step ->
   FlowRouter.should_skip_step step' request_data
   = FlowRouter.should_skip_step step request_data)
  /\ (profissao ->
      FlowRouter.should_skip_step step request_data
      = (true, Some "position_id provided"))
  /\ (candidato ->
      FlowRouter.should_skip_step step request_data
      = (true, Some "vacancy_id provided"))
  /\ (carreira ->
      FlowRouter.should_skip_step step request_data
      = (true, Some "both position_id and career_name provided"))
  /\ (~ (profissao \/ candidato \/ carreira) ->
      FlowRouter.should_skip_step step request_data = (false, None)).
Proof.
  cbv zeta. split; [intros; now apply should_skip_step_by_name|].
  unfold FlowRouter.should_skip_step.
  destruct (String.eqb_spec (name step) "match_usuario_profissao") as [E1|E1];
  destruct (String.eqb_spec (name step) "match_candidato") as [E2|E2];
  destruct (String.eqb_spec (name step) "match_usuario_carreira") as [E3|E3];
  try congruence;
  destruct (Py.truthy (Py.get request_data "position_id"));
  destruct (Py.truthy (Py.get request_data "vacancy_id"));
  destruct (Py.truthy (Py.get request_data "career_name"));
  simpl; repeat split; intros; intuition congruence.
Qed.

(** ** Payloads *)

Lemma lookup_update_filter (items : list (string * Py.pyval))
    (d : gmap string Py.pyval) (k : string) :
  NoDup items.*1 ->
  StepExecutor.update d (filter StepExecutor.not_none items) !! k
  = match (list_to_map items : gmap string Py.pyval) !! k with
    | Some v => if StepExecutor.not_none (k, v) then Some v else d !! k
    | None => d !! k
    end.
Proof.
  revert d. induction items as [|[k1 v1] items IH]; intros d Hnd.
  - reflexivity.
  - apply NoDup_cons in Hnd as [Hk1 Hnd].
    rewrite list_to_map_cons, filter_cons.
    assert (Hfresh : (list_to_map items : gmap string Py.pyval) !! k1 = None)
      by now apply not_elem_of_list_to_map_1.
    destruct (decide (k = k1)) as [->|Hne].
    + rewrite lookup_insert_eq.
      case_decide as Hnn.
      * cbn [StepExecutor.update fold_left]. fold (StepExecutor.update).
        change (fold_left _ ?l ?m) with (StepExecutor.update m l).
        rewrite IH by assumption. rewrite Hfresh.
        rewrite lookup_insert_eq.
        unfold StepExecutor.not_none in *. simpl in *.
        destruct v1; simpl; try reflexivity. contradiction.
      * rewrite IH by assumption. rewrite Hfresh.
        unfold StepExecutor.not_none in *. simpl in *.
        destruct v1; simpl; try reflexivity; exfalso; apply Hnn; exact I.
    + rewrite lookup_insert_ne by congruence.
      case_decide as Hnn.
      * cbn [StepExecutor.update fold_left].
        change (fold_left _ ?l ?m) with (StepExecutor.update m l).
        rewrite IH by assumption. simpl.
        rewrite lookup_insert_ne by congruence. reflexivity.
      * now rewrite IH.
Qed.

Lemma vacancy_params_NoDup (request_data : gmap string Py.pyval) :
  NoDup (StepExecutor.vacancy_params request_data).*1.
Proof.
  cbn. repeat (apply NoDup_cons_2;
               [rewrite ?elem_of_cons, elem_of_nil; intuition discriminate|]).
  apply NoDup_nil_2.
Qed.

Lemma profession_params_NoDup (request_data : gmap string Py.pyval) :
  NoDup (StepExecutor.profession_params request_data).*1.
Proof.
  cbn. repeat (apply NoDup_cons_2;
               [rewrite ?elem_of_cons, elem_of_nil; intuition discriminate|]).
  apply NoDup_nil_2.
Qed.

Lemma non_null_get (request_data : gmap string Py.pyval) (k : string) :
  (if StepExecutor.not_none (k, Py.get request_data k)
   then Some (Py.get request_data k) else None)
  = non_null (request_data !! k).
Proof.
  unfold StepExecutor.not_none, Py.get, non_null. simpl.
  destruct (request_data !! k) as [[]|]; reflexivity.
Qed.

Ltac payload_lookup :=
  rewrite ?lookup_update_filter
    by (apply vacancy_params_NoDup || apply profession_params_NoDup);
  cbn [StepExecutor.vacancy_params StepExecutor.profession_params
       list_to_map foldr fst snd uncurry];
  repeat (rewrite lookup_insert_eq
          || (rewrite lookup_insert_ne by discriminate)
          || rewrite lookup_empty
          || (rewrite lookup_singleton_ne by discriminate)
          || rewrite lookup_singleton_eq);
  rewrite ?non_null_get; try reflexivity.

(** C8.  For [create_embeddings] the payload is [{"sessionId": session_id}]
    and nothing else.  For any other step it holds [user_id]; each of
    [vacancy_id], [vacancy_name], [vacancy_description] exactly when the
    step name contains "vacancy" and the request parameter is present and
    not [None]; each of [position_id], [career_name], [position_name]
    exactly when the step name contains "profession" or "carreira" and the
    request parameter is present and not [None]; and no other key. *)
Theorem prepare_payload_shape (step : FlowStep) (context : ExecutionContext) :
  let payload := StepExecutor._prepare_payload step context in
  let request_data := request_data context in
  (name step = "create_embeddings" ->
   payload = {[ "sessionId" := Py.VStr (session_id context) ]})
  /\ (name step <> "create_embeddings" ->
      payload !! "user_id" = Some (Py.VStr (user_id context))
      /\ (forall k, k ∈ vacancy_fields ->
          payload !! k
          = if vacancy_class step then non_null (request_data !! k)
            else None)
      /\ (forall k, k ∈ profession_fields ->
          payload !! k
          = if profession_class step then non_null (request_data !! k)
            else None)
      /\ (forall k, k <> "user_id" -> k ∉ vacancy_fields ->
          k ∉ profession_fields -> payload !! k = None)).
Proof.
  cbv zeta. unfold StepExecutor._prepare_payload. split.
  - intros ->. reflexivity.
  - intros Hne.
    destruct (String.eqb_spec (name step) "create_embeddings");
      [contradiction|].
    unfold vacancy_class, profession_class, vacancy_fields, profession_fields.
    destruct (Py.str_in "vacancy" (name step));
    destruct (Py.str_in "profession" (name step) || Py.str_in "carreira" (name step));
    (split; [|split; [|split]]).
    all: try (intros k Hk;
              repeat (apply elem_of_cons in Hk as [->|Hk]);
              [payload_lookup .. | apply elem_of_nil in Hk; contradiction]).
    all: try payload_lookup.
    all: intros k Hu Hv Hp;
      rewrite ?lookup_update_filter
        by (apply vacancy_params_NoDup || apply profession_params_NoDup);
      rewrite ?(not_elem_of_list_to_map_1
                  (StepExecutor.profession_params (request_data context)) k)
        by exact Hp;
      rewrite ?(not_elem_of_list_to_map_1
                  (StepExecutor.vacancy_params (request_data context)) k)
        by exact Hv;
      now apply lookup_singleton_ne.
Qed.

(** ** Headers *)

Lemma first_present_found (request_data : gmap string Py.pyval)
    (before after : list string) (key : string) (token : Py.pyval) :
  Forall (fun k => request_data !! k = None) before ->
  is_Some (request_data !! key) ->
  StepExecutor.first_present request_data (before ++ key :: after)%list token
  = Py.get request_data key.
Proof.
  intros Hbefore Hkey.
  induction Hbefore as [|k before Hk _ IH]; simpl; unfold Py.has_key.
  - now rewrite bool_decide_eq_true_2.
  - rewrite bool_decide_eq_false_2; [exact IH|].
    rewrite Hk. now intros [? ?].
Qed.

Lemma first_present_none (request_data : gmap string Py.pyval)
    (keys : list string) (token : Py.pyval) :
  Forall (fun k => request_data !! k = None) keys ->
  StepExecutor.first_present request_data keys token = token.
Proof.
  induction 1 as [|k keys Hk _ IH]; simpl; [reflexivity|].
  unfold Py.has_key. rewrite bool_decide_eq_false_2; [exact IH|].
  rewrite Hk. now intros [? ?].
Qed.

Lemma select_token_fallback (step : FlowStep) (context : ExecutionContext) :
  Py.truthy (Py.get (request_data context) (name step ++ "_token")) = false ->
  StepExecutor.select_token step context
  = StepExecutor.first_present (request_data context)
      (generic_token_keys step)
      (Py.get (request_data context) (name step ++ "_token")).
Proof.
  intros Hfalsy.
  unfold StepExecutor.select_token, generic_token_keys,
    vacancy_class, profession_class.
  rewrite Hfalsy. simpl.
  destruct (Py.str_in "vacancy" (name step)); [reflexivity|].
  destruct (Py.str_in "profession" (name step) || Py.str_in "carreira" (name step));
    reflexivity.
Qed.

(** C9, as the code has it.  The step-specific credential
    ["<step name>_token"] is used whenever its value is truthy.  When it
    is absent or falsy ([None], empty, zero), the generic keys of the
    step's class are tried by priority and the first key present decides:
    its value is the token.  The headers are exactly
    [{"Authorization": "Bearer <token>"}] when the token so selected is
    truthy, and empty otherwise. *)
Theorem prepare_headers_selection (step : FlowStep)
    (context : ExecutionContext) :
  let request_data := request_data context in
  let specific := Py.get request_data (name step ++ "_token") in
  let headers := StepExecutor._prepare_headers step context in
  (Py.truthy specific = true -> headers = bearer specific)
  /\ (Py.truthy specific = false ->
      (forall before key after,
         generic_token_keys step = (before ++ key :: after)%list ->
         Forall (fun k => request_data !! k = None) before ->
         is_Some (request_data !! key) ->
         headers = if Py.truthy (Py.get request_data key)
                   then bearer (Py.get request_data key)
                   else ∅)
      /\ (Forall (fun k => request_data !! k = None)
                 (generic_token_keys step) ->
          headers = ∅)).
Proof.
  cbv zeta. unfold StepExecutor._prepare_headers, bearer. split.
  - intros Htruthy. unfold StepExecutor.select_token.
    rewrite Htruthy. simpl. rewrite Htruthy. apply insert_empty.
  - intros Hfalsy. rewrite (select_token_fallback _ _ Hfalsy). split.
    + intros before key after -> Hbefore Hkey.
      rewrite (first_present_found _ _ _ _ _ Hbefore Hkey).
      destruct (Py.truthy (Py.get (request_data context) key));
        [apply insert_empty|reflexivity].
    + intros Habsent. rewrite (first_present_none _ _ _ Habsent).
      now rewrite Hfalsy.
Qed.

(** C9 as worded fails: the step-specific key of
    [suggest_course_vacancy] is present (with an empty value), and yet
    the headers carry the generic [match_candidato_token]. *)
Lemma prepare_headers_falls_back_on_present_key :
  Examples.empty_token_request
    !! (name FlowConfig.suggest_course_vacancy ++ "_token")
  = Some (Py.VStr "")
  /\ StepExecutor._prepare_headers FlowConfig.suggest_course_vacancy
       Examples.empty_token_context
     = {[ "Authorization" := "Bearer T" ]}
  /\ claimed_headers FlowConfig.suggest_course_vacancy
       Examples.empty_token_context
     = ∅
  /\ StepExecutor._prepare_headers FlowConfig.suggest_course_vacancy
       Examples.empty_token_context
     <> claimed_headers FlowConfig.suggest_course_vacancy
          Examples.empty_token_context.
Proof.
  assert (H1 : StepExecutor._prepare_headers FlowConfig.suggest_course_vacancy
                 Examples.empty_token_context
               = {[ "Authorization" := "Bearer T" ]}) by (vm_compute; reflexivity).
  assert (H2 : claimed_headers FlowConfig.suggest_course_vacancy
                 Examples.empty_token_context = ∅) by (vm_compute; reflexivity).
  split; [vm_compute; reflexivity|].
  split; [exact H1|]. split; [exact H2|].
  rewrite H1, H2. intros E.
  apply (f_equal (fun m : gmap string string => m !! "Authorization")) in E.
  rewrite lookup_singleton_eq, lookup_empty in E. discriminate.
Qed.

End StepPreparation.

(* ===================================================================== *)
(** * The step runner *)
(* ===================================================================== *)

Section MonadFacts.
Import Runtime.
Context `{Host}.

Lemma bind_return {A B} (m : M A) (k : A -> M B) (st st' : Store) (a : A) :
  m st = (Return a, st') -> bind m k st = k a st'.
Proof. intros E. unfold bind. now rewrite E. Qed.

Lemma bind_raised {A B} (m : M A) (k : A -> M B) (st st' : Store)
    (e : Py.exn) :
  m st = (Raised e, st') -> bind m k st = (Raised e, st').
Proof. intros E. unfold bind. now rewrite E. Qed.

Lemma try_return {A} (body : M A) (handler : Py.exn -> M A)
    (st st' : Store) (a : A) :
  body st = (Return a, st') -> try_except body handler st = (Return a, st').
Proof. intros E. unfold try_except. now rewrite E. Qed.

Lemma try_raised {A} (body : M A) (handler : Py.exn -> M A)
    (st st' : Store) (e : Py.exn) :
  body st = (Raised e, st') -> try_except body handler st = handler e st'.
Proof. intros E. unfold try_except. now rewrite E. Qed.

End MonadFacts.

Section RunnerFacts.
Import Settings Models Runtime StepExecutor RunnerSpec.
Context `{Host}.

Lemma critical_result_for (step : FlowStep) (e : Py.exn) :
  critical_for e (critical_result step e).
Proof. repeat split. Qed.

Lemma is_success_two_xx (response : HttpClient.HttpResponse) :
  HttpClient.is_success response = true
  <-> two_xx (HttpClient.status_code response).
Proof. unfold HttpClient.is_success, two_xx. lia. Qed.

(** C5.  Whatever the five calls inside the [try] block do, the step
    runner returns a result and raises nothing.  A fault raised by skip
    evaluation, target resolution, payload construction, header
    construction or the transport call yields [CriticalError] with the
    fault's message and traceback.  Once the transport call returns a
    response, the status is [Success] exactly when its status code is
    2xx; otherwise it is [Failed], with the response's error text (or
    ["HTTP <code>"] when it has none) and its status code. *)
Theorem execute_step_classification (services : Collaborators)
    (step : FlowStep) (context : ExecutionContext) (st : Store) :
  (exists result st', execute_step step context st = (Return result, st'))
  /\ (forall e st1,
      call_should_skip_step step (request_data context) st
      = (Raised e, st1) ->
      exists result,
        execute_step step context st = (Return result, st1)
        /\ critical_for e result)
  /\ (forall reason st1,
      call_should_skip_step step (request_data context) st
      = (Return (false, reason), st1) ->
      (forall e st2,
         call_get_url step st1 = (Raised e, st2) ->
         exists result,
           execute_step step context st = (Return result, st2)
           /\ critical_for e result)
      /\ (forall url st2,
          call_get_url step st1 = (Return (Some url), st2) ->
          url <> "" ->
          (forall e st3,
             call_prepare_payload step context st2 = (Raised e, st3) ->
             exists result,
               execute_step step context st = (Return result, st3)
               /\ critical_for e result)
          /\ (forall payload st3,
              call_prepare_payload step context st2
              = (Return payload, st3) ->
              (forall e st4,
                 call_prepare_headers step context st3 = (Raised e, st4) ->
                 exists result,
                   execute_step step context st = (Return result, st4)
                   /\ critical_for e result)
              /\ (forall headers st4,
                  call_prepare_headers step context st3
                  = (Return headers, st4) ->
                  (forall e st5,
                     call_post url payload headers (Some (timeout step)) st4
                     = (Raised e, st5) ->
                     exists result,
                       execute_step step context st = (Return result, st5)
                       /\ critical_for e result)
                  /\ (forall response st5,
                      call_post url payload headers (Some (timeout step)) st4
                      = (Return response, st5) ->
                      exists result,
                        execute_step step context st = (Return result, st5)
                        /\ (status result = SUCCESS
                            <-> two_xx (HttpClient.status_code response))
                        /\ (~ two_xx (HttpClient.status_code response) ->
                            failed_with response result)))))).
Proof.
  split; [|split].
  - unfold execute_step, try_except, bind, ret.
    destruct (call_should_skip_step _ _ _) as [[[[] reason]|e] st1];
      [eauto|idtac|eauto].
    destruct (call_get_url _ _) as [[url|e] st2]; [|eauto].
    destruct (negb (Py.truthy_opt url)); [eauto|].
    destruct (call_prepare_payload _ _ _) as [[payload|e] st3]; [|eauto].
    destruct (call_prepare_headers _ _ _) as [[headers|e] st4]; [|eauto].
    destruct (call_post _ _ _ _ _) as [[response|e] st5]; [|eauto].
    destruct (HttpClient.is_success response); eauto.
  - intros e st1 E. eexists. split; [|apply critical_result_for].
    unfold execute_step. erewrite try_raised; [reflexivity|].
    now apply bind_raised.
  - intros reason st1 Eskip.
    assert (Hurl : Py.truthy_opt (Some "") = false) by reflexivity.
    split.
    + intros e st2 E. eexists. split; [|apply critical_result_for].
      unfold execute_step. erewrite try_raised; [reflexivity|].
      erewrite bind_return by exact Eskip. cbn iota beta.
      now apply bind_raised.
    + intros url st2 Eurl Hne.
      assert (Htruthy : negb (Py.truthy_opt (Some url)) = false).
      { simpl. destruct (String.eqb_spec url ""); [contradiction|reflexivity]. }
      split.
      * intros e st3 E. eexists. split; [|apply critical_result_for].
        unfold execute_step. erewrite try_raised; [reflexivity|].
        erewrite bind_return by exact Eskip. cbn iota beta.
        erewrite bind_return by exact Eurl. rewrite Htruthy.
        now apply bind_raised.
      * intros payload st3 Epayload. split.
        -- intros e st4 E. eexists. split; [|apply critical_result_for].
           unfold execute_step. erewrite try_raised; [reflexivity|].
           erewrite bind_return by exact Eskip. cbn iota beta.
           erewrite bind_return by exact Eurl. rewrite Htruthy.
           erewrite bind_return by exact Epayload.
           now apply bind_raised.
        -- intros headers st4 Eheaders. split.
           ++ intros e st5 E. eexists. split; [|apply critical_result_for].
              unfold execute_step. erewrite try_raised; [reflexivity|].
              erewrite bind_return by exact Eskip. cbn iota beta.
              erewrite bind_return by exact Eurl. rewrite Htruthy.
              erewrite bind_return by exact Epayload.
              erewrite bind_return by exact Eheaders.
              now apply bind_raised.
           ++ intros response st5 E.
              pose proof (is_success_two_xx response) as H2xx.
              destruct (HttpClient.is_success response) eqn:Es;
                (eexists; split; [|split];
                 [ unfold execute_step; erewrite try_return; [reflexivity|];
                   erewrite bind_return by exact Eskip; cbn iota beta;
                   erewrite bind_return by exact Eurl; rewrite Htruthy;
                   erewrite bind_return by exact Epayload;
                   erewrite bind_return by exact Eheaders;
                   erewrite bind_return by exact E;
                   rewrite Es; reflexivity
                 | | ]); simpl.
              ** split; [intros _; now apply H2xx|reflexivity].
              ** intros Hn. exfalso. apply Hn. now apply H2xx.
              ** split; [discriminate|].
                 intros H2. apply H2xx in H2. discriminate.
              ** intros _. repeat split.
Qed.

(** ** The runner as wired by [StepExecutor.__init__] *)

Lemma invoked_snoc (h : list Event) (request : Request) :
  invoked (h ++ [Invoked request]) = (invoked h ++ [request])%list.
Proof. unfold invoked. now rewrite omap_app. Qed.

Lemma dispatched_snoc_invoked (h : list Event) (request : Request) :
  dispatched (h ++ [Invoked request]) = dispatched h.
Proof. unfold dispatched. rewrite omap_app. simpl. apply app_nil_r. Qed.

Lemma dispatched_snoc (h : list Event) (step : FlowStep) :
  dispatched (h ++ [Dispatched step]) = (dispatched h ++ [step])%list.
Proof. unfold dispatched. now rewrite omap_app. Qed.

(** Computing the payload size leaves the store alone: it raises what
    the encoder raises, or goes on. *)
Lemma payload_size_spec (payload : gmap string Py.pyval) (st : Store) :
  HttpClient.payload_size payload st
  = match ClientSpec.dumps_fault payload with
    | Some e => (Raised e, st)
    | None => (Return tt, st)
    end.
Proof.
  unfold HttpClient.payload_size, ClientSpec.dumps_fault.
  destruct (bool_decide (payload = ∅)); [reflexivity|].
  destruct (json_dumps_raises payload); reflexivity.
Qed.

(** A payload of scalars passes the encoder. *)
Lemma scalars_dump (payload : gmap string Py.pyval) :
  map_Forall (fun _ v => Py.json_scalar v = true) payload ->
  ClientSpec.dumps_fault payload = None.
Proof.
  intros Hall. unfold ClientSpec.dumps_fault.
  destruct (bool_decide (payload = ∅)); [reflexivity|].
  now apply json_dumps_scalars.
Qed.

(** A timeout or a connection error of the [requests] library comes back
    from [_execute_request] as a response value with status code 0 and an
    error text, never as an exception. *)
Lemma transport_error_value (self : HttpClient.HttpClient)
    (method url : string) (headers : gmap string string)
    (payload : gmap string Py.pyval) (timeout : option Z) (st : Store)
    (kind : Fault) (e : Py.exn) (w : net) :
  let effective :=
    match timeout with
    | Some t => if (t =? 0)%Z then HttpClient.default_timeout self else t
    | None => HttpClient.default_timeout self
    end in
  let request :=
    mkRequest method url (headers ∪ HttpClient.session_headers self)
      payload effective in
  ClientSpec.dumps_fault payload = None ->
  session_request request (outside st) = (Raises kind e, w) ->
  kind = Timeout \/ kind = ConnectionError ->
  exists response st',
    HttpClient._execute_request self method url headers payload timeout st
    = (Return response, st')
    /\ HttpClient.status_code response = 0%Z
    /\ is_Some (HttpClient.error response)
    /\ HttpClient.is_success response = false.
Proof.
  cbv zeta. intros Hdumps Ereq Hkind.
  unfold ClientSpec.dumps_fault in Hdumps.
  unfold HttpClient._execute_request, HttpClient.payload_size,
    bind, record, interact, ret, raise.
  simpl.
  destruct (bool_decide (payload = ∅)); [|rewrite Hdumps];
    rewrite Ereq;
    (destruct Hkind as [-> | ->]; eexists _, _;
     (split; [reflexivity|]); simpl; eauto).
Qed.

(** One [post] of the wired client: a payload the encoder refuses is
    raised before anything is sent, and the store stays as it was; any
    other payload makes one call of [session.request], which leaves the
    context alone and adds one invocation to the history. *)
Lemma post_once (url : string) (payload : gmap string Py.pyval)
    (headers : gmap string string) (timeout : option Z) (st : Store) :
  match ClientSpec.dumps_fault payload with
  | Some e =>
      HttpClient.post http_client url payload headers timeout st
      = (Raised e, st)
  | None =>
      exists outcome request w,
        HttpClient.post http_client url payload headers timeout st
        = (outcome,
           {| context := context st;
              outside := w;
              history := (history st ++ [Invoked request])%list |})
  end.
Proof.
  unfold ClientSpec.dumps_fault, HttpClient.post, HttpClient.request.
  simpl.
  unfold HttpClient._execute_request, HttpClient.payload_size,
    bind, record, interact, ret, raise.
  simpl.
  destruct (bool_decide (payload = ∅));
    [|destruct (json_dumps_raises payload); [reflexivity|]];
    (destruct (session_request _ _) as [reply w];
     destruct reply as [code ok body hdrs|[| |response_status|] e]; simpl;
     try (destruct (_ || _)); eauto).
Qed.

(** The wired runner never raises, tags its result with the step name,
    leaves the context alone and dispatches nothing itself. *)
Lemma wired_execute_step_total (step : FlowStep)
    (context0 : ExecutionContext) (st : Store) :
  exists result st',
    Orchestrator.execute_step step context0 st = (Return result, st')
    /\ step_name result = name step
    /\ context st' = context st
    /\ dispatched (history st') = dispatched (history st).
Proof.
  unfold Orchestrator.execute_step, execute_step. simpl.
  unfold try_except, bind, ret, get_url, observe. simpl.
  destruct (FlowRouter.should_skip_step _ _) as [[] reason]; [eauto 10|].
  destruct (negb (Py.truthy_opt _)); [eauto 10|].
  pose proof (post_once (default "" (getenv (outside st) (url_env_var step)))
                (_prepare_payload step context0)
                (_prepare_headers step context0)
                (Some (timeout step)) st) as Hpost.
  destruct (ClientSpec.dumps_fault _) as [fault|].
  - rewrite Hpost. eauto 10.
  - destruct Hpost as (outcome & request & w & ->).
    destruct outcome as [response|e].
    + destruct (HttpClient.is_success response);
        (eexists _, _; split; [reflexivity|]; simpl;
         rewrite dispatched_snoc_invoked; auto).
    + eexists _, _. split; [reflexivity|]. simpl.
      rewrite dispatched_snoc_invoked. auto.
Qed.

(** C6.  The wired step runner answers [Skipped] exactly when a skip
    rule matches the step and the request parameters or the step's URL
    is unresolved ([os.getenv] gives nothing, or an empty string).  A
    skipped step leaves the store as it was: the transport is not
    invoked.  A step that is not skipped invokes it at most once: not at
    all when the JSON encoder refuses the payload, which is a
    [CriticalError] with the encoder's message and leaves the store as
    it was, and exactly once otherwise.  An unresolved URL is reported as
    ["URL not configured: <variable>"], a [Skipped] result. *)
Theorem execute_step_skipped (step : FlowStep)
    (context0 : ExecutionContext) (st : Store) :
  let skip := (FlowRouter.should_skip_step step (request_data context0)).1 in
  let unresolved :=
    negb (Py.truthy_opt (getenv (outside st) (url_env_var step))) in
  exists result st',
    Orchestrator.execute_step step context0 st = (Return result, st')
    /\ (status result = SKIPPED <-> skip = true \/ unresolved = true)
    /\ (status result = SKIPPED ->
        st' = st /\ invoked (history st') = invoked (history st))
    /\ (status result <> SKIPPED ->
        match ClientSpec.dumps_fault (_prepare_payload step context0) with
        | Some e => st' = st /\ critical_for e result
        | None =>
            exists request,
              invoked (history st')
              = (invoked (history st) ++ [request])%list
        end)
    /\ (skip = false -> unresolved = true ->
        status result = SKIPPED
        /\ error result = Some ("URL not configured: " ++ url_env_var step)).
Proof.
  cbv zeta.
  unfold Orchestrator.execute_step, execute_step. simpl.
  unfold try_except, bind, ret, get_url, observe. simpl.
  destruct (FlowRouter.should_skip_step _ _) as [[] reason]; simpl.
  - eexists _, _. split; [reflexivity|]. simpl.
    split; [split; auto|]. split; [auto|].
    split; [intros Hn; now contradiction Hn|discriminate].
  - destruct (negb (Py.truthy_opt _)) eqn:Eu; simpl.
    + eexists _, _. split; [reflexivity|]. simpl.
      split; [split; auto|]. split; [auto|].
      split; [intros Hn; now contradiction Hn|auto].
    + pose proof (post_once
                    (default "" (getenv (outside st) (url_env_var step)))
                    (_prepare_payload step context0)
                    (_prepare_headers step context0)
                    (Some (timeout step)) st) as Hpost.
      destruct (ClientSpec.dumps_fault _) as [fault|].
      * rewrite Hpost. eexists _, _. split; [reflexivity|]. simpl.
        split; [split; [discriminate|intros [|]; discriminate]|].
        split; [discriminate|].
        split; [|discriminate].
        intros _. split; [reflexivity|apply critical_result_for].
      * destruct Hpost as (outcome & request & w & ->).
        destruct outcome as [response|e];
          [destruct (HttpClient.is_success response)|];
          (eexists _, _; split; [reflexivity|]; simpl;
           rewrite invoked_snoc;
           split; [split; [discriminate|intros [|]; discriminate]|];
           split; [discriminate|];
           split; [eauto|discriminate]).
Qed.

End RunnerFacts.

(* ===================================================================== *)
(** * The flow execution engine *)
(* ===================================================================== *)

Section ContextFacts.
Import Models EngineSpec.
Local Open Scope list_scope.

Lemma extend_nil (context : ExecutionContext) : extend context [] = context.
Proof. destruct context. unfold extend. simpl. now rewrite app_nil_r. Qed.

Lemma extend_extend (context : ExecutionContext)
    (a b : list StepResult) :
  extend (extend context a) b = extend context (a ++ b).
Proof. unfold extend. simpl. now rewrite app_assoc. Qed.

Lemma add_result_extend (context : ExecutionContext) (r : StepResult) :
  add_result context r = extend context [r].
Proof. reflexivity. Qed.

End ContextFacts.

Section EngineFacts.
Import Settings Models Runtime FlowExecutor EngineSpec.
Local Open Scope list_scope.
Context `{Host}.

Variable max_workers : Z.
Variable step_executor : FlowStep -> ExecutionContext -> M StepResult.

(** What the engine relies on: the runner returns a result under the
    step's name, and neither touches the context nor dispatches. *)
Hypothesis runner_total :
  forall step context0 st,
    exists result st',
      step_executor step context0 st = (Return result, st')
      /\ step_name result = name step
      /\ context st' = context st
      /\ dispatched (history st') = dispatched (history st).

Lemma collect_spec (completed : list FlowStep)
    (context0 : ExecutionContext) (acc : list StepResult) (st : Store) :
  exists out st',
    collect step_executor completed context0 acc st
    = (Return (acc ++ out), st')
    /\ map step_name out = map name completed
    /\ context st' = context st
    /\ dispatched (history st') = dispatched (history st).
Proof.
  revert acc st. induction completed as [|step completed IH]; intros acc st.
  - exists [], st. simpl. unfold ret. now rewrite app_nil_r.
  - destruct (runner_total step context0 st)
      as (result & st1 & Erun & Hname & Hctx & Hdisp).
    destruct (IH (acc ++ [result]) st1)
      as (out & st2 & Ecol & Hnames & Hctx2 & Hdisp2).
    exists (result :: out), st2. split; [|split; [|split]].
    + simpl. erewrite bind_return
        by (apply try_return; exact Erun).
      rewrite Ecol, <- app_assoc. reflexivity.
    + simpl. now rewrite Hname, Hnames.
    + congruence.
    + congruence.
Qed.

Lemma submit_all (steps : list FlowStep) (st : Store) :
  for_each (fun step => record (Dispatched step)) steps st
  = (Return tt,
     {| context := context st;
        outside := outside st;
        history := history st ++ map Dispatched steps |}).
Proof.
  revert st. induction steps as [|step steps IH]; intros st; simpl.
  - unfold ret. destruct st. simpl. now rewrite app_nil_r.
  - unfold bind, record. rewrite IH. simpl.
    now rewrite <- app_assoc.
Qed.

Lemma dispatched_submitted (h : list Event) (steps : list FlowStep) :
  dispatched (h ++ map Dispatched steps) = dispatched h ++ steps.
Proof.
  unfold dispatched. rewrite omap_app. f_equal.
  induction steps as [|step steps IH]; [reflexivity|].
  cbn. f_equal. exact IH.
Qed.

Lemma add_results (produced : list StepResult) (st : Store) :
  for_each context_add_result produced st
  = (Return tt,
     {| context := extend (context st) produced;
        outside := outside st;
        history := history st |}).
Proof.
  revert st. induction produced as [|r produced IH]; intros st; simpl.
  - unfold ret. rewrite extend_nil. now destruct st.
  - unfold bind, context_add_result. rewrite IH. simpl.
    now rewrite add_result_extend, extend_extend.
Qed.

Lemma parallel_spec (steps : list FlowStep) (context0 : ExecutionContext)
    (st : Store) :
  (0 < max_workers)%Z -> steps <> [] ->
  exists out st',
    _execute_parallel_steps max_workers step_executor steps context0 st
    = (Return out, st')
    /\ answers steps out
    /\ context st' = context st
    /\ dispatched (history st') = dispatched (history st) ++ steps.
Proof.
  intros Hworkers Hne. unfold _execute_parallel_steps.
  assert (Hpool : (Z.min (Z.of_nat (length steps)) max_workers <=? 0)%Z = false).
  { apply Z.leb_gt. destruct steps; [contradiction|]. simpl length. lia. }
  rewrite Hpool.
  erewrite bind_return by apply submit_all.
  unfold bind at 1, observe at 1. cbn [outside].
  match goal with
  | |- context [collect _ ?c _ _ ?s] =>
      destruct (collect_spec c context0 [] s)
        as (out & st' & Ecol & Hnames & Hctx & Hdisp)
  end.
  exists out, st'. rewrite Ecol. split; [reflexivity|]. split; [|split].
  - unfold answers. rewrite Hnames.
    apply Permutation_map, completion_order_perm.
  - rewrite Hctx. reflexivity.
  - rewrite Hdisp. simpl. apply dispatched_submitted.
Qed.

(** The collection loop calls the runner on the completed steps, in
    completion order, and returns what the calls returned. *)
Lemma collect_called (completed : list FlowStep)
    (context0 : ExecutionContext) (acc : list StepResult) (st : Store) :
  exists out st',
    collect step_executor completed context0 acc st
    = (Return (acc ++ out), st')
    /\ called step_executor context0 completed st out st'.
Proof.
  revert acc st. induction completed as [|step completed IH]; intros acc st.
  - exists [], st. simpl. unfold ret. rewrite app_nil_r.
    split; [reflexivity|constructor].
  - destruct (runner_total step context0 st) as (result & st1 & Erun & _).
    destruct (IH (acc ++ [result]) st1) as (out & st2 & Ecol & Hcalled).
    exists (result :: out), st2. split.
    + simpl. erewrite bind_return by (apply try_return; exact Erun).
      rewrite Ecol, <- app_assoc. reflexivity.
    + econstructor; eassumption.
Qed.

(** One group, as the loop of [execute_flow] runs it: the group's branch
    of the loop body up to the abort test. *)
Lemma group_step (g : list FlowStep) (st : Store) :
  (0 < max_workers)%Z -> g <> [] ->
  exists out st',
    group_run step_executor g st out st'
    /\ forall (rest : list (list FlowStep)) (acc : list StepResult),
         execute_groups max_workers step_executor (g :: rest) acc st
         = if aborts out then (Return (acc ++ out), st')
           else execute_groups max_workers step_executor rest
                  (acc ++ out) st'.
Proof.
  intros Hworkers Hne.
  destruct g as [|s [|s2 g']]; [contradiction| |].
  - destruct (runner_total s (context st) (submitted [s] st))
      as (r & st1 & Erun & _).
    exists [r], (appended [r] st1). split.
    + exists st1. split; [|reflexivity].
      cbn [service_order]. econstructor; [exact Erun|constructor].
    + intros rest acc. cbn [execute_groups].
      unfold bind at 1, read_context at 1.
      unfold _execute_single_step.
      unfold bind at 1. unfold bind at 1, record at 1.
      change {| context := context st; outside := outside st;
                history := history st ++ [Dispatched s] |}
        with (submitted [s] st).
      rewrite Erun.
      unfold bind at 1, context_add_result at 1.
      change {| context := add_result (context st1) r;
                outside := outside st1; history := history st1 |}
        with (appended [r] st1).
      unfold aborts. cbn [existsb]. rewrite orb_false_r.
      destruct (is_critical r); reflexivity.
  - set (g := s :: s2 :: g').
    destruct (collect_called (completion_order (outside st) g) (context st)
                [] (submitted g st)) as (out & st1 & Ecol & Hcalled).
    exists out, (appended out st1). split.
    + exists st1. split; [exact Hcalled|reflexivity].
    + intros rest acc.
      assert (Epar : _execute_parallel_steps max_workers step_executor g
                       (context st) st = (Return out, st1)).
      { unfold _execute_parallel_steps.
        assert (Hpool : (Z.min (Z.of_nat (length g)) max_workers <=? 0)%Z
                        = false)
          by (apply Z.leb_gt; subst g; simpl length; lia).
        rewrite Hpool.
        erewrite bind_return by apply submit_all.
        unfold bind at 1, observe at 1. cbn [outside].
        exact Ecol. }
      change (execute_groups max_workers step_executor (g :: rest) acc st)
        with (bind read_context
                (fun context0 =>
                   bind (_execute_parallel_steps max_workers step_executor g
                           context0)
                     (fun group_results =>
                        bind (for_each context_add_result group_results)
                          (fun _ =>
                             if existsb is_critical group_results
                             then ret (acc ++ group_results)
                             else execute_groups max_workers step_executor
                                    rest (acc ++ group_results)))) st).
      unfold bind at 1, read_context at 1.
      erewrite bind_return by exact Epar.
      erewrite bind_return by apply add_results.
      fold (aborts out). fold (appended out st1).
      destruct (aborts out); reflexivity.
Qed.

(** The loop of [execute_flow] runs the groups as [ran] says. *)
Lemma execute_groups_ran (groups : list (list FlowStep)) :
  (0 < max_workers)%Z ->
  Forall (fun g => g <> []) groups ->
  forall (acc : list StepResult) (st : Store),
  exists produced st',
    execute_groups max_workers step_executor groups acc st
    = (Return (acc ++ produced), st')
    /\ ran step_executor groups st produced st'.
Proof.
  intros Hworkers Hgroups.
  induction Hgroups as [|g groups Hg _ IH]; intros acc st.
  - exists [], st. simpl. unfold ret. rewrite app_nil_r.
    split; [reflexivity|constructor].
  - destruct (group_step g st Hworkers Hg) as (out & st1 & Hrun & Estep).
    rewrite (Estep groups acc).
    destruct (aborts out) eqn:Hab.
    + exists out, st1. split; [reflexivity|]. now apply ran_abort.
    + destruct (IH (acc ++ out) st1) as (produced & st2 & E & Hran).
      exists (out ++ produced), st2. rewrite E, app_assoc.
      split; [reflexivity|]. eapply ran_on; eassumption.
Qed.

Lemma run_shape_cons (g : list FlowStep) (out : list StepResult)
    (groups : list (list FlowStep)) (disp : list FlowStep)
    (produced : list StepResult) :
  answers g out -> aborts out = false ->
  run_shape groups disp produced ->
  run_shape (g :: groups) (g ++ disp) (out ++ produced).
Proof.
  intros Hans Hquiet Hrun. destruct Hrun as [outs Hall Hq|before g' after outs out' -> Hall Hq Hans' Hab].
  - change (g ++ concat groups) with (concat (g :: groups)).
    change (out ++ concat outs) with (concat (out :: outs)).
    apply run_completed; constructor; assumption.
  - rewrite !app_assoc.
    change (g ++ concat before) with (concat (g :: before)).
    change (out ++ concat outs) with (concat (out :: outs)).
    apply (run_aborted _ (g :: before) g' after (out :: outs) out');
      try assumption; try reflexivity; constructor; assumption.
Qed.

Lemma single_step_spec (step : FlowStep) (context0 : ExecutionContext)
    (st : Store) :
  exists result st',
    _execute_single_step step_executor step context0 st
    = (Return result, st')
    /\ step_name result = name step
    /\ context st' = context st
    /\ dispatched (history st') = dispatched (history st) ++ [step].
Proof.
  unfold _execute_single_step, bind, record.
  match goal with
  | |- context [step_executor step context0 ?s] =>
      destruct (runner_total step context0 s)
        as (result & st' & Erun & Hname & Hctx & Hdisp)
  end.
  exists result, st'. rewrite Erun. split; [reflexivity|].
  split; [assumption|]. split; [assumption|].
  rewrite Hdisp. simpl. apply dispatched_snoc.
Qed.

(** The loop of [execute_flow], from any accumulator and any store. *)
Lemma execute_groups_spec (groups : list (list FlowStep)) :
  (0 < max_workers)%Z ->
  Forall (fun g => g <> []) groups ->
  forall (acc : list StepResult) (st : Store),
  exists disp produced st',
    execute_groups max_workers step_executor groups acc st
    = (Return (acc ++ produced), st')
    /\ run_shape groups disp produced
    /\ dispatched (history st') = dispatched (history st) ++ disp
    /\ context st' = extend (context st) produced.
Proof.
  intros Hworkers Hgroups.
  induction Hgroups as [|g groups Hg _ IH]; intros acc st.
  - exists [], [], st. simpl. unfold ret. rewrite !app_nil_r, extend_nil.
    split; [reflexivity|]. split; [|split; reflexivity].
    apply (run_completed [] []); constructor.
  - assert (Hstep : exists out st1,
              (match g with
               | [step] =>
                   bind (_execute_single_step step_executor step (context st))
                        (fun r => ret [r])
               | _ => _execute_parallel_steps max_workers step_executor g
                        (context st)
               end) st = (Return out, st1)
              /\ answers g out
              /\ context st1 = context st
              /\ dispatched (history st1) = dispatched (history st) ++ g).
    { destruct g as [|s [|s2 g']]; [contradiction| |].
      - destruct (single_step_spec s (context st) st)
          as (r & st1 & E & Hname & Hctx & Hdisp).
        exists [r], st1. erewrite bind_return by exact E.
        split; [reflexivity|]. split; [|auto].
        unfold answers. simpl. now rewrite Hname.
      - apply parallel_spec; [assumption|discriminate]. }
    destruct Hstep as (out & st1 & Estep & Hans & Hctx1 & Hdisp1).
    set (st2 := {| context := extend (context st1) out;
                   outside := outside st1;
                   history := history st1 |}).
    destruct (aborts out) eqn:Hab.
    + exists g, out, st2. split; [|split; [|split]].
      * destruct g as [|s [|s2 g']]; [contradiction| |].
        -- simpl. unfold bind at 1, read_context at 1.
           unfold bind at 1 in Estep.
           destruct (_execute_single_step _ _ _ _) as [[r|e] st1'] eqn:E1;
             [|discriminate].
           unfold ret in Estep. injection Estep as <- <-.
           unfold bind at 1. rewrite E1.
           unfold bind at 1, context_add_result at 1.
           unfold aborts in Hab. simpl in Hab. rewrite orb_false_r in Hab.
           rewrite Hab. reflexivity.
        -- simpl. unfold bind at 1, read_context at 1.
           unfold bind at 1. rewrite Estep.
           erewrite bind_return by apply add_results.
           fold (aborts out). rewrite Hab. reflexivity.
      * exact (run_aborted (g :: groups) [] g groups [] out eq_refl
                 (List.Forall2_nil _) (List.Forall_nil _) Hans Hab).
      * simpl. exact Hdisp1.
      * simpl. now rewrite Hctx1.
    + destruct (IH (acc ++ out) st2)
        as (disp & produced & st3 & Erest & Hshape & Hdisp3 & Hctx3).
      exists (g ++ disp), (out ++ produced), st3.
      split; [|split; [|split]].
      * rewrite app_assoc, <- Erest.
        destruct g as [|s [|s2 g']]; [contradiction| |].
        -- simpl. unfold bind at 1, read_context at 1.
           unfold bind at 1 in Estep.
           destruct (_execute_single_step _ _ _ _) as [[r|e] st1'] eqn:E1;
             [|discriminate].
           unfold ret in Estep. injection Estep as <- <-.
           unfold bind at 1. rewrite E1.
           unfold bind at 1, context_add_result at 1.
           unfold aborts in Hab. simpl in Hab. rewrite orb_false_r in Hab.
           rewrite Hab. reflexivity.
        -- simpl. unfold bind at 1, read_context at 1.
           unfold bind at 1. rewrite Estep.
           erewrite bind_return by apply add_results.
           fold (aborts out). rewrite Hab. reflexivity.
      * now apply run_shape_cons.
      * rewrite Hdisp3. simpl. rewrite Hdisp1. now rewrite app_assoc.
      * rewrite Hctx3. simpl. rewrite Hctx1. apply extend_extend.
Qed.

End EngineFacts.

(* ===================================================================== *)
(** * The orchestrator: abort semantics, result counts, context frame *)
(* ===================================================================== *)

Section ShapeFacts.
Import Settings Models EngineSpec.
Local Open Scope list_scope.

Lemma answers_concat (groups : list (list FlowStep))
    (outs : list (list StepResult)) :
  Forall2 answers groups outs ->
  map step_name (concat outs) ≡ₚ map name (concat groups).
Proof.
  induction 1 as [|g out groups outs Hans _ IH]; simpl; [reflexivity|].
  rewrite !map_app. now apply Permutation_app.
Qed.

Lemma aborts_app (a b : list StepResult) :
  aborts (a ++ b) = aborts a || aborts b.
Proof. unfold aborts. apply existsb_app. Qed.

Lemma answers_singleton (step : FlowStep) (out : list StepResult) :
  answers [step] out ->
  exists r, out = [r] /\ step_name r = name step.
Proof.
  unfold answers. simpl. intros Hperm.
  apply Permutation_sym, Permutation_singleton_l in Hperm.
  destruct out as [|r [|r2 out]]; try discriminate.
  injection Hperm as E. eauto.
Qed.

Lemma run_shape_names (groups : list (list FlowStep))
    (disp : list FlowStep) (produced : list StepResult) :
  run_shape groups disp produced ->
  map step_name produced ≡ₚ map name disp.
Proof.
  intros [outs Hall _|before g after outs out _ Hall _ Hans _].
  - now apply answers_concat.
  - rewrite !map_app. apply Permutation_app; [|exact Hans].
    now apply answers_concat.
Qed.

Lemma run_shape_quiet (groups : list (list FlowStep))
    (disp : list FlowStep) (produced : list StepResult) :
  run_shape groups disp produced ->
  aborts produced = false ->
  disp = concat groups
  /\ exists outs, produced = concat outs /\ Forall2 answers groups outs.
Proof.
  intros [outs Hall _|before g after outs out _ _ _ _ Hab] Hquiet.
  - eauto.
  - rewrite aborts_app, Hab, orb_true_r in Hquiet. discriminate.
Qed.

(** Only a [CriticalError] calls for an abort: results that are all
    [Success], [Failed] or [Skipped] never do. *)
Lemma aborts_false_iff (out : list StepResult) :
  aborts out = false
  <-> Forall (fun r => status r = SUCCESS \/ status r = FAILED
                       \/ status r = SKIPPED) out.
Proof.
  unfold aborts, is_critical. induction out as [|r out IH]; simpl.
  - split; [constructor|reflexivity].
  - rewrite orb_false_iff, IH, Forall_cons, bool_decide_eq_false.
    assert (Hr : status r <> CRITICAL_ERROR
                 <-> status r = SUCCESS \/ status r = FAILED
                     \/ status r = SKIPPED)
      by (destruct (status r); intuition congruence).
    now rewrite Hr.
Qed.

End ShapeFacts.

Section OrchestratorFacts.
Import Settings Models Runtime EngineSpec.
Local Open Scope list_scope.
Context `{Host}.

Lemma orchestrator_trace (max_workers : Z) (groups : list (list FlowStep))
    (st : Store) :
  (0 < max_workers)%Z ->
  Forall (fun g => g <> []) groups ->
  exists produced st',
    Orchestrator.execute_groups max_workers groups [] st
    = (Return produced, st')
    /\ ran Orchestrator.execute_step groups st produced st'.
Proof.
  intros Hworkers Hgroups.
  exact (execute_groups_ran max_workers Orchestrator.execute_step
           wired_execute_step_total groups Hworkers Hgroups [] st).
Qed.

Lemma orchestrator_loop (max_workers : Z) (groups : list (list FlowStep))
    (st : Store) :
  (0 < max_workers)%Z ->
  Forall (fun g => g <> []) groups ->
  exists disp produced st',
    Orchestrator.execute_groups max_workers groups [] st
    = (Return produced, st')
    /\ run_shape groups disp produced
    /\ dispatched (history st') = dispatched (history st) ++ disp
    /\ context st' = extend (context st) produced.
Proof.
  intros Hworkers Hgroups.
  exact (execute_groups_spec max_workers Orchestrator.execute_step
           wired_execute_step_total groups Hworkers Hgroups [] st).
Qed.

(** C1.  Run on any list of non-empty groups, the engine returns, and
    what it did has one of two shapes ([run_shape]): it ran every group
    in order and no group's results held a [CriticalError]; or it stopped
    right after the first group whose results held one, that group's
    results all produced and appended.  The steps dispatched are those of
    the groups run, in order, and no other; the context received the
    same results.  The results are the step runner's own ([ran]): group
    after group, the runner was called on each step of the group, in
    service order, on the store the previous call left; each result is
    what its call returned; and the run went on after a group exactly
    when none of these called for an abort. *)
Theorem execute_groups_stops_at_first_critical (max_workers : Z)
    (groups : list (list FlowStep)) (st : Store) :
  (0 < max_workers)%Z ->
  Forall (fun g => g <> []) groups ->
  exists disp produced st',
    Orchestrator.execute_groups max_workers groups [] st
    = (Return produced, st')
    /\ run_shape groups disp produced
    /\ ran Orchestrator.execute_step groups st produced st'
    /\ dispatched (history st') = dispatched (history st) ++ disp
    /\ results (context st') = results (context st) ++ produced.
Proof.
  intros Hworkers Hgroups.
  destruct (orchestrator_loop max_workers groups st Hworkers Hgroups)
    as (disp & produced & st' & E & Hshape & Hdisp & Hctx).
  destruct (orchestrator_trace max_workers groups st Hworkers Hgroups)
    as (produced2 & st2 & E2 & Hran).
  rewrite E in E2. injection E2 as <- <-.
  exists disp, produced, st'. rewrite Hctx. auto 6.
Qed.

Lemma orchestrator_flow (max_workers : Z) (steps : list FlowStep)
    (st : Store) :
  (0 < max_workers)%Z ->
  exists disp produced st',
    Orchestrator.execute_flow max_workers steps st = (Return produced, st')
    /\ run_shape (FlowExecutor._group_steps_by_parallelism steps)
                 disp produced
    /\ dispatched (history st') = dispatched (history st) ++ disp
    /\ context st' = extend (context st) produced.
Proof.
  intros Hworkers.
  apply (orchestrator_loop max_workers _ st Hworkers).
  apply plan_lossless_groups.
Qed.

(** C4.  Every dispatched step has exactly one result, and it is the
    step runner's: group after group of the plan, the runner was called
    once on each step of the group, in service order, and the results
    are what these calls returned, in call order ([ran]).  The names of
    the results are those of the dispatched steps, each once.  The same
    results, in the same order, are appended to the context.  When no
    result is a [CriticalError], there are as many results as input
    steps, and they split into one block per planned group, in plan
    order, each block holding one result per step of its group; the
    block of a singleton group is the one result of its step. *)
Theorem execute_flow_one_result_per_step (max_workers : Z)
    (steps : list FlowStep) (st : Store) :
  (0 < max_workers)%Z ->
  exists disp produced st',
    Orchestrator.execute_flow max_workers steps st = (Return produced, st')
    /\ ran Orchestrator.execute_step
         (FlowExecutor._group_steps_by_parallelism steps) st produced st'
    /\ dispatched (history st') = dispatched (history st) ++ disp
    /\ map step_name produced ≡ₚ map name disp
    /\ results (context st') = results (context st) ++ produced
    /\ (aborts produced = false ->
        length produced = length steps
        /\ exists outs,
             produced = concat outs
             /\ Forall2 answers
                  (FlowExecutor._group_steps_by_parallelism steps) outs
             /\ Forall2 (fun g out => length out = length g)
                  (FlowExecutor._group_steps_by_parallelism steps) outs
             /\ forall i step,
                  FlowExecutor._group_steps_by_parallelism steps !! i
                  = Some [step] ->
                  exists r, outs !! i = Some [r]
                            /\ step_name r = name step).
Proof.
  intros Hworkers.
  destruct (orchestrator_flow max_workers steps st Hworkers)
    as (disp & produced & st' & E & Hshape & Hdisp & Hctx).
  destruct (orchestrator_trace max_workers
              (FlowExecutor._group_steps_by_parallelism steps) st Hworkers
              (plan_lossless_groups steps))
    as (produced2 & st2 & E2 & Hran).
  unfold Orchestrator.execute_flow, FlowExecutor.execute_flow in E.
  unfold Orchestrator.execute_groups in E2.
  rewrite E in E2. injection E2 as <- <-.
  exists disp, produced, st'.
  split; [exact E|]. split; [exact Hran|]. split; [exact Hdisp|].
  split; [eapply run_shape_names; eassumption|].
  split; [now rewrite Hctx|].
  intros Hquiet.
  destruct (run_shape_quiet _ _ _ Hshape Hquiet)
    as (Hall & outs & -> & Hans).
  split.
  - pose proof (answers_concat _ _ Hans) as Hperm.
    apply Permutation_length in Hperm.
    rewrite !length_map in Hperm. rewrite Hperm.
    now rewrite plan_concat.
  - exists outs. split; [reflexivity|]. split; [exact Hans|]. split.
    + eapply Forall2_impl; [exact Hans|].
      intros g out Hg. apply Permutation_length in Hg.
      now rewrite !length_map in Hg.
    + intros i step Hi.
      destruct (Forall2_lookup_l _ _ _ _ _ Hans Hi) as (out & Hout & Hg).
      destruct (answers_singleton _ _ Hg) as (r & -> & Hname). eauto.
Qed.

(** C7.  The engine changes the context only by appending: afterwards
    its result list is the former one followed by the returned results,
    in order, and its execution id, user id, session id, flow name and
    request parameters are what they were. *)
Theorem execute_flow_appends_only (max_workers : Z)
    (steps : list FlowStep) (st : Store) :
  (0 < max_workers)%Z ->
  exists produced st',
    Orchestrator.execute_flow max_workers steps st = (Return produced, st')
    /\ results (context st') = results (context st) ++ produced
    /\ execution_id (context st') = execution_id (context st)
    /\ user_id (context st') = user_id (context st)
    /\ session_id (context st') = session_id (context st)
    /\ flow_name (context st') = flow_name (context st)
    /\ request_data (context st') = request_data (context st).
Proof.
  intros Hworkers.
  destruct (orchestrator_flow max_workers steps st Hworkers)
    as (disp & produced & st' & E & _ & _ & Hctx).
  exists produced, st'. rewrite Hctx. repeat split. exact E.
Qed.

End OrchestratorFacts.

(* ===================================================================== *)
(** * The specification's examples, run *)
(* ===================================================================== *)

Section Runs.
Import Settings Models Runtime EngineSpec Examples.
Local Open Scope list_scope.

(** Adjacency-only merging: [[A(x), B, C(x)]] gives three groups. *)
Example plan_adjacency_only :
  FlowExecutor._group_steps_by_parallelism [step_a; step_b; step_c]
  = [[step_a]; [step_b]; [step_c]].
Proof. reflexivity. Qed.

(** A contiguous same-tag run merges: [[A(x), B(x), C]] gives [[A,B],[C]]. *)
Example plan_contiguous_run :
  FlowExecutor._group_steps_by_parallelism
    [step_a; step_b_tagged; step_c_untagged]
  = [[step_a; step_b_tagged]; [step_c_untagged]].
Proof. reflexivity. Qed.

(** An empty tag counts as no tag. *)
Example plan_empty_tag :
  FlowExecutor._group_steps_by_parallelism
    [demo_step "A" "A_URL" (Some ""%string);
     demo_step "B" "B_URL" (Some ""%string)]
  = [[demo_step "A" "A_URL" (Some ""%string)];
     [demo_step "B" "B_URL" (Some ""%string)]].
Proof. reflexivity. Qed.

(** The catalogue's [update_profile] flow has a single parallel group:
    its two [vacancy_parallel] steps are not adjacent. *)
Example plan_update_profile :
  map (map name)
    (FlowExecutor._group_steps_by_parallelism FlowConfig.update_profile_steps)
  = [ ["create_embeddings"]; ["match_usuario_profissao"];
      ["match_candidato"];
      ["match_usuario_carreira"; "match_analysis_user_profession"];
      ["gap_analysis_user_profession"]; ["suggest_course_profession"];
      ["match_analysis_user_vacancy"]; ["gap_analysis_user_vacancy"];
      ["suggest_course_vacancy"] ]%string.
Proof. reflexivity. Qed.

(** Abort stops dispatch: G1 and the three steps of G2 have results (a
    timeout is [Failed] with status code 0, the unexpected fault is a
    [CriticalError]); G3 is never dispatched. *)
Example abort_stops_dispatch :
  let run := @Orchestrator.execute_flow demo_host 4 abort_flow demo_store in
  summary run.1
  = [ ("load", SUCCESS, None, Some 200);
      ("slow", FAILED, Some "Request timeout after 120s", Some 0);
      ("boom", CRITICAL_ERROR, Some "boom", None);
      ("left", SUCCESS, None, Some 200) ]%string%Z
  /\ dispatched (history run.2) = [load; left_step; boom; slow]
  /\ map step_name (results (context run.2))
     = ["load"; "slow"; "boom"; "left"]%string.
Proof. vm_compute. repeat split. Qed.

(** Failed is non-fatal: the flow goes on after a 503. *)
Example failed_is_not_fatal :
  let run := @Orchestrator.execute_flow demo_host 4 failing_flow demo_store in
  summary run.1
  = [ ("down", FAILED, Some "HTTP 503", Some 503);
      ("after", SUCCESS, None, Some 200) ]%string%Z
  /\ dispatched (history run.2) = [down; after].
Proof. vm_compute. repeat split. Qed.

(** A parallel group that completes: the results come in completion
    order (here the reverse of submission), the timeout is [Failed], and
    the flow goes on to its last step. *)
Example parallel_group_completes :
  let run :=
    @Orchestrator.execute_flow demo_host 4 parallel_flow demo_store in
  summary run.1
  = [ ("load", SUCCESS, None, Some 200);
      ("slow", FAILED, Some "Request timeout after 120s", Some 0);
      ("left", SUCCESS, None, Some 200);
      ("after", SUCCESS, None, Some 200) ]%string%Z
  /\ dispatched (history run.2) = [load; left_step; slow; after].
Proof. vm_compute. repeat split. Qed.

(** A payload the JSON encoder refuses is a [CriticalError], and nothing
    is sent. *)
Example refused_payload_is_critical :
  let run :=
    @Orchestrator.execute_step demo_host send_vacancy set_context
      demo_store in
  summary (match run.1 with
           | Return r => Return [r]
           | Raised e => Raised e
           end)
  = [ ("match_vacancy", CRITICAL_ERROR,
       Some "Object of type set is not JSON serializable", None) ]%string
  /\ run.2 = demo_store.
Proof. vm_compute. repeat split. Qed.

(** An unconfigured URL is a skip, and nothing is sent. *)
Example unconfigured_is_skipped :
  let run :=
    @Orchestrator.execute_step demo_host
      FlowConfig.gap_analysis_user_profession demo_context demo_store in
  summary (match run.1 with
           | Return r => Return [r]
           | Raised e => Raised e
           end)
  = [ ("gap_analysis_user_profession", SKIPPED,
       Some "URL not configured: GAP_ANALYSIS_USER_PROFESSION_URL",
       None) ]%string
  /\ run.2 = demo_store.
Proof. vm_compute. repeat split. Qed.

(** Without a worker, a parallel group makes [execute_flow] raise. *)
Example no_worker_raises :
  (@Orchestrator.execute_flow demo_host 0 abort_flow demo_store).1
  = Raised (Py.Exn "ValueError" "max_workers must be greater than 0" "").
Proof. vm_compute. reflexivity. Qed.

(** C1 at the flow G1, G2, G3 above, with four workers. *)
Lemma execute_groups_stops_at_first_critical_witness :
  (0 < 4)%Z
  /\ Forall (fun g => g <> [])
       [[load]; [left_step; boom; slow]; [after]]
  /\ exists disp produced st',
       @Orchestrator.execute_groups demo_host 4
         [[load]; [left_step; boom; slow]; [after]] [] demo_store
       = (Return produced, st')
       /\ run_shape [[load]; [left_step; boom; slow]; [after]] disp produced
       /\ ran (@Orchestrator.execute_step demo_host)
            [[load]; [left_step; boom; slow]; [after]] demo_store
            produced st'
       /\ dispatched (history st')
          = dispatched (history demo_store) ++ disp
       /\ results (context st')
          = results (context demo_store) ++ produced.
Proof.
  assert (Hworkers : (0 < 4)%Z) by reflexivity.
  assert (Hgroups : Forall (fun g : list FlowStep => g <> [])
                      [[load]; [left_step; boom; slow]; [after]])
    by (repeat constructor; discriminate).
  split; [exact Hworkers|]. split; [exact Hgroups|].
  exact (@execute_groups_stops_at_first_critical demo_host 4
           [[load]; [left_step; boom; slow]; [after]] demo_store
           Hworkers Hgroups).
Defined.

(** C4 at a flow with a parallel group that completes. *)
Lemma execute_flow_one_result_per_step_witness :
  (0 < 4)%Z
  /\ exists disp produced st',
       @Orchestrator.execute_flow demo_host 4 parallel_flow demo_store
       = (Return produced, st')
       /\ ran (@Orchestrator.execute_step demo_host)
            (FlowExecutor._group_steps_by_parallelism parallel_flow)
            demo_store produced st'
       /\ dispatched (history st')
          = dispatched (history demo_store) ++ disp
       /\ map step_name produced ≡ₚ map name disp
       /\ results (context st') = results (context demo_store) ++ produced
       /\ (aborts produced = false ->
           length produced = length parallel_flow
           /\ exists outs,
                produced = concat outs
                /\ Forall2 answers
                     (FlowExecutor._group_steps_by_parallelism parallel_flow)
                     outs
                /\ Forall2 (fun g out => length out = length g)
                     (FlowExecutor._group_steps_by_parallelism parallel_flow)
                     outs
                /\ forall i step,
                     FlowExecutor._group_steps_by_parallelism parallel_flow
                       !! i = Some [step] ->
                     exists r, outs !! i = Some [r]
                               /\ step_name r = name step).
Proof.
  assert (Hworkers : (0 < 4)%Z) by reflexivity.
  split; [exact Hworkers|].
  exact (@execute_flow_one_result_per_step demo_host 4 parallel_flow
           demo_store Hworkers).
Defined.

(** C7 at the aborting flow. *)
Lemma execute_flow_appends_only_witness :
  (0 < 4)%Z
  /\ exists produced st',
       @Orchestrator.execute_flow demo_host 4 abort_flow demo_store
       = (Return produced, st')
       /\ results (context st') = results (context demo_store) ++ produced
       /\ execution_id (context st') = execution_id (context demo_store)
       /\ user_id (context st') = user_id (context demo_store)
       /\ session_id (context st') = session_id (context demo_store)
       /\ flow_name (context st') = flow_name (context demo_store)
       /\ request_data (context st') = request_data (context demo_store).
Proof.
  assert (Hworkers : (0 < 4)%Z) by reflexivity.
  split; [exact Hworkers|].
  exact (@execute_flow_appends_only demo_host 4 abort_flow demo_store
           Hworkers).
Defined.

End Runs.

(* ===================================================================== *)
(** * The HTTP client: one attempt, and the retry loop *)
(* ===================================================================== *)

Section ClientFacts.
Import Runtime ClientSpec.
Local Open Scope list_scope.
Context `{Host}.

Variable self : HttpClient.HttpClient.
Variables method url : string.
Variable headers : gmap string string.
Variable payload : gmap string Py.pyval.
Variable timeout : option Z.

Local Abbreviation sent := (outgoing self method url headers payload timeout).

(** An attempt on a payload the encoder refuses raises before anything
    is sent, and leaves the store as it was. *)
Lemma attempt_refused (st : Store) (e : Py.exn) :
  dumps_fault payload = Some e ->
  HttpClient._execute_request self method url headers payload timeout st
  = (Raised e, st).
Proof.
  unfold dumps_fault, HttpClient._execute_request, HttpClient.payload_size,
    bind, record, interact, ret, raise.
  destruct (bool_decide (payload = ∅)); [discriminate|].
  now intros ->.
Qed.

(** Any other attempt is one call of [session.request], with [sent]; the
    outcome is decided by the reply alone. *)
Lemma attempt_step (st : Store) :
  dumps_fault payload = None ->
  exists outcome,
    HttpClient._execute_request self method url headers payload timeout st
    = (outcome,
       {| context := context st;
          outside := (session_request sent (outside st)).2;
          history := history st ++ [Invoked sent] |})
    /\ match (session_request sent (outside st)).1 with
       | Responded code ok body response_headers =>
           exists response,
             outcome = Return response
             /\ HttpClient.status_code response = code
             /\ HttpClient.body response = body
             /\ HttpClient.error response = None
             /\ HttpClient.status response
                = (if ok then "success" else "failed")%string
       | Raises Unexpected e => outcome = Raised e
       | Raises kind e =>
           exists response,
             outcome = Return response
             /\ is_Some (HttpClient.error response)
             /\ HttpClient.body response = Py.VNone
             /\ HttpClient.status_code response
                = match kind with
                  | RequestException (Some code) => code
                  | _ => 0%Z
                  end
       end.
Proof.
  intros Hdumps.
  assert (Hsize : HttpClient.payload_size payload st = (Return tt, st)).
  { rewrite payload_size_spec. now rewrite Hdumps. }
  unfold HttpClient._execute_request.
  erewrite bind_return by exact Hsize.
  unfold bind, record, interact, ret, raise.
  cbn [context outside history].
  change (mkRequest method url (headers ∪ HttpClient.session_headers self)
            payload _) with sent.
  destruct (session_request sent (outside st)) as [reply w]. cbn [fst snd].
  destruct reply as [code ok body hdrs|[| |[code|]|] e];
    eexists; (split; [reflexivity|]); cbn; eauto 10.
Qed.

(** The loop of [request] on a refused payload ends with its first
    attempt. *)
Lemma attempts_refused (remaining : nat) (st : Store) (e : Py.exn) :
  dumps_fault payload = Some e ->
  HttpClient.request_attempts self remaining method url headers payload
    timeout st = (Raised e, st).
Proof.
  intros Hdumps.
  destruct remaining; cbn [HttpClient.request_attempts];
    now erewrite bind_raised by (apply attempt_refused; exact Hdumps).
Qed.

(** The loop of [request], from any number of remaining retries. *)
Lemma attempts_spec (remaining : nat) (st : Store) :
  dumps_fault payload = None ->
  exists outcome st' n,
    HttpClient.request_attempts self remaining method url headers payload
      timeout st = (outcome, st')
    /\ invoked (history st') = invoked (history st) ++ replicate n sent
    /\ (1 <= n <= S remaining)%nat
    /\ context st' = context st
    /\ dispatched (history st') = dispatched (history st)
    /\ (forall response, outcome = Return response ->
        retryable response = true -> n = S remaining).
Proof.
  intros Hdumps.
  revert st. induction remaining as [|remaining IH]; intros st.
  - destruct (attempt_step st Hdumps) as (outcome & E & _).
    cbn [HttpClient.request_attempts]. unfold bind. rewrite E.
    destruct outcome as [response|e].
    + eexists (Return response), _, 1%nat.
      destruct (_ || _); (split; [reflexivity|]); cbn [history context];
        rewrite invoked_snoc, dispatched_snoc_invoked;
        repeat split; auto; lia.
    + eexists (Raised e), _, 1%nat. split; [reflexivity|].
      cbn [history context]. rewrite invoked_snoc, dispatched_snoc_invoked.
      repeat split; auto; try lia; try discriminate.
  - destruct (attempt_step st Hdumps) as (outcome & E & _).
    cbn [HttpClient.request_attempts]. unfold bind. rewrite E.
    destruct outcome as [response|e].
    + destruct (HttpClient.is_success response
                || HttpClient.is_client_error response) eqn:Estop.
      * eexists (Return response), _, 1%nat. split; [reflexivity|].
        cbn [history context]. rewrite invoked_snoc, dispatched_snoc_invoked.
        repeat split; auto; try lia.
        intros r [= <-]. unfold retryable. rewrite Estop. discriminate.
      * destruct (HttpClient.is_server_error response
                  || (HttpClient.status_code response =? 0)%Z) eqn:Eretry.
        -- match goal with
           | |- context [HttpClient.request_attempts _ _ _ _ _ _ _ ?s] =>
               destruct (IH s) as (o & st' & n & E' & Hinv & Hn & Hctx & Hd & Hex)
           end.
           exists o, st', (S n). rewrite E'. split; [reflexivity|].
           rewrite Hinv, Hctx, Hd. cbn [history context].
           rewrite invoked_snoc, dispatched_snoc_invoked, <- app_assoc.
           repeat split; auto; try lia.
           intros r Hr Hretry. f_equal. eauto.
        -- eexists (Return response), _, 1%nat. split; [reflexivity|].
           cbn [history context].
           rewrite invoked_snoc, dispatched_snoc_invoked.
           repeat split; auto; try lia.
           intros r [= <-]. unfold retryable.
           rewrite Estop, Eretry. discriminate.
    + eexists (Raised e), _, 1%nat. split; [reflexivity|].
      cbn [history context]. rewrite invoked_snoc, dispatched_snoc_invoked.
      repeat split; auto; try lia; try discriminate.
Qed.

(** X1.  One attempt lets out two kinds of exception only: what
    [json.dumps] raised on the payload, before anything is sent and with
    the store left as it was; and what [session.request] raised outside
    the [requests] exception classes.  A timeout, a connection error or
    any other [requests] exception comes back as a response value with an
    error text, no body, and status code 0 -- or, for a
    [RequestException] that carries a response, that response's code. *)
Theorem execute_request_contains_request_errors (st : Store) :
  exists outcome st',
    HttpClient._execute_request self method url headers payload timeout st
    = (outcome, st')
    /\ (forall e, outcome = Raised e
                  <-> dumps_fault payload = Some e
                      \/ (dumps_fault payload = None
                          /\ (session_request sent (outside st)).1
                             = Raises Unexpected e))
    /\ (forall e, dumps_fault payload = Some e -> st' = st)
    /\ (dumps_fault payload = None ->
        forall kind e,
          (session_request sent (outside st)).1 = Raises kind e ->
          kind <> Unexpected ->
          exists response,
            outcome = Return response
            /\ is_Some (HttpClient.error response)
            /\ HttpClient.body response = Py.VNone
            /\ HttpClient.status_code response
               = match kind with
                 | RequestException (Some code) => code
                 | _ => 0%Z
                 end).
Proof.
  destruct (dumps_fault payload) as [fault|] eqn:Hdumps.
  - exists (Raised fault), st. split; [now apply attempt_refused|].
    split; [|split].
    + intros e. split.
      * intros [= <-]. now left.
      * intros [[= <-]|[[=] _]]. reflexivity.
    + reflexivity.
    + discriminate.
  - destruct (attempt_step st Hdumps) as (outcome & E & Hreply).
    eexists outcome, _. split; [exact E|].
    split; [|split; [discriminate|intros _]];
      destruct (session_request sent (outside st)).1
        as [code ok body hdrs|[| |response_status|] e0]; cbn in Hreply.
    + destruct Hreply as (response & -> & _).
      intros e. split; [discriminate|]. intros [[=]|[_ [=]]].
    + destruct Hreply as (response & -> & _).
      intros e. split; [discriminate|]. intros [[=]|[_ [=]]].
    + destruct Hreply as (response & -> & _).
      intros e. split; [discriminate|]. intros [[=]|[_ [=]]].
    + destruct Hreply as (response & -> & _).
      intros e. split; [discriminate|]. intros [[=]|[_ [=]]].
    + subst outcome. intros e. split.
      * intros [= <-]. right. now split.
      * intros [[=]|[_ [= <-]]]. reflexivity.
    + intros kind e [=].
    + destruct Hreply as (response & -> & Herr & Hbody & Hcode).
      intros kind e [= <- <-] _. eauto.
    + destruct Hreply as (response & -> & Herr & Hbody & Hcode).
      intros kind e [= <- <-] _. eauto.
    + destruct Hreply as (response & -> & Herr & Hbody & Hcode).
      intros kind e [= <- <-] _. eauto.
    + intros kind e [= <- <-] Hne. now contradiction Hne.
Qed.

(** X2.  What one attempt puts on the wire.  On a payload [json.dumps]
    refuses: nothing, the exception is raised and the store is as it
    was.  On any other payload, one call: the method, URL and payload it
    was given; the caller's headers, completed by the session's for the
    names the caller does not set; and the caller's timeout, replaced by
    the client's default when it is missing or zero. *)
Theorem execute_request_sends (st : Store) :
  (forall e, dumps_fault payload = Some e ->
     HttpClient._execute_request self method url headers payload timeout st
     = (Raised e, st))
  /\ (dumps_fault payload = None ->
      exists outcome st' request,
        HttpClient._execute_request self method url headers payload
          timeout st
        = (outcome, st')
        /\ invoked (history st') = invoked (history st) ++ [request]
        /\ req_method request = method
        /\ req_url request = url
        /\ req_json request = payload
        /\ (forall k v, headers !! k = Some v ->
            req_headers request !! k = Some v)
        /\ (forall k, headers !! k = None ->
            req_headers request !! k = HttpClient.session_headers self !! k)
        /\ (forall t, timeout = Some t -> t <> 0%Z ->
            req_timeout request = t)
        /\ (timeout = None \/ timeout = Some 0%Z ->
            req_timeout request = HttpClient.default_timeout self)).
Proof.
  split; [intros e Hdumps; now apply attempt_refused|].
  intros Hdumps.
  destruct (attempt_step st Hdumps) as (outcome & E & _).
  eexists outcome, _, sent. split; [exact E|]. cbn [history].
  split; [apply invoked_snoc|].
  unfold outgoing, effective_timeout. cbn.
  repeat split.
  - intros k v Hk. apply lookup_union_Some_l. exact Hk.
  - intros k Hk. now apply lookup_union_r.
  - intros t -> Hne. destruct (Z.eqb_spec t 0); [contradiction|reflexivity].
  - intros [-> | ->]; reflexivity.
Qed.

(** X3.  [request], for a client whose [retry_count] is a count, makes
    at most [retry_count + 1] attempts, each with the same call, and
    touches neither the context nor the dispatch history.  It makes at
    least one unless [json.dumps] refuses the payload: then it makes none
    and raises what [json.dumps] raised. *)
Theorem request_attempt_bounds (st : Store) :
  exists outcome st' n,
    HttpClient.request self method url headers payload timeout st
    = (outcome, st')
    /\ invoked (history st') = invoked (history st) ++ replicate n sent
    /\ (n <= S (HttpClient.retry_count self))%nat
    /\ (dumps_fault payload = None <-> (1 <= n)%nat)
    /\ (forall e, dumps_fault payload = Some e -> outcome = Raised e)
    /\ context st' = context st
    /\ dispatched (history st') = dispatched (history st).
Proof.
  unfold HttpClient.request.
  destruct (dumps_fault payload) as [fault|] eqn:Hdumps.
  - exists (Raised fault), st, 0%nat.
    split; [now apply attempts_refused|].
    cbn [replicate]. rewrite app_nil_r.
    split; [reflexivity|]. split; [lia|].
    split; [split; [discriminate|lia]|].
    split; [now intros e [= <-]|]. split; reflexivity.
  - destruct (attempts_spec (HttpClient.retry_count self) st Hdumps)
      as (outcome & st' & n & E & Hinv & Hn & Hctx & Hd & _).
    exists outcome, st', n. split; [exact E|]. split; [exact Hinv|].
    split; [lia|]. split; [split; [lia|reflexivity]|].
    split; [discriminate|]. split; assumption.
Qed.

(** X4.  A response that is still a server error or a status-0 transport
    error is only returned once every attempt has been used. *)
Theorem request_gives_up_after_all_attempts (st st' : Store)
    (response : HttpClient.HttpResponse) :
  HttpClient.request self method url headers payload timeout st
  = (Return response, st') ->
  retryable response = true ->
  invoked (history st')
  = invoked (history st) ++ replicate (S (HttpClient.retry_count self)) sent.
Proof.
  intros E Hretry. unfold HttpClient.request in E.
  destruct (dumps_fault payload) as [fault|] eqn:Hdumps.
  - rewrite (attempts_refused _ st fault Hdumps) in E. discriminate.
  - destruct (attempts_spec (HttpClient.retry_count self) st Hdumps)
      as (outcome & st1 & n & E1 & Hinv & _ & _ & _ & Hex).
    rewrite E in E1.
    injection E1 as <- <-. rewrite Hinv.
    now rewrite (Hex response eq_refl Hretry).
Qed.

(** X5.  There is no second attempt after a response that is neither a
    server error nor a status-0 transport error (a success, a client
    error, a redirect), nor after an unexpected exception: [request]
    ends as its first attempt did. *)
Theorem request_does_not_retry (st st1 : Store)
    (outcome : Outcome HttpClient.HttpResponse) :
  HttpClient._execute_request self method url headers payload timeout st
  = (outcome, st1) ->
  match outcome with
  | Return response => retryable response = false
  | Raised _ => True
  end ->
  HttpClient.request self method url headers payload timeout st
  = (outcome, st1).
Proof.
  intros E Hstop. unfold HttpClient.request.
  destruct (HttpClient.retry_count self) as [|remaining];
    cbn [HttpClient.request_attempts]; unfold bind; rewrite E;
    destruct outcome as [response|e]; try reflexivity;
    unfold retryable in Hstop;
    destruct (HttpClient.is_success response
              || HttpClient.is_client_error response); try reflexivity;
    cbn in Hstop; rewrite Hstop; reflexivity.
Qed.

End ClientFacts.

(* ===================================================================== *)
(** * Flow selection, step filtering and parameter validation *)
(* ===================================================================== *)

Section RouterFacts.
Import Settings Runtime FlowCatalogue FlowRouting RouterSpec.
Local Open Scope list_scope.

(** X6.  Whatever the request, the flow [determine_flow] selects is in
    the catalogue: [get_flow_definition] returns its definition, under
    the selected name and with at least one step, and does not raise. *)
Theorem determine_flow_is_defined (request_data : gmap string Py.pyval) :
  exists flow_def,
    get_flow_definition router (value (determine_flow request_data))
    = Return flow_def
    /\ flow_name flow_def = value (determine_flow request_data)
    /\ steps flow_def <> [].
Proof.
  destruct (determine_flow request_data);
    (eexists; split; [vm_compute; reflexivity|]; split;
     [reflexivity|discriminate]).
Qed.

Lemma get_default_truthy (request_data : gmap string Py.pyval)
    (key : string) :
  Py.truthy (get_default request_data key (Py.VBool false))
  = Py.truthy (Py.get request_data key).
Proof. unfold get_default, Py.get. now destruct (request_data !! key). Qed.

Lemma update_profile_iff (request_data : gmap string Py.pyval) :
  determine_flow request_data = UPDATE_PROFILE
  <-> flag request_data "create_user_embedding" = true
      /\ Forall (fun key => flag request_data key = false)
           process_only_flags.
Proof.
  unfold determine_flow, process_only_flags, flag.
  rewrite get_default_truthy, !Forall_cons, Forall_nil.
  destruct (Py.truthy (Py.get request_data "process_only_profession_course"));
  destruct (Py.truthy (Py.get request_data "process_only_profession_skills"));
  destruct (Py.truthy (Py.get request_data "process_only_vacancy_course"));
  destruct (Py.truthy (Py.get request_data "process_only_vacancy_skills"));
  destruct (Py.truthy (Py.get request_data "create_user_embedding"));
  intuition congruence.
Qed.

Lemma catalogue_embeddings (flow : FlowName) :
  exists flow_def,
    get_flow_definition router (value flow) = Return flow_def
    /\ (FlowConfig.create_embeddings ∈ steps flow_def
        <-> requires_embeddings flow_def = true)
    /\ (requires_embeddings flow_def = true <-> flow = UPDATE_PROFILE).
Proof.
  destruct flow;
    (eexists; split; [vm_compute; reflexivity|];
     cbn [steps requires_embeddings]; split; split; intros Hx;
     try discriminate; try reflexivity;
     try (apply list_elem_of_In; vm_compute; tauto);
     try (exfalso; apply list_elem_of_In in Hx; vm_compute in Hx;
          intuition discriminate)).
Qed.

(** X7.  The selected flow contains the [create_embeddings] step exactly
    when it requires embeddings, and that is exactly when
    [create_user_embedding] is truthy while none of the four
    [process_only_*] flags is. *)
Theorem embeddings_only_on_request (request_data : gmap string Py.pyval) :
  exists flow_def,
    get_flow_definition router (value (determine_flow request_data))
    = Return flow_def
    /\ (FlowConfig.create_embeddings ∈ steps flow_def
        <-> requires_embeddings flow_def = true)
    /\ (requires_embeddings flow_def = true
        <-> flag request_data "create_user_embedding" = true
            /\ Forall (fun key => flag request_data key = false)
                 process_only_flags).
Proof.
  destruct (catalogue_embeddings (determine_flow request_data))
    as (flow_def & E & Hstep & Hreq).
  exists flow_def. split; [exact E|]. split; [exact Hstep|].
  rewrite Hreq. apply update_profile_iff.
Qed.

(** X8.  The default flow [first_login] is selected exactly when none of
    the five selecting flags is truthy; a missing flag, [None], [False],
    [0] and the empty string all count as not set. *)
Theorem determine_flow_default (request_data : gmap string Py.pyval) :
  determine_flow request_data = FIRST_LOGIN
  <-> flag request_data "create_user_embedding" = false
      /\ Forall (fun key => flag request_data key = false)
           process_only_flags.
Proof.
  unfold determine_flow, process_only_flags, flag.
  rewrite get_default_truthy, !Forall_cons, Forall_nil.
  destruct (Py.truthy (Py.get request_data "process_only_profession_course"));
  destruct (Py.truthy (Py.get request_data "process_only_profession_skills"));
  destruct (Py.truthy (Py.get request_data "process_only_vacancy_course"));
  destruct (Py.truthy (Py.get request_data "process_only_vacancy_skills"));
  destruct (Py.truthy (Py.get request_data "create_user_embedding"));
  intuition congruence.
Qed.

(** X9.  [get_flow_definition] raises [ValueError("Unknown flow: <name>")]
    for every name that is not the value of a [FlowName], and for those
    six names returns the definition filed under that name. *)
Theorem get_flow_definition_unknown (flow_name0 : string) :
  (exists flow flow_def,
     flow_name0 = value flow
     /\ get_flow_definition router flow_name0 = Return flow_def
     /\ flow_name flow_def = flow_name0)
  \/ ((forall flow, flow_name0 <> value flow)
      /\ get_flow_definition router flow_name0
         = Raised (Py.Exn "ValueError"
                     ("Unknown flow: " ++ flow_name0)%string "")).
Proof.
  destruct (decide (flow_name0
                    ∈ map value [UPDATE_PROFILE; FIRST_LOGIN;
                                 COURSE_TO_PROFESSION; ANALYSIS_TO_PROFESSION;
                                 COURSE_TO_VACANCY; ANALYSIS_TO_VACANCY]))
    as [Hin|Hout].
  - left. apply list_elem_of_fmap in Hin as (flow & -> & _).
    exists flow. destruct flow;
      (eexists; split; [reflexivity|]; split;
       [vm_compute; reflexivity|reflexivity]).
  - right. split.
    + intros flow ->. apply Hout. apply list_elem_of_fmap.
      exists flow. split; [reflexivity|].
      destruct flow; repeat constructor.
    + unfold get_flow_definition, router, FLOWS. cbn [flows].
      rewrite (not_elem_of_list_to_map_1 _ flow_name0); [reflexivity|].
      exact Hout.
Qed.

(** ** Step filtering *)

Lemma filter_fold (process_vacancy process_profession : Py.pyval)
    (steps0 acc : list FlowStep) :
  fold_left (filter_step process_vacancy process_profession) steps0 acc
  = acc ++ List.filter (kept process_vacancy process_profession) steps0.
Proof.
  revert acc. induction steps0 as [|step steps0 IH]; intros acc; simpl.
  - now rewrite app_nil_r.
  - rewrite IH. unfold filter_step, kept, StepSpec.vacancy_class,
      StepSpec.profession_class.
    destruct (Py.str_in "vacancy" (name step) && negb (Py.truthy process_vacancy));
      simpl; [reflexivity|].
    destruct ((Py.str_in "profession" (name step)
               || Py.str_in "carreira" (name step))
              && negb (Py.truthy process_profession));
      simpl; [reflexivity|].
    now rewrite <- app_assoc.
Qed.

Lemma filter_all_kept (process_vacancy process_profession : Py.pyval)
    (steps0 : list FlowStep) :
  Py.truthy process_vacancy && Py.truthy process_profession = true ->
  List.filter (kept process_vacancy process_profession) steps0 = steps0.
Proof.
  intros Hon. apply andb_true_iff in Hon as [Hv Hp].
  induction steps0 as [|step steps0 IH]; simpl; [reflexivity|].
  unfold kept at 1. rewrite Hv, Hp, !andb_false_r. simpl. now rewrite IH.
Qed.

Lemma filter_steps_as_filter (flow_def : FlowDefinition)
    (request_data : gmap string Py.pyval) :
  filter_steps_by_context flow_def request_data
  = List.filter (kept (switch request_data "process_vacancy_orchestrator")
                      (switch request_data "process_profession_orchestrator"))
      (steps flow_def).
Proof.
  unfold filter_steps_by_context, switch.
  destruct (Py.truthy _ && Py.truthy _) eqn:Hon.
  - symmetry. now apply filter_all_kept.
  - apply filter_fold.
Qed.

Lemma kept_iff (process_vacancy process_profession : Py.pyval)
    (step : FlowStep) :
  kept process_vacancy process_profession step = true
  <-> (StepSpec.vacancy_class step = true ->
       Py.truthy process_vacancy = true)
      /\ (StepSpec.profession_class step = true ->
          Py.truthy process_profession = true).
Proof.
  unfold kept.
  destruct (StepSpec.vacancy_class step), (StepSpec.profession_class step),
    (Py.truthy process_vacancy), (Py.truthy process_profession);
    simpl; intuition congruence.
Qed.

(** X10.  Filtering only removes steps: what is left is a sub-sequence of
    the flow's steps, in their order.  A step is left exactly when it is
    in the flow and its class is not switched off: a step whose name
    contains "vacancy" needs the vacancy switch, one whose name contains
    "profession" or "carreira" needs the profession switch, and a step of
    neither class ([match_candidato], [match_usuario_profissao],
    [create_embeddings]) is never removed. *)
Theorem filter_steps_keeps_exactly (flow_def : FlowDefinition)
    (request_data : gmap string Py.pyval) :
  let filtered := filter_steps_by_context flow_def request_data in
  let vacancy_on :=
    Py.truthy (switch request_data "process_vacancy_orchestrator") in
  let profession_on :=
    Py.truthy (switch request_data "process_profession_orchestrator") in
  sublist filtered (steps flow_def)
  /\ (forall step,
        step ∈ filtered
        <-> step ∈ steps flow_def
            /\ (StepSpec.vacancy_class step = true -> vacancy_on = true)
            /\ (StepSpec.profession_class step = true ->
                profession_on = true)).
Proof.
  cbv zeta. rewrite filter_steps_as_filter. split.
  - induction (steps flow_def) as [|step steps0 IH]; simpl; [constructor|].
    destruct (kept _ _ step); [now apply sublist_skip|now apply sublist_cons].
  - intros step. rewrite !list_elem_of_In, filter_In, kept_iff. tauto.
Qed.

(** X11.  A class switch that is missing from the request is on: with
    both keys missing the flow's steps come back unchanged.  A switch
    that is present is as truthy as its value: with
    [process_vacancy_orchestrator] present and [None], no step whose name
    contains "vacancy" is left. *)
Theorem filter_steps_switch_defaults (flow_def : FlowDefinition)
    (request_data : gmap string Py.pyval) :
  (request_data !! "process_vacancy_orchestrator" = None
   /\ request_data !! "process_profession_orchestrator" = None ->
   filter_steps_by_context flow_def request_data = steps flow_def)
  /\ (request_data !! "process_vacancy_orchestrator" = Some Py.VNone ->
      Forall (fun step => StepSpec.vacancy_class step = false)
        (filter_steps_by_context flow_def request_data)).
Proof.
  split.
  - intros [Hv Hp]. unfold filter_steps_by_context, get_default.
    now rewrite Hv, Hp.
  - intros Hv. rewrite filter_steps_as_filter. apply List.Forall_forall.
    intros step Hin. apply filter_In in Hin as [_ Hkept].
    apply kept_iff in Hkept as [Hvac _].
    unfold switch, get_default in Hvac. rewrite Hv in Hvac. simpl in Hvac.
    destruct (StepSpec.vacancy_class step); [|reflexivity].
    now specialize (Hvac eq_refl).
Qed.

(** X12.  Filtering is idempotent: filtering the filtered steps again,
    under the same request, changes nothing. *)
Theorem filter_steps_idempotent (flow_def : FlowDefinition)
    (request_data : gmap string Py.pyval) :
  let filtered := filter_steps_by_context flow_def request_data in
  filter_steps_by_context
    (mkFlowDefinition (flow_name flow_def) filtered
       (requires_embeddings flow_def) (description flow_def))
    request_data
  = filtered.
Proof.
  cbv zeta. rewrite !filter_steps_as_filter. cbn [steps].
  induction (steps flow_def) as [|step steps0 IH]; simpl; [reflexivity|].
  destruct (kept _ _ step) eqn:Hk; simpl; [|exact IH].
  now rewrite Hk, IH.
Qed.

(** ** Parameter validation *)

(** X13.  [validate_flow_params] reports nothing exactly when [user_id]
    and [session_id] are both truthy -- for any flow name, known or not.
    The embeddings error never comes alone: it is reported only together
    with the missing-[session_id] error. *)
Theorem validate_flow_params_empty_iff (self : FlowRouter)
    (flow_name0 : string) (request_data : gmap string Py.pyval) :
  let errors := validate_flow_params self flow_name0 request_data in
  (errors = []
   <-> Py.truthy (Py.get request_data "user_id") = true
       /\ Py.truthy (Py.get request_data "session_id") = true)
  /\ ("Flow requires embeddings but session_id is missing"%string ∈ errors ->
      "Missing required parameter: session_id"%string ∈ errors).
Proof.
  cbv zeta. unfold validate_flow_params.
  destruct (Py.truthy (Py.get request_data "user_id"));
  destruct (Py.truthy (Py.get request_data "session_id"));
  destruct (flows self !! flow_name0) as [flow_def|];
  try destruct (requires_embeddings flow_def); simpl;
  (split; [split; [try discriminate; auto|intros [? ?]; congruence]|]);
  intros Hin; rewrite ?elem_of_cons in *; rewrite ?elem_of_nil in *;
  intuition (try discriminate).
Qed.

End RouterFacts.

(* ===================================================================== *)
(** * The handler: request validation and the response *)
(* ===================================================================== *)

Section HandlerFacts.
Import Settings Models Handler HandlerSpec.
Local Open Scope list_scope.

Lemma fold_appends {A B} (check : list B -> A -> list B)
    (fields : list A) (errors : list B) :
  (forall e f, check e f = e ++ check [] f) ->
  fold_left check fields errors
  = errors ++ concat (map (check []) fields).
Proof.
  intros Happ. revert errors.
  induction fields as [|f fields IH]; intros errors; simpl.
  - now rewrite app_nil_r.
  - rewrite IH, (Happ errors f), <- app_assoc. reflexivity.
Qed.

Lemma concat_nil_iff {A B} (delta : A -> list B) (fields : list A) :
  concat (map delta fields) = [] <-> Forall (fun f => delta f = []) fields.
Proof.
  induction fields as [|f fields IH]; simpl.
  - split; [constructor|reflexivity].
  - rewrite Forall_cons, <- IH. split.
    + intros E. now apply app_eq_nil in E.
    + intros [-> ->]. reflexivity.
Qed.

Lemma required_string_appends (request_data : gmap string Py.pyval)
    (field : string) (errors : list string) :
  required_string request_data field errors
  = errors ++ required_string request_data field [].
Proof.
  unfold required_string.
  destruct (negb (Py.truthy _)); [reflexivity|].
  destruct (negb (isinstance_str _)); [reflexivity|].
  now rewrite app_nil_r.
Qed.

Lemma check_boolean_appends (request_data : gmap string Py.pyval)
    (errors : list string) (field : string) :
  check_boolean request_data errors field
  = errors ++ check_boolean request_data [] field.
Proof.
  unfold check_boolean. destruct (_ && _); [reflexivity|].
  now rewrite app_nil_r.
Qed.

Lemma check_token_appends (request_data : gmap string Py.pyval)
    (errors : list string) (field : string) :
  check_token request_data errors field
  = errors ++ check_token request_data [] field.
Proof.
  unfold check_token. destruct (_ && _); [|now rewrite app_nil_r].
  destruct (negb _); [reflexivity|now rewrite app_nil_r].
Qed.

Lemma required_string_ok (request_data : gmap string Py.pyval)
    (field : string) :
  required_string request_data field [] = []
  <-> non_empty_string (request_data !! field).
Proof.
  unfold required_string, non_empty_string, Py.get.
  destruct (request_data !! field) as [v|]; simpl.
  - destruct v as [|b|z|s|r t]; simpl.
    + split; [discriminate|]. intros (s0 & E & _). discriminate E.
    + destruct b; simpl;
        (split; [discriminate|]; intros (s0 & E & _); discriminate E).
    + destruct (Z.eqb z 0); simpl;
        (split; [discriminate|]; intros (s0 & E & _); discriminate E).
    + destruct (String.eqb_spec s ""); simpl.
      * split; [discriminate|]. intros (s0 & [= <-] & Hne). contradiction.
      * split; [eauto|reflexivity].
    + destruct t; simpl;
        (split; [discriminate|]; intros (s0 & E & _); discriminate E).
  - split; [discriminate|]. intros (s0 & E & _). discriminate E.
Qed.

Lemma check_boolean_ok (request_data : gmap string Py.pyval)
    (field : string) :
  check_boolean request_data [] field = []
  <-> absent_or_bool (request_data !! field).
Proof.
  unfold check_boolean, absent_or_bool, Py.has_key, Py.get.
  destruct (request_data !! field) as [v|]; simpl.
  - rewrite ?bool_decide_eq_true_2 by eauto. simpl.
    destruct v as [|b|z|s|r t]; simpl;
      try (split; [discriminate|];
           intros [E|(b0 & E)]; discriminate E).
    split; eauto.
  - rewrite ?bool_decide_eq_false_2 by (intros [? E]; discriminate E). simpl.
    split; eauto.
Qed.

Lemma check_token_ok (request_data : gmap string Py.pyval)
    (field : string) :
  check_token request_data [] field = []
  <-> absent_none_or_string (request_data !! field).
Proof.
  unfold check_token, absent_none_or_string, Py.has_key, Py.get.
  destruct (request_data !! field) as [v|]; simpl.
  - rewrite ?bool_decide_eq_true_2 by eauto. simpl.
    destruct v as [|b|z|s|r t]; simpl;
      try (split; [discriminate|];
           intros [E|[E|(s0 & E)]]; discriminate E).
    + split; eauto.
    + split; eauto.
  - rewrite ?bool_decide_eq_false_2 by (intros [? E]; discriminate E). simpl.
    split; eauto.
Qed.

Lemma validate_request_accepts_lemma
    (request_data : gmap string Py.pyval) :
  _validate_request request_data = [] -> well_formed request_data.
Proof.
  unfold _validate_request, well_formed.
  rewrite (fold_appends (check_token request_data))
    by (intros; apply check_token_appends).
  rewrite (fold_appends (check_boolean request_data))
    by (intros; apply check_boolean_appends).
  rewrite (required_string_appends request_data "session_id").
  rewrite <- required_string_ok, <- required_string_ok.
  rewrite <- (Forall_iff _ _ _ (check_boolean_ok request_data)).
  rewrite <- (Forall_iff _ _ _ (check_token_ok request_data)).
  rewrite <- !concat_nil_iff.
  intros E. apply app_eq_nil in E as [E Htok].
  apply app_eq_nil in E as [E Hbool].
  apply app_eq_nil in E as [Hu Hs]. auto.
Qed.

(** X14.  [_validate_request] accepts a request -- returns no error --
    exactly when [user_id] and [session_id] are non-empty strings, every
    boolean flag that is present is a [bool] (a flag present with [None]
    is refused), and every token that is present is [None] or a string. *)
Theorem validate_request_accepts_iff
    (request_data : gmap string Py.pyval) :
  _validate_request request_data = [] <-> well_formed request_data.
Proof.
  unfold _validate_request, well_formed.
  rewrite (fold_appends (check_token request_data))
    by (intros; apply check_token_appends).
  rewrite (fold_appends (check_boolean request_data))
    by (intros; apply check_boolean_appends).
  rewrite (required_string_appends request_data "session_id").
  rewrite <- required_string_ok, <- required_string_ok.
  rewrite <- (Forall_iff _ _ _ (check_boolean_ok request_data)).
  rewrite <- (Forall_iff _ _ _ (check_token_ok request_data)).
  rewrite <- !concat_nil_iff.
  split.
  - intros E. apply app_eq_nil in E as [E Htok].
    apply app_eq_nil in E as [E Hbool].
    apply app_eq_nil in E as [Hu Hs]. auto.
  - intros (Hu & Hs & Hbool & Htok). now rewrite Hu, Hs, Hbool, Htok.
Qed.

Lemma validate_flow_params_nil (self : FlowRouting.FlowRouter)
    (flow_name0 : string) (request_data : gmap string Py.pyval) :
  Py.truthy (Py.get request_data "user_id") = true ->
  Py.truthy (Py.get request_data "session_id") = true ->
  FlowRouting.validate_flow_params self flow_name0 request_data = [].
Proof.
  intros Hu Hs. unfold FlowRouting.validate_flow_params.
  rewrite Hu, Hs. simpl.
  destruct (FlowRouting.flows self !! flow_name0) as [flow_def|];
    [destruct (FlowCatalogue.requires_embeddings flow_def)|]; reflexivity.
Qed.

Lemma non_empty_string_truthy (request_data : gmap string Py.pyval)
    (field : string) :
  non_empty_string (request_data !! field) ->
  Py.truthy (Py.get request_data field) = true.
Proof.
  intros (s & E & Hne). unfold Py.get. rewrite E. simpl.
  now destruct (String.eqb_spec s "").
Qed.

(** X15.  A request that [_validate_request] accepts also passes the
    router's [validate_flow_params], for every flow: in [handle_request]
    the second validation cannot fail once the first has passed. *)
Theorem validated_request_passes_flow_validation
    (request_data : gmap string Py.pyval)
    (self : FlowRouting.FlowRouter) (flow_name0 : string) :
  _validate_request request_data = [] ->
  FlowRouting.validate_flow_params self flow_name0 request_data = [].
Proof.
  intros Hvalid. apply validate_request_accepts_lemma in Hvalid
    as (Hu & Hs & _).
  apply validate_flow_params_nil; now apply non_empty_string_truthy.
Qed.

(** ** The response *)

Lemma count_partition (results : list StepResult) :
  length results
  = (count_status SUCCESS results + count_status FAILED results
     + count_status SKIPPED results
     + count_status CRITICAL_ERROR results)%nat.
Proof.
  unfold count_status.
  induction results as [|r results IH]; [reflexivity|].
  rewrite !filter_cons. simpl length. rewrite IH.
  destruct (status r); repeat case_decide; try congruence; simpl; lia.
Qed.

Lemma critical_count_iff (results : list StepResult) :
  existsb is_critical results = true
  <-> (0 < count_status CRITICAL_ERROR results)%nat.
Proof.
  unfold count_status, is_critical.
  induction results as [|r results IH]; simpl.
  - split; [discriminate|lia].
  - rewrite filter_cons, orb_true_iff, IH, bool_decide_eq_true.
    case_decide; simpl; [split; [lia|auto]|].
    split; [intros [?|?]; [contradiction|assumption]|auto].
Qed.

(** X16.  In the response the summary adds up: [total_steps] is the
    number of results and the sum of the four per-status counts.  The
    step entries follow the results one for one, in order.  The key
    [has_critical_errors] is present (and [True]) exactly when the count
    of critical errors is positive. *)
Theorem build_response_summary_adds_up (context : ExecutionContext)
    (results : list StepResult) :
  let response := _build_response context results in
  let counts := summary response in
  total_steps counts = length results
  /\ total_steps counts
     = (successful counts + failed counts + skipped counts
        + critical_errors counts)%nat
  /\ map entry_step_name (steps response) = map step_name results
  /\ map entry_status (steps response) = map status results
  /\ (has_critical_errors response = Some true
      <-> (0 < critical_errors counts)%nat)
  /\ (has_critical_errors response = None
      <-> critical_errors counts = 0%nat).
Proof.
  cbv zeta. cbn [_build_response summary steps has_critical_errors
                 total_steps successful failed skipped critical_errors].
  split; [reflexivity|]. split; [apply count_partition|].
  rewrite !map_map. cbn [entry_step_name entry_status].
  split; [reflexivity|]. split; [reflexivity|].
  pose proof (critical_count_iff results) as Hc.
  destruct (existsb is_critical results).
  - split; split; intros Hx; try reflexivity; try discriminate.
    + now apply Hc.
    + assert (0 < count_status CRITICAL_ERROR results)%nat by now apply Hc.
      lia.
  - split; split; intros Hx; try reflexivity; try discriminate.
    + apply Hc in Hx. discriminate.
    + destruct (count_status CRITICAL_ERROR results) eqn:E; [reflexivity|].
      assert (false = true) by (apply Hc; lia). discriminate.
Qed.

Lemma copy_optional_lookup (request_data : gmap string Py.pyval)
    (fields : list string) (init : gmap string Py.pyval) (k : string) :
  fold_left (copy_optional request_data) fields init !! k
  = if bool_decide (k ∈ fields)
       && (Py.has_key request_data k
           && Py.truthy (Py.get request_data k))
    then Some (Py.get request_data k)
    else init !! k.
Proof.
  revert init. induction fields as [|f fields IH]; intros init; simpl.
  - reflexivity.
  - rewrite IH. unfold copy_optional.
    destruct (decide (k = f)) as [->|Hne].
    + rewrite (bool_decide_eq_true_2 (f ∈ f :: fields))
        by apply list_elem_of_here.
      simpl.
      destruct (Py.has_key request_data f
                && Py.truthy (Py.get request_data f)).
      * rewrite lookup_insert_eq. now destruct (bool_decide _).
      * now rewrite andb_false_r.
    + assert (Hmem : bool_decide (k ∈ f :: fields)
                     = bool_decide (k ∈ fields)).
      { apply bool_decide_ext. rewrite elem_of_cons. tauto. }
      rewrite Hmem.
      destruct (Py.has_key request_data f
                && Py.truthy (Py.get request_data f));
        [rewrite lookup_insert_ne by congruence|]; reflexivity.
Qed.

(** X17.  Of the request's fields the response copies exactly
    [identifier], [vacancy_id], [vacancy_name], [position_id] and
    [career_name], each only when it is present with a truthy value, and
    with that value; [vacancy_description] and [position_name] are never
    copied. *)
Theorem build_response_optional_fields (context : ExecutionContext)
    (results : list StepResult) (k : string) (v : Py.pyval) :
  optional (_build_response context results) !! k = Some v
  <-> k ∈ optional_fields
      /\ request_data context !! k = Some v
      /\ Py.truthy v = true.
Proof.
  cbn [_build_response optional]. rewrite copy_optional_lookup.
  rewrite lookup_empty. unfold Py.has_key, Py.get.
  destruct (bool_decide_reflect (k ∈ optional_fields)) as [Hin|Hout]; simpl.
  - destruct (request_data context !! k) as [v0|] eqn:E; simpl.
    + rewrite ?bool_decide_eq_true_2 by eauto. simpl.
      destruct (Py.truthy v0) eqn:Ht.
      * split; [intros [= <-]; auto|intros (_ & [= <-] & _); reflexivity].
      * split; [discriminate|intros (_ & [= <-] & Hv); congruence].
    + rewrite ?bool_decide_eq_false_2 by (intros [? Hx]; discriminate Hx).
      simpl. split; [discriminate|intros (_ & Hx & _); discriminate Hx].
  - split; [discriminate|intros (Hin & _); contradiction].
Qed.

End HandlerFacts.

(* ===================================================================== *)
(** * More on the engine: dispatch order, pools, the context afterwards *)
(* ===================================================================== *)

Section ShapeMore.
Import Settings Models EngineSpec EngineMore.
Local Open Scope list_scope.

Lemma run_shape_prefix (groups : list (list FlowStep))
    (disp : list FlowStep) (produced : list StepResult) :
  run_shape groups disp produced ->
  disp `prefix_of` concat groups
  /\ (aborts produced = false -> disp = concat groups).
Proof.
  intros [outs Hall Hq|before g after outs out -> Hall Hq Hans Hab].
  - split; [reflexivity|auto].
  - split.
    + exists (concat after). rewrite concat_app. simpl.
      now rewrite <- app_assoc.
    + intros Hquiet. rewrite aborts_app, Hab, orb_true_r in Hquiet.
      discriminate.
Qed.

Lemma answers_in_order (groups : list (list FlowStep))
    (outs : list (list StepResult)) :
  Forall singleton_group groups ->
  Forall2 answers groups outs ->
  map step_name (concat outs) = map name (concat groups).
Proof.
  intros Hsingle Hall. induction Hall as [|g out groups outs Hans _ IH].
  - reflexivity.
  - apply Forall_cons in Hsingle as [[s ->] Hsingle].
    destruct (answers_singleton _ _ Hans) as (r & -> & Hname).
    simpl. now rewrite Hname, IH.
Qed.

Lemma run_shape_in_order (groups : list (list FlowStep))
    (disp : list FlowStep) (produced : list StepResult) :
  Forall singleton_group groups ->
  run_shape groups disp produced ->
  map step_name produced = map name disp.
Proof.
  intros Hsingle [outs Hall _|before g after outs out -> Hall _ Hans _].
  - now apply answers_in_order.
  - apply Forall_app in Hsingle as [Hbefore Hg].
    apply Forall_cons in Hg as [[s ->] _].
    destruct (answers_singleton _ _ Hans) as (r & -> & Hname).
    rewrite !map_app. simpl. rewrite Hname. f_equal.
    now apply answers_in_order.
Qed.

End ShapeMore.

Section EngineMoreFacts.
Import Settings Models Runtime FlowExecutor EngineSpec EngineMore.
Local Open Scope list_scope.
Context `{Host}.

Lemma plan_untagged (steps : list FlowStep) :
  Forall (fun s => PlanSpec.tagged s = false) steps ->
  _group_steps_by_parallelism steps = map (fun s => [s]) steps.
Proof.
  intros Hall. rewrite plan_unfold.
  induction Hall as [|s steps Hs _ IH]; [reflexivity|].
  simpl. rewrite Hs. simpl. now rewrite IH.
Qed.

Lemma singletons_are_singletons (steps : list FlowStep) :
  Forall singleton_group (map (fun s => [s]) steps).
Proof.
  induction steps; constructor; [eexists; reflexivity|assumption].
Qed.

(** Groups of one step never reach the pool: the loop does the same for
    any number of workers. *)
Lemma execute_groups_any_workers
    (runner : FlowStep -> ExecutionContext -> M StepResult)
    (workers workers' : Z) (groups : list (list FlowStep)) :
  Forall singleton_group groups ->
  forall acc st,
    execute_groups workers runner groups acc st
    = execute_groups workers' runner groups acc st.
Proof.
  induction 1 as [|g groups [s ->] _ IH]; intros acc st; [reflexivity|].
  cbn [execute_groups]. unfold bind, read_context.
  destruct (_execute_single_step runner s (context st) st) as [[r|e] st1];
    [|reflexivity].
  unfold context_add_result. destruct (is_critical r); [reflexivity|].
  apply IH.
Qed.

(** X18.  The engine dispatches an initial segment of the step list, in
    list order, and nothing else; it dispatches the whole list whenever
    no result is a [CriticalError]. *)
Theorem execute_flow_dispatches_a_prefix (max_workers : Z)
    (steps : list FlowStep) (st : Store) :
  (0 < max_workers)%Z ->
  exists disp produced st',
    Orchestrator.execute_flow max_workers steps st = (Return produced, st')
    /\ dispatched (history st') = dispatched (history st) ++ disp
    /\ disp `prefix_of` steps
    /\ length produced = length disp
    /\ (aborts produced = false -> disp = steps).
Proof.
  intros Hworkers.
  destruct (orchestrator_flow max_workers steps st Hworkers)
    as (disp & produced & st' & E & Hshape & Hdisp & _).
  exists disp, produced, st'. split; [exact E|]. split; [exact Hdisp|].
  destruct (run_shape_prefix _ _ _ Hshape) as [Hprefix Hall].
  rewrite plan_concat in Hprefix, Hall.
  split; [exact Hprefix|]. split; [|exact Hall].
  apply run_shape_names, Permutation_length in Hshape.
  now rewrite !length_map in Hshape.
Qed.

(** X19.  A flow without parallel tags never builds a thread pool: for
    any [max_workers], zero and negative included, [execute_flow]
    returns, and the results come in step order -- the names of the
    results are an initial segment of the names of the steps, and all of
    them when no result is a [CriticalError]. *)
Theorem sequential_flow_needs_no_pool (max_workers : Z)
    (steps : list FlowStep) (st : Store) :
  Forall (fun s => Py.truthy_opt (parallel_group s) = false) steps ->
  exists produced st',
    Orchestrator.execute_flow max_workers steps st = (Return produced, st')
    /\ map step_name produced `prefix_of` map name steps
    /\ (aborts produced = false ->
        map step_name produced = map name steps).
Proof.
  intros Huntagged.
  pose proof (plan_untagged steps Huntagged) as Hplan.
  pose proof (singletons_are_singletons steps) as Hsingle.
  assert (Hone : (0 < 1)%Z) by reflexivity.
  destruct (orchestrator_flow 1 steps st Hone)
    as (disp & produced & st' & E & Hshape & _ & _).
  exists produced, st'. split.
  - rewrite <- E. unfold Orchestrator.execute_flow, execute_flow.
    rewrite Hplan. now apply execute_groups_any_workers.
  - rewrite Hplan in Hshape.
    rewrite (run_shape_in_order _ _ _ Hsingle Hshape).
    destruct (run_shape_prefix _ _ _ Hshape) as [[rest Hprefix] Hall].
    rewrite <- Hplan, plan_concat in Hprefix, Hall. split.
    + exists (map name rest). now rewrite Hprefix, map_app.
    + intros Hquiet. now rewrite (Hall Hquiet).
Qed.

(** With no worker, the loop cannot get past a group of two or more
    steps: it ends in a [ValueError], unless a [CriticalError] stopped it
    before. *)
Lemma no_worker_loop (max_workers : Z) (groups : list (list FlowStep)) :
  (max_workers <= 0)%Z ->
  Exists (fun g => (2 <= length g)%nat) groups ->
  forall acc st,
    match (Orchestrator.execute_groups max_workers groups acc st).1 with
    | Return produced => aborts produced = true
    | Raised e => Py.exn_type e = "ValueError"%string
    end.
Proof.
  intros Hworkers Hex.
  assert (Hpool : forall n,
            (Z.min (Z.of_nat n) max_workers <=? 0)%Z = true)
    by (intros; apply Z.leb_le; lia).
  induction groups as [|g groups IH]; intros acc st.
  - apply Exists_nil in Hex. contradiction.
  - unfold Orchestrator.execute_groups. cbn [execute_groups].
    destruct g as [|s [|s2 g']].
    + unfold bind, read_context, _execute_parallel_steps.
      rewrite Hpool. reflexivity.
    + apply Exists_cons in Hex as [Hlen|Hex]; [simpl in Hlen; lia|].
      unfold bind at 1, read_context at 1.
      destruct (single_step_spec Orchestrator.execute_step
                  wired_execute_step_total s (context st) st)
        as (r & st1 & E1 & _).
      unfold bind at 1. rewrite E1.
      unfold bind at 1, context_add_result at 1.
      destruct (is_critical r) eqn:Hcrit.
      * unfold ret. cbn [fst]. rewrite aborts_app. unfold aborts at 2.
        simpl. rewrite Hcrit. now rewrite orb_true_r.
      * apply (IH Hex).
    + unfold bind, read_context, _execute_parallel_steps.
      rewrite Hpool. reflexivity.
Qed.

(** X20.  With [max_workers] zero or negative, a flow that has a parallel
    group never completes normally: [execute_flow] raises the pool's
    [ValueError], unless an earlier [CriticalError] has already stopped
    the flow. *)
Theorem no_worker_no_parallel_completion (max_workers : Z)
    (steps : list FlowStep) (st : Store) :
  (max_workers <= 0)%Z ->
  Exists (fun g => (2 <= length g)%nat)
    (_group_steps_by_parallelism steps) ->
  match (Orchestrator.execute_flow max_workers steps st).1 with
  | Return produced => aborts produced = true
  | Raised e => Py.exn_type e = "ValueError"%string
  end.
Proof.
  intros Hworkers Hex.
  exact (no_worker_loop max_workers _ Hworkers Hex [] st).
Qed.

End EngineMoreFacts.

Section ContextAfterRun.
Import Settings Models Runtime FlowExecutor EngineSpec ContextQueries.
Local Open Scope list_scope.
Context `{Host}.

Lemma has_critical_extend (context0 : ExecutionContext)
    (produced : list StepResult) :
  has_critical_errors (extend context0 produced)
  = has_critical_errors context0 || aborts produced.
Proof. unfold has_critical_errors, extend, aborts. simpl. apply existsb_app. Qed.

Lemma successful_extend (context0 : ExecutionContext)
    (produced : list StepResult) :
  get_successful_steps (extend context0 produced)
  = get_successful_steps context0
    ++ map step_name (filter (fun r => status r = SUCCESS) produced).
Proof.
  unfold get_successful_steps, extend. simpl.
  now rewrite filter_app, map_app.
Qed.

(** X21.  After a run on a context that held no critical error,
    [has_critical_errors] tells whether the flow was cut short by one:
    it is true exactly when a returned result is a [CriticalError], and
    when it is false every step of the flow was dispatched and has its
    result. *)
Theorem has_critical_errors_after_run (max_workers : Z)
    (steps : list FlowStep) (st : Store) :
  (0 < max_workers)%Z ->
  has_critical_errors (context st) = false ->
  exists produced st',
    Orchestrator.execute_flow max_workers steps st = (Return produced, st')
    /\ (has_critical_errors (context st') = true
        <-> exists r, r ∈ produced /\ status r = CRITICAL_ERROR)
    /\ (has_critical_errors (context st') = false ->
        dispatched (history st') = dispatched (history st) ++ steps
        /\ length produced = length steps).
Proof.
  intros Hworkers Hclean.
  destruct (orchestrator_flow max_workers steps st Hworkers)
    as (disp & produced & st' & E & Hshape & Hdisp & Hctx).
  exists produced, st'. split; [exact E|].
  rewrite Hctx, has_critical_extend, Hclean. simpl. split.
  - unfold aborts. rewrite existsb_exists. unfold is_critical.
    split.
    + intros (r & Hin & Hr). exists r.
      apply bool_decide_eq_true in Hr. now rewrite list_elem_of_In.
    + intros (r & Hin & Hr). exists r.
      rewrite bool_decide_eq_true. now rewrite <- list_elem_of_In.
  - intros Hquiet.
    destruct (run_shape_prefix _ _ _ Hshape) as [_ Hall].
    rewrite plan_concat in Hall. rewrite Hdisp, (Hall Hquiet).
    split; [reflexivity|].
    apply run_shape_names, Permutation_length in Hshape.
    rewrite !length_map in Hshape. now rewrite Hshape, (Hall Hquiet).
Qed.

(** X22.  After a run, [get_successful_steps] is what it was before
    followed by the names of the returned [Success] results, in order;
    each of these is the name of a step of the flow, and there are no
    more of them than steps. *)
Theorem successful_steps_after_run (max_workers : Z)
    (steps : list FlowStep) (st : Store) :
  (0 < max_workers)%Z ->
  exists produced st',
    Orchestrator.execute_flow max_workers steps st = (Return produced, st')
    /\ get_successful_steps (context st')
       = get_successful_steps (context st)
         ++ map step_name (filter (fun r => status r = SUCCESS) produced)
    /\ Forall (fun n => n ∈ map name steps)
         (map step_name (filter (fun r => status r = SUCCESS) produced))
    /\ (length (filter (fun r => status r = SUCCESS) produced)
        <= length steps)%nat.
Proof.
  intros Hworkers.
  destruct (orchestrator_flow max_workers steps st Hworkers)
    as (disp & produced & st' & E & Hshape & Hdisp & Hctx).
  exists produced, st'. split; [exact E|].
  rewrite Hctx. split; [apply successful_extend|].
  destruct (run_shape_prefix _ _ _ Hshape) as [[rest Hprefix] _].
  rewrite plan_concat in Hprefix.
  pose proof (run_shape_names _ _ _ Hshape) as Hnames.
  split.
  - apply List.Forall_forall. intros n Hin.
    apply list_elem_of_In in Hin.
    apply list_elem_of_fmap in Hin as (r & -> & Hr).
    apply list_elem_of_filter in Hr as [_ Hr].
    assert (Hn : step_name r ∈ map step_name produced)
      by (apply list_elem_of_fmap; eauto).
    rewrite Hnames in Hn. rewrite Hprefix, map_app.
    apply elem_of_app. now left.
  - apply Permutation_length in Hnames. rewrite !length_map in Hnames.
    pose proof (length_filter (fun r => status r = SUCCESS) produced).
    rewrite Hprefix, length_app. lia.
Qed.

End ContextAfterRun.

Section RunnerMore.
Import Settings Models Runtime StepExecutor RunnerSpec ClientSpec.
Local Open Scope list_scope.
Context `{Host}.

Lemma or_else_non_empty (a : option string) (b : string) :
  b <> ""%string -> Py.or_else a b <> ""%string.
Proof.
  intros Hb. unfold Py.or_else. destruct a as [s|]; [|exact Hb].
  destruct (String.eqb_spec s ""); assumption.
Qed.

Lemma prepare_headers_only_authorization (step : FlowStep)
    (context0 : ExecutionContext) (k : string) :
  k <> "Authorization"%string ->
  _prepare_headers step context0 !! k = None.
Proof.
  intros Hk. unfold _prepare_headers.
  destruct (Py.truthy _); [|apply lookup_empty].
  rewrite lookup_insert_ne by congruence. apply lookup_empty.
Qed.

(** The wired [post] is a single attempt with the call [outgoing],
    unless the encoder refuses the payload. *)
Lemma wired_post (url0 : string) (payload : gmap string Py.pyval)
    (headers : gmap string string) (timeout0 : option Z) (st : Store) :
  match dumps_fault payload with
  | Some e =>
      HttpClient.post http_client url0 payload headers timeout0 st
      = (Raised e, st)
  | None =>
      exists outcome st',
        HttpClient.post http_client url0 payload headers timeout0 st
        = (outcome, st')
        /\ invoked (history st')
           = invoked (history st)
             ++ [outgoing http_client "POST" url0 headers payload timeout0]
  end.
Proof.
  destruct (dumps_fault payload) as [fault|] eqn:Hdumps.
  - now apply attempts_refused.
  - destruct (attempts_spec http_client "POST"%string url0 headers payload
                timeout0 0 st Hdumps)
      as (outcome & st' & n & E & Hinv & Hn & _).
    exists outcome, st'. split; [exact E|].
    assert (n = 1%nat) as -> by lia. exact Hinv.
Qed.

Lemma update_values (P : Py.pyval -> Prop) (items : list (string * Py.pyval))
    (d : gmap string Py.pyval) :
  map_Forall (fun _ v => P v) d ->
  Forall (fun kv => P kv.2) items ->
  map_Forall (fun _ v => P v) (update d items).
Proof.
  intros Hd Hitems. revert d Hd.
  induction Hitems as [|[k v] items Hkv _ IH]; intros d Hd; [exact Hd|].
  cbn [update fold_left]. apply IH. now apply map_Forall_insert_2.
Qed.

Lemma Forall_not_none (P : string * Py.pyval -> Prop)
    (items : list (string * Py.pyval)) :
  Forall P items -> Forall P (filter not_none items).
Proof.
  induction 1 as [|kv items Hkv _ IH]; [constructor|].
  rewrite filter_cons. case_decide; [constructor|]; assumption.
Qed.

Lemma get_scalar (request_data : gmap string Py.pyval) (k : string) :
  map_Forall (fun _ v => Py.json_scalar v = true) request_data ->
  Py.json_scalar (Py.get request_data k) = true.
Proof.
  intros Hall. unfold Py.get.
  destruct (request_data !! k) as [v|] eqn:Ek; [|reflexivity].
  exact (Hall k v Ek).
Qed.

(** A request of JSON scalars makes a payload of JSON scalars. *)
Lemma prepare_payload_scalars (step : FlowStep)
    (context0 : ExecutionContext) :
  map_Forall (fun _ v => Py.json_scalar v = true) (request_data context0) ->
  map_Forall (fun _ v => Py.json_scalar v = true)
    (_prepare_payload step context0).
Proof.
  intros Hall. unfold _prepare_payload.
  destruct (String.eqb _ _); [now apply map_Forall_singleton|].
  assert (Hbase : map_Forall (fun _ v => Py.json_scalar v = true)
                    ({[ "user_id"%string := Py.VStr (user_id context0) ]}
                       : gmap string Py.pyval))
    by now apply map_Forall_singleton.
  assert (Hvac : Forall (fun kv => Py.json_scalar kv.2 = true)
                   (filter not_none (vacancy_params (request_data context0)))).
  { apply Forall_not_none. unfold vacancy_params.
    repeat constructor; cbn [snd]; now apply get_scalar. }
  assert (Hprof : Forall (fun kv => Py.json_scalar kv.2 = true)
                    (filter not_none
                       (profession_params (request_data context0)))).
  { apply Forall_not_none. unfold profession_params.
    repeat constructor; cbn [snd]; now apply get_scalar. }
  destruct (Py.str_in "vacancy" (name step));
    destruct (Py.str_in "profession" (name step)
              || Py.str_in "carreira" (name step));
    repeat apply update_values; assumption.
Qed.

(** X23.  What the fields of a result are, by status.  [Success] has no
    error and a 2xx status code; [Failed] has a non-empty error text and
    a status code that is not 2xx; both carry the resolved URL.
    [Skipped] has a non-empty reason and, like [CriticalError], neither
    URL, status code nor response; [CriticalError] has the message and
    the traceback. *)
Theorem execute_step_result_fields (step : FlowStep)
    (context0 : ExecutionContext) (st : Store) :
  exists result st',
    Orchestrator.execute_step step context0 st = (Return result, st')
    /\ step_name result = name step
    /\ match status result with
       | SUCCESS =>
           error result = None
           /\ (exists code, status_code result = Some code /\ two_xx code)
           /\ url result = getenv (outside st) (url_env_var step)
       | FAILED =>
           (exists text, error result = Some text /\ text <> ""%string)
           /\ (exists code,
                 status_code result = Some code /\ ~ two_xx code)
           /\ url result = getenv (outside st) (url_env_var step)
       | SKIPPED =>
           (exists text, error result = Some text /\ text <> ""%string)
           /\ status_code result = None
           /\ url result = None
           /\ response result = Py.VNone
       | CRITICAL_ERROR =>
           is_Some (error result)
           /\ is_Some (error_details result)
           /\ status_code result = None
           /\ url result = None
           /\ response result = Py.VNone
       end.
Proof.
  unfold Orchestrator.execute_step, execute_step. simpl.
  unfold try_except, bind, ret, get_url, observe. simpl.
  destruct (FlowRouter.should_skip_step _ _) as [[] reason]; simpl.
  - eexists _, _. split; [reflexivity|]. simpl.
    split; [reflexivity|]. split; [|auto].
    eexists. split; [reflexivity|discriminate].
  - destruct (getenv (outside st) (url_env_var step)) as [url0|] eqn:Eurl;
      simpl.
    + destruct (String.eqb_spec url0 ""); simpl.
      * eexists _, _. split; [reflexivity|]. simpl.
        split; [reflexivity|]. split; [|auto].
        eexists. split; [reflexivity|discriminate].
      * pose proof (wired_post url0 (_prepare_payload step context0)
                      (_prepare_headers step context0)
                      (Some (timeout step)) st) as Hpost.
        destruct (dumps_fault _) as [fault|].
        { rewrite Hpost. eexists _, _. split; [reflexivity|]. simpl.
          split; [reflexivity|]. repeat split; eauto. }
        destruct Hpost as (outcome & st' & -> & _).
        destruct outcome as [response|e].
        -- pose proof (is_success_two_xx response) as H2xx.
           destruct (HttpClient.is_success response) eqn:Es;
             (eexists _, _; split; [reflexivity|]; simpl;
              split; [reflexivity|]).
           ++ split; [reflexivity|]. split; [|reflexivity].
              eexists. split; [reflexivity|]. now apply H2xx.
           ++ split; [|split; [|reflexivity]].
              ** eexists. split; [reflexivity|].
                 apply or_else_non_empty. discriminate.
              ** eexists. split; [reflexivity|].
                 intros H2. apply H2xx in H2. discriminate.
        -- eexists _, _. split; [reflexivity|]. simpl.
           split; [reflexivity|]. repeat split; eauto.
    + eexists _, _. split; [reflexivity|]. simpl.
      split; [reflexivity|]. split; [|auto].
      eexists. split; [reflexivity|discriminate].
Qed.

(** X24.  What a step that is not skipped puts on the wire.  Its URL
    variable resolves.  When [json.dumps] refuses the prepared payload,
    nothing is sent: the store is as it was and the result is a
    [CriticalError] with the encoder's message.  Otherwise there is one
    POST to the resolved URL, with the prepared payload as JSON; the
    headers [Content-Type: application/json] and
    [X-Orchestrator: senai-ml-orchestrator], and [Authorization] exactly
    as header construction decided; the step's timeout, or 120 seconds
    when the step's timeout is zero.  A request whose parameters are all
    JSON scalars is never refused. *)
Theorem execute_step_wire_request (step : FlowStep)
    (context0 : ExecutionContext) (st : Store) :
  (exists result st',
     Orchestrator.execute_step step context0 st = (Return result, st')
     /\ (status result <> SKIPPED ->
         exists url0,
           getenv (outside st) (url_env_var step) = Some url0
           /\ match dumps_fault (_prepare_payload step context0) with
              | Some e => st' = st /\ critical_for e result
              | None =>
                  exists request,
                    invoked (history st')
                    = invoked (history st) ++ [request]
                    /\ req_method request = "POST"%string
                    /\ req_url request = url0
                    /\ req_json request = _prepare_payload step context0
                    /\ req_headers request !! "Content-Type"
                       = Some "application/json"%string
                    /\ req_headers request !! "X-Orchestrator"
                       = Some "senai-ml-orchestrator"%string
                    /\ req_headers request !! "Authorization"
                       = _prepare_headers step context0 !! "Authorization"
                    /\ req_timeout request
                       = (if (timeout step =? 0)%Z then 120%Z
                          else timeout step)
              end))
  /\ (map_Forall (fun _ v => Py.json_scalar v = true)
        (request_data context0) ->
      dumps_fault (_prepare_payload step context0) = None).
Proof.
  split; [|intros Hall; now apply scalars_dump, prepare_payload_scalars].
  unfold Orchestrator.execute_step, execute_step. simpl.
  unfold try_except, bind, ret, get_url, observe. simpl.
  destruct (FlowRouter.should_skip_step _ _) as [[] reason]; simpl.
  - eexists _, _. split; [reflexivity|]. simpl. contradiction.
  - destruct (getenv (outside st) (url_env_var step)) as [url0|] eqn:Eurl;
      simpl.
    + destruct (String.eqb_spec url0 ""); simpl.
      * eexists _, _. split; [reflexivity|]. simpl. contradiction.
      * pose proof (wired_post url0 (_prepare_payload step context0)
                      (_prepare_headers step context0)
                      (Some (timeout step)) st) as Hpost.
        destruct (dumps_fault _) as [fault|].
        { rewrite Hpost. eexists _, _. split; [reflexivity|].
          intros _. exists url0. split; [reflexivity|].
          split; [reflexivity|apply critical_result_for]. }
        destruct Hpost as (outcome & st' & -> & Hinv).
        assert (Hwire :
          exists request,
            invoked (history st') = invoked (history st) ++ [request]
            /\ req_method request = "POST"%string
            /\ req_url request = url0
            /\ req_json request = _prepare_payload step context0
            /\ req_headers request !! "Content-Type"
               = Some "application/json"%string
            /\ req_headers request !! "X-Orchestrator"
               = Some "senai-ml-orchestrator"%string
            /\ req_headers request !! "Authorization"
               = _prepare_headers step context0 !! "Authorization"
            /\ req_timeout request
               = (if (timeout step =? 0)%Z then 120%Z else timeout step)).
        { eexists. split; [exact Hinv|]. cbn.
          repeat split.
          - rewrite lookup_union_r
              by (apply prepare_headers_only_authorization; discriminate).
            reflexivity.
          - rewrite lookup_union_r
              by (apply prepare_headers_only_authorization; discriminate).
            reflexivity.
          - rewrite lookup_union.
            destruct (_prepare_headers step context0 !! "Authorization");
              reflexivity. }
        destruct Hwire as (request & Hwire).
        destruct outcome as [response|e];
          [destruct (HttpClient.is_success response)|];
          (eexists _, _; split; [reflexivity|]; intros _;
           exists url0; split; [reflexivity|exists request; exact Hwire]).
    + eexists _, _. split; [reflexivity|]. simpl. contradiction.
Qed.

End RunnerMore.

Section WorkerFaults.
Import Settings Models Runtime FlowExecutor.
Local Open Scope list_scope.
Context `{Host}.

(** The collection loop, whatever the workers do: each completed step
    is answered for by what its call returned or, when the call raised,
    by the result built from the exception it raised. *)
Lemma collect_collected
    (runner : FlowStep -> ExecutionContext -> M StepResult)
    (completed : list FlowStep) (context0 : ExecutionContext)
    (acc : list StepResult) (st : Store) :
  exists out st',
    collect runner completed context0 acc st = (Return (acc ++ out), st')
    /\ EngineSpec.collected runner context0 completed st out st'.
Proof.
  revert acc st. induction completed as [|step completed IH]; intros acc st.
  - exists [], st. simpl. unfold ret. rewrite app_nil_r.
    split; [reflexivity|constructor].
  - simpl. unfold bind at 1, try_except at 1.
    destruct (runner step context0 st) as [[result|e] st1] eqn:Erun.
    + destruct (IH (acc ++ [result]) st1) as (out & st2 & Ecol & Hall).
      exists (result :: out), st2. rewrite Ecol, <- app_assoc.
      split; [reflexivity|].
      eapply EngineSpec.collected_returned; eassumption.
    + unfold ret at 1.
      destruct (IH (acc ++ [unhandled_result step e]) st1)
        as (out & st2 & Ecol & Hall).
      exists (unhandled_result step e :: out), st2.
      rewrite Ecol, <- app_assoc.
      split; [reflexivity|].
      eapply EngineSpec.collected_raised; eassumption.
Qed.

Lemma collected_length
    (runner : FlowStep -> ExecutionContext -> M StepResult)
    (context0 : ExecutionContext) (steps : list FlowStep) (st st' : Store)
    (out : list StepResult) :
  EngineSpec.collected runner context0 steps st out st' ->
  length out = length steps.
Proof. induction 1; simpl; congruence. Qed.

(** X25.  A parallel group absorbs the faults of its workers: whatever
    the step runner does, return or raise, [_execute_parallel_steps]
    returns one result per step of the group, in completion order
    ([collected]): the runner is called on the steps in that order, from
    the store in which the group's steps are recorded as dispatched, each
    call on the store the previous one left; a call that returned is
    answered for by what it returned, a call that raised [e] by the
    [CriticalError] result ["Unhandled exception: <str(e)>"] with the
    traceback of [e], under its step's name.  A fault in a sequential
    step is not absorbed: it leaves the loop as raised. *)
Theorem parallel_group_absorbs_worker_faults (max_workers : Z)
    (runner : FlowStep -> ExecutionContext -> M StepResult)
    (steps : list FlowStep) (context0 : ExecutionContext) (st : Store) :
  (0 < max_workers)%Z -> steps <> [] ->
  (exists out st',
     _execute_parallel_steps max_workers runner steps context0 st
     = (Return out, st')
     /\ length out = length steps
     /\ EngineSpec.collected runner context0
          (completion_order (outside st) steps)
          (EngineSpec.submitted steps st) out st')
  /\ (forall step e st1 rest acc,
        _execute_single_step runner step (context st) st = (Raised e, st1) ->
        execute_groups max_workers runner ([step] :: rest) acc st
        = (Raised e, st1)).
Proof.
  intros Hworkers Hne. split.
  - unfold _execute_parallel_steps.
    assert (Hpool : (Z.min (Z.of_nat (length steps)) max_workers <=? 0)%Z
                    = false).
    { apply Z.leb_gt. destruct steps; [contradiction|]. simpl length. lia. }
    rewrite Hpool. erewrite bind_return by apply submit_all.
    unfold bind at 1, observe at 1. cbn [outside].
    match goal with
    | |- context [collect _ ?c _ _ ?s] =>
        destruct (collect_collected runner c context0 [] s)
          as (out & st' & Ecol & Hall)
    end.
    exists out, st'. rewrite Ecol. split; [reflexivity|].
    split; [|exact Hall].
    rewrite (collected_length _ _ _ _ _ _ Hall).
    apply Permutation_length, completion_order_perm.
  - intros step e st1 rest acc E. cbn [execute_groups].
    unfold bind at 1, read_context at 1. unfold bind at 1. now rewrite E.
Qed.

End WorkerFaults.

(* ===================================================================== *)
(** * The added properties on concrete inputs *)
(* ===================================================================== *)

Section MoreRuns.
Import Settings Models Runtime EngineSpec ClientSpec Examples.
Local Open Scope list_scope.

(** A server that stays down is asked three times by a client with two
    retries; the 503 then comes back as a response. *)
Example retry_run :
  let run :=
    @HttpClient.request demo_host retrying_client "POST" "http://ml/DOWN_URL"
      ∅ ∅ None demo_store in
  match run.1 with
  | Return response => HttpClient.status_code response = 503%Z
  | Raised _ => False
  end
  /\ length (invoked (history run.2)) = 3%nat.
Proof. vm_compute. split; reflexivity. Qed.

(** The errors [_validate_request] lists for a malformed request. *)
Example malformed_request_errors :
  Handler._validate_request malformed_request
  = [ "Field 'user_id' must be a string";
      "Missing required field: session_id";
      "Field 'create_user_embedding' must be a boolean";
      "Field 'match_candidato_token' must be a string if provided" ]%string.
Proof. vm_compute. reflexivity. Qed.

(** With vacancy processing off, [first_login] keeps [match_candidato]. *)
Example first_login_without_vacancy :
  map name
    (FlowRouting.filter_steps_by_context
       (FlowCatalogue.mkFlowDefinition "first_login"
          FlowCatalogue.first_login_steps false "")
       no_vacancy_request)
  = [ "match_usuario_profissao"; "match_candidato";
      "match_usuario_carreira"; "match_analysis_user_profession";
      "gap_analysis_user_profession"; "suggest_course_profession" ]%string.
Proof. vm_compute. reflexivity. Qed.

(** A worker that raises inside a parallel group. *)
Example worker_fault_absorbed :
  summary
    (@FlowExecutor._execute_parallel_steps demo_host 4 faulty_runner
       [left_step; boom; slow] demo_context demo_store).1
  = [ ("slow", FAILED, Some "Request timeout after 120s", Some 0);
      ("boom", CRITICAL_ERROR, Some "Unhandled exception: worker died",
       None);
      ("left", SUCCESS, None, Some 200) ]%string%Z.
Proof. vm_compute. reflexivity. Qed.

(** X4 at the server that stays down. *)
Lemma request_gives_up_after_all_attempts_witness :
  let run :=
    @HttpClient.request demo_host retrying_client "POST" "http://ml/DOWN_URL"
      ∅ ∅ None demo_store in
  let response :=
    match run.1 with
    | Return response => response
    | Raised _ => no_response
    end in
  run = (Return response, run.2)
  /\ retryable response = true
  /\ invoked (history run.2)
     = invoked (history demo_store)
       ++ replicate 3
            (outgoing retrying_client "POST" "http://ml/DOWN_URL" ∅ ∅ None).
Proof.
  cbv zeta.
  assert (E : @HttpClient.request demo_host retrying_client "POST"
                "http://ml/DOWN_URL" ∅ ∅ None demo_store
              = (Return
                   match (@HttpClient.request demo_host retrying_client
                            "POST" "http://ml/DOWN_URL" ∅ ∅ None
                            demo_store).1 with
                   | Return response => response
                   | Raised _ => no_response
                   end,
                 (@HttpClient.request demo_host retrying_client "POST"
                    "http://ml/DOWN_URL" ∅ ∅ None demo_store).2))
    by (vm_compute; reflexivity).
  assert (Hretry : retryable
                     match (@HttpClient.request demo_host retrying_client
                              "POST" "http://ml/DOWN_URL" ∅ ∅ None
                              demo_store).1 with
                     | Return response => response
                     | Raised _ => no_response
                     end = true)
    by (vm_compute; reflexivity).
  split; [exact E|]. split; [exact Hretry|].
  exact (@request_gives_up_after_all_attempts demo_host retrying_client
           "POST" "http://ml/DOWN_URL" ∅ ∅ None demo_store _ _ E Hretry).
Defined.

(** X5 at a server that answers 200. *)
Lemma request_does_not_retry_witness :
  let attempt :=
    @HttpClient._execute_request demo_host retrying_client "POST"
      "http://ml/LOAD_URL" ∅ ∅ None demo_store in
  attempt = (attempt.1, attempt.2)
  /\ match attempt.1 with
     | Return response => retryable response = false
     | Raised _ => True
     end
  /\ @HttpClient.request demo_host retrying_client "POST"
       "http://ml/LOAD_URL" ∅ ∅ None demo_store
     = (attempt.1, attempt.2).
Proof.
  cbv zeta.
  assert (E : @HttpClient._execute_request demo_host retrying_client "POST"
                "http://ml/LOAD_URL" ∅ ∅ None demo_store
              = ((@HttpClient._execute_request demo_host retrying_client
                    "POST" "http://ml/LOAD_URL" ∅ ∅ None demo_store).1,
                 (@HttpClient._execute_request demo_host retrying_client
                    "POST" "http://ml/LOAD_URL" ∅ ∅ None demo_store).2))
    by (vm_compute; reflexivity).
  assert (Hstop : match (@HttpClient._execute_request demo_host
                           retrying_client "POST" "http://ml/LOAD_URL"
                           ∅ ∅ None demo_store).1 with
                  | Return response => retryable response = false
                  | Raised _ => True
                  end)
    by (vm_compute; reflexivity).
  split; [exact E|]. split; [exact Hstop|].
  exact (@request_does_not_retry demo_host retrying_client "POST"
           "http://ml/LOAD_URL" ∅ ∅ None demo_store _ _ E Hstop).
Defined.

(** X15 at the request of the demonstration context. *)
Lemma validated_request_passes_flow_validation_witness :
  Handler._validate_request (request_data demo_context) = []
  /\ FlowRouting.validate_flow_params FlowRouting.router "update_profile"
       (request_data demo_context) = [].
Proof.
  assert (Hvalid : Handler._validate_request (request_data demo_context) = [])
    by (vm_compute; reflexivity).
  split; [exact Hvalid|].
  exact (validated_request_passes_flow_validation
           (request_data demo_context) FlowRouting.router "update_profile"
           Hvalid).
Defined.

(** X18 at the aborting flow. *)
Lemma execute_flow_dispatches_a_prefix_witness :
  (0 < 4)%Z
  /\ exists disp produced st',
       @Orchestrator.execute_flow demo_host 4 abort_flow demo_store
       = (Return produced, st')
       /\ dispatched (history st')
          = dispatched (history demo_store) ++ disp
       /\ disp `prefix_of` abort_flow
       /\ length produced = length disp
       /\ (aborts produced = false -> disp = abort_flow).
Proof.
  assert (Hworkers : (0 < 4)%Z) by reflexivity.
  split; [exact Hworkers|].
  exact (@execute_flow_dispatches_a_prefix demo_host 4 abort_flow
           demo_store Hworkers).
Defined.

(** X19 at a flow without tags, with no worker at all. *)
Lemma sequential_flow_needs_no_pool_witness :
  Forall (fun s => Py.truthy_opt (parallel_group s) = false) failing_flow
  /\ exists produced st',
       @Orchestrator.execute_flow demo_host 0 failing_flow demo_store
       = (Return produced, st')
       /\ map step_name produced `prefix_of` map name failing_flow
       /\ (aborts produced = false ->
           map step_name produced = map name failing_flow).
Proof.
  assert (Huntagged : Forall (fun s => Py.truthy_opt (parallel_group s) = false)
                        failing_flow)
    by (repeat constructor).
  split; [exact Huntagged|].
  exact (@sequential_flow_needs_no_pool demo_host 0 failing_flow demo_store
           Huntagged).
Defined.

(** X20 at the flow with a parallel group, with no worker. *)
Lemma no_worker_no_parallel_completion_witness :
  (0 <= 0)%Z
  /\ Exists (fun g => (2 <= length g)%nat)
       (FlowExecutor._group_steps_by_parallelism abort_flow)
  /\ match (@Orchestrator.execute_flow demo_host 0 abort_flow
              demo_store).1 with
     | Return produced => aborts produced = true
     | Raised e => Py.exn_type e = "ValueError"%string
     end.
Proof.
  assert (Hworkers : (0 <= 0)%Z) by reflexivity.
  assert (Hparallel : Exists (fun g => (2 <= length g)%nat)
                        (FlowExecutor._group_steps_by_parallelism abort_flow)).
  { change (FlowExecutor._group_steps_by_parallelism abort_flow)
      with [[load]; [left_step; boom; slow]; [after]].
    apply Exists_cons_tl, Exists_cons_hd. simpl. lia. }
  split; [exact Hworkers|]. split; [exact Hparallel|].
  exact (@no_worker_no_parallel_completion demo_host 0 abort_flow demo_store
           Hworkers Hparallel).
Defined.

(** X21 at the aborting flow. *)
Lemma has_critical_errors_after_run_witness :
  (0 < 4)%Z
  /\ has_critical_errors (context demo_store) = false
  /\ exists produced st',
       @Orchestrator.execute_flow demo_host 4 abort_flow demo_store
       = (Return produced, st')
       /\ (has_critical_errors (context st') = true
           <-> exists r, r ∈ produced /\ status r = CRITICAL_ERROR)
       /\ (has_critical_errors (context st') = false ->
           dispatched (history st')
           = dispatched (history demo_store) ++ abort_flow
           /\ length produced = length abort_flow).
Proof.
  assert (Hworkers : (0 < 4)%Z) by reflexivity.
  assert (Hclean : has_critical_errors (context demo_store) = false)
    by reflexivity.
  split; [exact Hworkers|]. split; [exact Hclean|].
  exact (@has_critical_errors_after_run demo_host 4 abort_flow demo_store
           Hworkers Hclean).
Defined.

(** X22 at the flow with an ordinary failure. *)
Lemma successful_steps_after_run_witness :
  (0 < 4)%Z
  /\ exists produced st',
       @Orchestrator.execute_flow demo_host 4 failing_flow demo_store
       = (Return produced, st')
       /\ ContextQueries.get_successful_steps (context st')
          = ContextQueries.get_successful_steps (context demo_store)
            ++ map step_name
                 (filter (fun r => status r = SUCCESS) produced)
       /\ Forall (fun n => n ∈ map name failing_flow)
            (map step_name (filter (fun r => status r = SUCCESS) produced))
       /\ (length (filter (fun r => status r = SUCCESS) produced)
           <= length failing_flow)%nat.
Proof.
  assert (Hworkers : (0 < 4)%Z) by reflexivity.
  split; [exact Hworkers|].
  exact (@successful_steps_after_run demo_host 4 failing_flow demo_store
           Hworkers).
Defined.

(** X25 at a group with a worker that raises. *)
Lemma parallel_group_absorbs_worker_faults_witness :
  (0 < 4)%Z
  /\ [left_step; boom; slow] <> []
  /\ (exists out st',
        @FlowExecutor._execute_parallel_steps demo_host 4 faulty_runner
          [left_step; boom; slow] demo_context demo_store
        = (Return out, st')
        /\ length out = length [left_step; boom; slow]
        /\ collected faulty_runner demo_context
             (@completion_order demo_host (outside demo_store)
                [left_step; boom; slow])
             (submitted [left_step; boom; slow] demo_store) out st')
     /\ (forall step e st1 rest acc,
           @FlowExecutor._execute_single_step demo_host faulty_runner step
             (context demo_store) demo_store = (Raised e, st1) ->
           @FlowExecutor.execute_groups demo_host 4 faulty_runner
             ([step] :: rest) acc demo_store
           = (Raised e, st1)).
Proof.
  assert (Hworkers : (0 < 4)%Z) by reflexivity.
  assert (Hne : [left_step; boom; slow] <> []) by discriminate.
  split; [exact Hworkers|]. split; [exact Hne|].
  exact (@parallel_group_absorbs_worker_faults demo_host 4 faulty_runner
           [left_step; boom; slow] demo_context demo_store Hworkers Hne).
Defined.

End MoreRuns.
